(** * MoodMunchies: the hybrid restaurant ranking core

  A shallow embedding of the Python package [python_ml/ml_engine]
  (content scorer, search matcher, collaborative filter, enrichment
  gateway, hybrid ranker, voice preference extractor) and the
  properties stated about it.

  Conventions of the embedding.
  - Python floats are exact rationals ([Q]); [0.30] is [3#10].
  - Python [str] is [string], restricted to ASCII: [lower], [strip]
    and the regular-expression classes [\w] and [\s] are the ASCII ones.
  - A [dict] whose iteration order is observable is an association
    list in insertion order; a missing record field read with
    [.get(k, default)] is the default value.
  - scikit-learn, NumPy and [json] are not part of the package: the
    TF-IDF cosine of a text against a row of a fitted corpus, the
    square root behind the row norms of [cosine_similarity] and
    [json.loads] are fields of the classes [Sklearn] and [Json], and the
    AI provider is an argument of the calls that reach it.
  - [not self.restaurant_vectors] is read as the test that no index
    was built, an exception as a value of [outcome]. *)

From Stdlib Require Import QArith ZArith List String Ascii Bool Lia Lqa.
From Stdlib Require Import Permutation Sorted.
Import ListNotations.

Local Open Scope bool_scope.

(** ** Python built-ins *)

Module Py.

(** Comparison of floats. *)
Definition ltb (x y : Q) : bool := negb (Qle_bool y x).
Definition gtb (x y : Q) : bool := ltb y x.
Definition geb (x y : Q) : bool := Qle_bool y x.
Definition is_zero (x : Q) : bool := Qeq_bool x 0.

(** [min(a, b)] and [max(a, b)]: the first argument wins a tie. *)
Definition min (a b : Q) : Q := if ltb b a then b else a.
Definition max (a b : Q) : Q := if ltb a b then b else a.

(** [str.lower()] on ASCII. *)
Definition lower_ascii (c : ascii) : ascii :=
  let n := nat_of_ascii c in
  if (65 <=? n)%nat && (n <=? 90)%nat then ascii_of_nat (n + 32) else c.

Fixpoint lower (s : string) : string :=
  match s with
  | EmptyString => EmptyString
  | String c r => String (lower_ascii c) (lower r)
  end.

(** [str.isspace()] on one ASCII character. *)
Definition is_space (c : ascii) : bool :=
  let n := nat_of_ascii c in
  ((9 <=? n)%nat && (n <=? 13)%nat) || ((28 <=? n)%nat && (n <=? 32)%nat).

(** The class [\w] of [re]. *)
Definition is_word (c : ascii) : bool :=
  let n := nat_of_ascii c in
  ((48 <=? n)%nat && (n <=? 57)%nat) || ((65 <=? n)%nat && (n <=? 90)%nat)
  || ((97 <=? n)%nat && (n <=? 122)%nat) || (n =? 95)%nat.

Fixpoint lstrip (s : string) : string :=
  match s with
  | String c r => if is_space c then lstrip r else s
  | EmptyString => EmptyString
  end.

Fixpoint rev_onto (s acc : string) : string :=
  match s with
  | EmptyString => acc
  | String c r => rev_onto r (String c acc)
  end.

Definition rev (s : string) : string := rev_onto s EmptyString.
Definition rstrip (s : string) : string := rev (lstrip (rev s)).
Definition strip (s : string) : string := rstrip (lstrip s).

(** [needle in hay] *)
Fixpoint contains (needle hay : string) : bool :=
  prefix needle hay
  || match hay with
     | EmptyString => false
     | String _ r => contains needle r
     end.

Definition startswith (s p : string) : bool := prefix p s.
Definition endswith (s p : string) : bool := prefix (rev p) (rev s).

(** [s[n:]] and [s[:-n]] *)
Fixpoint drop (n : nat) (s : string) : string :=
  match n, s with
  | O, _ => s
  | S k, String _ r => drop k r
  | S _, EmptyString => EmptyString
  end.
Definition drop_end (n : nat) (s : string) : string := rev (drop n (rev s)).

(** [sep.join(parts)] *)
Definition join (sep : string) (parts : list string) : string :=
  String.concat sep parts.

(** [s.split()]: the maximal runs of non-space characters. *)
Fixpoint split_go (s : string) (cur : string) : list string :=
  match s with
  | EmptyString => if String.eqb cur EmptyString then [] else [rev cur]
  | String c r =>
      if is_space c
      then (if String.eqb cur EmptyString then split_go r EmptyString
            else rev cur :: split_go r EmptyString)
      else split_go r (String c cur)
  end.
Definition split (s : string) : list string := split_go s EmptyString.

(** [x in xs] for a list of strings. *)
Definition mem (x : string) (xs : list string) : bool :=
  existsb (String.eqb x) xs.

(** [any(word in text for word in words)] *)
Definition any_in (words : list string) (text : string) : bool :=
  existsb (fun w => contains w text) words.

(** [d.get(k, default)] on a dict from strings to floats. *)
Fixpoint get (d : list (string * Q)) (k : string) (default : Q) : Q :=
  match d with
  | [] => default
  | (k', v) :: r => if String.eqb k k' then v else get r k default
  end.

(** [xs.sort(key=..., reverse=True)]: the sort is stable, and with
    [reverse=True] elements of equal key keep their original order. *)
Section Sort.
Context {A : Type} (key : A -> Q).

Fixpoint insert_desc (x : A) (l : list A) : list A :=
  match l with
  | [] => [x]
  | y :: r => if ltb (key x) (key y) then y :: insert_desc x r else x :: l
  end.

Fixpoint sort_desc (l : list A) : list A :=
  match l with
  | [] => []
  | x :: r => insert_desc x (sort_desc r)
  end.
End Sort.

(** [enumerate(xs)] *)
Definition enumerate {A : Type} (l : list A) : list (nat * A) :=
  combine (seq 0 (List.length l)) l.

(** A [dict] in insertion order: [d.get(k)], [k in d], [d[k] = v] (an
    existing key keeps its place), and a [set] in the order its
    elements were first added. *)
Section Dict.
Context {K V : Type} (eqb : K -> K -> bool).

Fixpoint lookup (d : list (K * V)) (k : K) : option V :=
  match d with
  | [] => None
  | (k', v) :: r => if eqb k k' then Some v else lookup r k
  end.

Definition has_key (d : list (K * V)) (k : K) : bool :=
  match lookup d k with Some _ => true | None => false end.

Fixpoint setitem (d : list (K * V)) (k : K) (v : V) : list (K * V) :=
  match d with
  | [] => [(k, v)]
  | (k', v') :: r =>
      if eqb k k' then (k', v) :: r else (k', v') :: setitem r k v
  end.

Definition set_mem (s : list K) (k : K) : bool := existsb (eqb k) s.

Definition set_add (s : list K) (k : K) : list K :=
  if set_mem s k then s else s ++ [k].
End Dict.

(** [sorted(xs)] for an order [leb]. *)
Section Sorted.
Context {A : Type} (leb : A -> A -> bool).

Fixpoint insert_asc (x : A) (l : list A) : list A :=
  match l with
  | [] => [x]
  | y :: r => if leb x y then x :: l else y :: insert_asc x r
  end.

Fixpoint sorted (l : list A) : list A :=
  match l with
  | [] => []
  | x :: r => insert_asc x (sorted r)
  end.
End Sorted.

End Py.

(** ** Data model *)

(** The preference dictionary handed between the layers. *)
Record Preferences := {
  p_mood : string;
  p_occasion : string;
  p_cuisine : string;
  p_dietaryPreference : string;
  p_time : string;
  p_location : option string;
  p_additionalNotes : option string
}.

(** A restaurant record of the JSON catalog; the last four fields are
  the provenance tags written by the enrichment gateway. *)
Record Restaurant := {
  id : Z;
  restaurantName : string;
  cuisine : string;
  location : string;
  address : string;
  contactDetails : string;
  popularDishes : list string;
  dietaryOptions : list string;
  priceRange : string;
  ambiance : string;
  moodScores : list (string * Q);
  occasionScores : list (string * Q);
  timeScores : list (string * Q);
  source : option string;
  query : option string;
  location_hint : option (option string);
  user_preferences : option Preferences
}.

(** A scored entry [{'restaurant': r, 'score': s}]. *)
Record Scored := { restaurant : Restaurant; score : Q }.

(** The flags of [_process_additional_notes]. *)
Record NotesPreferences := {
  spicy : Q;
  quiet : Q;
  romantic : Q;
  family_friendly : Q;
  healthy : Q;
  fast : Q;
  affordable : Q;
  upscale : Q
}.

(** ** scikit-learn and NumPy, as the package uses them

    [tfidf_cosine corpus text i] is the cosine similarity between the
    TF-IDF vector of [text] and row [i] of the matrix fitted on [corpus]
    by the vectorizer of [RestaurantRecommendationEngine];
    [search_cosine] is the same for the vectorizer of
    [SearchQueryMatcher]; [float_sqrt] is the square root behind the row
    norms of [cosine_similarity]. *)
Class Sklearn := {
  tfidf_cosine : list string -> string -> nat -> Q;
  search_cosine : list string -> string -> nat -> Q;
  float_sqrt : Q -> Q
}.

(** ** recommendation_engine.py: the content scorer *)

Section ContentScorer.

Context {sk : Sklearn}.

Definition feature_text (r : Restaurant) : string :=
  Py.join " " [cuisine r; ambiance r; Py.join " " (popularDishes r);
               Py.join " " (dietaryOptions r); priceRange r].

(** The corpus [_build_feature_vectors] fits on. *)
Definition restaurant_texts (restaurants : list Restaurant) : list string :=
  map feature_text restaurants.

Definition _calculate_mood_score (r : Restaurant) (mood : string) : Q :=
  Py.get (moodScores r) (Py.lower mood) 0.5.

Definition _calculate_occasion_score (r : Restaurant) (occasion : string) : Q :=
  Py.get (occasionScores r) (Py.lower occasion) 0.5.

Definition _calculate_time_score (r : Restaurant) (time : string) : Q :=
  Py.get (timeScores r) (Py.lower time) 0.5.

Definition _check_dietary_compatibility
    (r : Restaurant) (dietary_preference : string) : bool :=
  let dietary_options := map Py.lower (dietaryOptions r) in
  let dietary_preference_lower := Py.lower dietary_preference in
  if String.eqb dietary_preference_lower "non-vegetarian"
  then Py.mem "non-vegetarian" dietary_options
       || negb (Py.mem "vegetarian" dietary_options)
  else Py.mem dietary_preference_lower dietary_options.

Definition _check_cuisine_match (r : Restaurant) (preferred_cuisine : string) : Q :=
  if String.eqb (Py.lower preferred_cuisine) "any" then 1.0
  else if String.eqb (Py.lower (cuisine r)) (Py.lower preferred_cuisine)
       then 1.0 else 0.3.

Definition flag (words : list string) (notes_lower : string) : Q :=
  if Py.any_in words notes_lower then 1.0 else 0.0.

(** [None] is the empty dict returned for absent or empty notes. *)
Definition _process_additional_notes (notes : option string)
  : option NotesPreferences :=
  match notes with
  | None => None
  | Some EmptyString => None
  | Some n =>
      let notes_lower := Py.lower n in
      Some {|
        spicy := flag ["spicy"; "hot"; "heat"; "fiery"] notes_lower;
        quiet := flag ["quiet"; "peaceful"; "calm"; "serene"] notes_lower;
        romantic := flag ["romantic"; "date"; "intimate"; "cozy"] notes_lower;
        family_friendly := flag ["family"; "kids"; "children"] notes_lower;
        healthy := flag ["healthy"; "fresh"; "light"; "nutritious"] notes_lower;
        fast := flag ["fast"; "quick"; "quickly"; "hurry"] notes_lower;
        affordable :=
          flag ["cheap"; "affordable"; "budget"; "inexpensive"] notes_lower;
        upscale := flag ["fancy"; "upscale"; "elegant"; "fine dining"] notes_lower
      |}
  end%string.

(** One [if notes_preferences.get(flag, 0) > 0:] block: the pair
    (score, total_weight) after it. *)
Definition notes_step (active : Q) (matched : bool) (w : Q) (acc : Q * Q) : Q * Q :=
  if Py.gtb active 0
  then ((if matched then fst acc + w else fst acc), snd acc + w)
  else acc.

Definition notes_accumulate (r : Restaurant) (np : NotesPreferences) : Q * Q :=
  let ambiance := Py.lower (ambiance r) in
  let price_range := Py.lower (priceRange r) in
  let acc := (0.0, 0.0) in
  let acc := notes_step (spicy np)
               (Py.mem (Py.lower (cuisine r))
                  ["indian"; "mexican"; "thai"; "chinese"]%string) 0.3 acc in
  let acc := notes_step (quiet np)
               (Py.any_in ["quiet"; "peaceful"; "serene"; "calm"]%string ambiance)
               0.2 acc in
  let acc := notes_step (romantic np)
               (Py.any_in ["romantic"; "intimate"; "cozy"; "elegant"]%string ambiance)
               0.2 acc in
  let acc := notes_step (family_friendly np)
               (Py.any_in ["family"; "casual"; "friendly"]%string ambiance)
               0.2 acc in
  let acc := notes_step (healthy np)
               (Py.any_in ["healthy"; "fresh"; "light"]%string ambiance)
               0.2 acc in
  let acc := notes_step (affordable np)
               (String.eqb price_range "affordable") 0.2 acc in
  let acc := notes_step (upscale np)
               (Py.mem price_range ["expensive"; "moderate"]%string) 0.2 acc in
  acc.

Definition _calculate_notes_score
    (r : Restaurant) (notes_preferences : option NotesPreferences) : Q :=
  match notes_preferences with
  | None => 1.0
  | Some np =>
      let '(score, total_weight) := notes_accumulate r np in
      if Py.gtb total_weight 0 then score / total_weight else 1.0
  end.

(** [next(i for i, r in enumerate(restaurants) if r['id'] == rid)] *)
Fixpoint index_of_id (restaurants : list Restaurant) (rid : Z) : option nat :=
  match restaurants with
  | [] => None
  | r :: rest =>
      if Z.eqb (id r) rid then Some O
      else option_map S (index_of_id rest rid)
  end.

Definition user_text (p : Preferences) : string :=
  Py.join " " [p_cuisine p; p_dietaryPreference p; p_mood p; p_occasion p].

(** [self.restaurant_vectors] is [None] exactly for an empty catalog. *)
Definition _calculate_content_similarity
    (restaurants : list Restaurant) (p : Preferences) (r : Restaurant) : Q :=
  match restaurants with
  | [] => 0.5
  | _ =>
      match index_of_id restaurants (id r) with
      | None => 0.5
      | Some restaurant_idx =>
          Py.max 0.0
            (tfidf_cosine (restaurant_texts restaurants) (user_text p)
               restaurant_idx)
      end
  end.

(** The body of the scoring loop for one eligible restaurant. *)
Definition final_score
    (restaurants : list Restaurant) (p : Preferences)
    (notes_preferences : option NotesPreferences) (r : Restaurant) : Q :=
  let mood_score := _calculate_mood_score r (p_mood p) in
  let occasion_score := _calculate_occasion_score r (p_occasion p) in
  let time_score := _calculate_time_score r (p_time p) in
  let cuisine_score := _check_cuisine_match r (p_cuisine p) in
  let notes_score := _calculate_notes_score r notes_preferences in
  let content_similarity := _calculate_content_similarity restaurants p r in
  mood_score * 0.30 + occasion_score * 0.30 + time_score * 0.10
  + cuisine_score * 0.10 + content_similarity * 0.10 + notes_score * 0.10.

(** [scored_restaurants] when the loop of [recommend] ends. *)
Definition scored_restaurants
    (restaurants : list Restaurant) (p : Preferences) : list Scored :=
  let notes_preferences := _process_additional_notes (p_additionalNotes p) in
  map (fun r => {| restaurant := r;
                   score := final_score restaurants p notes_preferences r |})
      (filter (fun r => _check_dietary_compatibility r (p_dietaryPreference p))
              restaurants).

(** [RestaurantRecommendationEngine.recommend] *)
Definition base_recommend
    (restaurants : list Restaurant) (p : Preferences) : list Scored :=
  firstn 9 (Py.sort_desc score (scored_restaurants restaurants p)).

End ContentScorer.

(** ** search_matcher.py *)

Module SearchItem.
Record t := {
  restaurant : Restaurant;
  search_score : Q;
  semantic_score : Q;
  keyword_score : Q
}.
End SearchItem.

(** The dict returned by [match_query_to_preferences]. *)
Record QueryPreferences := {
  q_mood : option string;
  q_occasion : option string;
  q_cuisine : option string;
  q_dietary : option string;
  q_price_range : option string;
  q_keywords : list string
}.

Section SearchQueryMatcher.

Context {sk : Sklearn}.

(** The text [_build_search_index] indexes for one restaurant. *)
Definition search_text (r : Restaurant) : string :=
  Py.lower
    (Py.join " " [restaurantName r; cuisine r; location r; address r;
                  ambiance r; Py.join " " (popularDishes r);
                  Py.join " " (dietaryOptions r); priceRange r]).

Definition search_texts (restaurants : list Restaurant) : list string :=
  map search_text restaurants.

(** [re.sub(r'[^\w\s]', ' ', s)] *)
Fixpoint blank_special (s : string) : string :=
  match s with
  | EmptyString => EmptyString
  | String c r =>
      String (if Py.is_word c || Py.is_space c then c else " "%char)
             (blank_special r)
  end.

Definition _extract_keywords (query : string) : list string :=
  let query_clean := blank_special (Py.lower query) in
  filter (fun word => (2 <? String.length word)%nat) (Py.split query_clean).

Definition _keyword_match_score (r : Restaurant) (keywords : list string) : Q :=
  match keywords with
  | [] => 0.0
  | _ =>
      let searchable_text :=
        Py.join " " [Py.lower (restaurantName r); Py.lower (cuisine r);
                     Py.lower (location r); Py.lower (ambiance r);
                     Py.join " " (map Py.lower (popularDishes r))] in
      let matches :=
        List.length
          (filter (fun keyword => Py.contains keyword searchable_text) keywords) in
      inject_Z (Z.of_nat matches) / inject_Z (Z.of_nat (List.length keywords))
  end.

(** [SearchQueryMatcher(restaurants).search(query, top_k, min_score)];
    the index is [None] exactly when [restaurants] is empty. *)
Definition search (restaurants : list Restaurant) (query : string)
    (top_k : nat) (min_score : Q) : list SearchItem.t :=
  match query, restaurants with
  | EmptyString, _ => []
  | _, [] => []
  | _, _ =>
      let keywords := _extract_keywords query in
      let corpus := search_texts restaurants in
      let scored_restaurants :=
        flat_map
          (fun '(idx, r) =>
             let semantic_score := search_cosine corpus (Py.lower query) idx in
             let keyword_score := _keyword_match_score r keywords in
             let combined_score := semantic_score * 0.7 + keyword_score * 0.3 in
             if Py.geb combined_score min_score
             then [{| SearchItem.restaurant := r;
                      SearchItem.search_score := combined_score;
                      SearchItem.semantic_score := semantic_score;
                      SearchItem.keyword_score := keyword_score |}]
             else [])
          (Py.enumerate restaurants) in
      firstn top_k (Py.sort_desc SearchItem.search_score scored_restaurants)
  end.

(** A keyword table scanned in order: the first category one of whose
    keywords occurs in the query. *)
Fixpoint first_category (table : list (string * list string)) (query_lower : string)
  : option string :=
  match table with
  | [] => None
  | (value, keywords) :: rest =>
      if Py.any_in keywords query_lower then Some value
      else first_category rest query_lower
  end.

Definition mood_keywords : list (string * list string) :=
  [("happy", ["happy"; "cheerful"; "joyful"; "excited"]);
   ("sad", ["sad"; "down"; "depressed"; "blue"]);
   ("stressed", ["stressed"; "tired"; "exhausted"; "busy"]);
   ("adventurous", ["adventurous"; "exciting"; "new"; "try"]);
   ("relaxed", ["relaxed"; "calm"; "peaceful"; "chill"]);
   ("celebratory", ["celebrate"; "celebration"; "special"; "party"])]%string.

Definition occasion_keywords : list (string * list string) :=
  [("casual meal", ["casual"; "quick"; "simple"]);
   ("celebration", ["celebration"; "birthday"; "anniversary"; "special"]);
   ("quick bite", ["quick"; "fast"; "grab"]);
   ("date night", ["date"; "romantic"; "dinner date"]);
   ("family dinner", ["family"; "kids"; "children"])]%string.

Definition cuisine_keywords : list (string * list string) :=
  [("italian", ["italian"; "pasta"; "pizza"]);
   ("mexican", ["mexican"; "taco"; "burrito"]);
   ("indian", ["indian"; "curry"; "tikka"]);
   ("japanese", ["japanese"; "sushi"; "ramen"]);
   ("chinese", ["chinese"; "dim sum"]);
   ("american", ["american"; "burger"; "bbq"])]%string.

(** [preferences[k] = v] when a category matched, else the hint stays. *)
Definition or_hint (found hint : option string) : option string :=
  match found with Some v => Some v | None => hint end.

Definition match_query_to_preferences (query : string)
    (mood occasion cuisine : option string) : QueryPreferences :=
  let query_lower := Py.lower query in
  {| q_mood := or_hint (first_category mood_keywords query_lower) mood;
     q_occasion := or_hint (first_category occasion_keywords query_lower) occasion;
     q_cuisine := or_hint (first_category cuisine_keywords query_lower) cuisine;
     q_dietary :=
       if Py.any_in ["vegetarian"; "veggie"]%string query_lower
       then Some "vegetarian"%string
       else if Py.any_in ["vegan"]%string query_lower then Some "vegan"%string
       else if Py.any_in ["gluten-free"; "gluten free"]%string query_lower
            then Some "gluten-free"%string
            else None;
     q_price_range :=
       if Py.any_in ["cheap"; "affordable"; "budget"]%string query_lower
       then Some "affordable"%string
       else if Py.any_in ["expensive"; "fancy"; "upscale"; "fine dining"]%string
                 query_lower
            then Some "expensive"%string
            else None;
     q_keywords := _extract_keywords query |}.

End SearchQueryMatcher.

(** ** collaborative_filtering.py *)

(** One entry of the interaction log.  [None] is an absent key; a
    [userId] or [restaurantId] that is [None], the empty string or [0]
    is falsy. *)
Record Interaction := {
  userId : option string;
  restaurantId : option Z;
  timestamp : string;
  rating : option Q;
  clicked : bool;
  viewed : bool
}.

Module CollabItem.
Record t := { restaurant : Restaurant; collaborative_score : Q }.
End CollabItem.

(** [user_similarity_matrix]: user id to (other user id to similarity). *)
Definition SimilarityMatrix := list (string * list (string * Q)).

(** The state of a [CollaborativeFiltering] object. *)
Record CollaborativeFiltering := {
  user_interactions : list Interaction;
  user_similarity_matrix : SimilarityMatrix
}.

Section CollaborativeFilter.

Context {sk : Sklearn}.

(** [if user_id and restaurant_id:] gives the pair when both are truthy. *)
Definition truthy_ids (i : Interaction) : option (string * Z) :=
  match userId i, restaurantId i with
  | Some u, Some r =>
      if String.eqb u EmptyString || Z.eqb r 0 then None else Some (u, r)
  | _, _ => None
  end.

Definition get_rating (i : Interaction) : Q :=
  match rating i with Some x => x | None => 0 end.

Definition interaction_score (i : Interaction) : Q :=
  let score := get_rating i * 2.0 in
  let score := if clicked i then score + 1.0 else score in
  if viewed i then score + 0.5 else score.

(** The three accumulators of the first loop of
    [_build_similarity_matrix]. *)
Record Accumulated := {
  user_restaurant_matrix : list (string * list (Z * Q));
  user_ids : list string;
  restaurant_ids : list Z
}.

Definition accumulate_step (acc : Accumulated) (i : Interaction) : Accumulated :=
  match truthy_ids i with
  | None => acc
  | Some (user_id, restaurant_id) =>
      let row :=
        match Py.lookup String.eqb (user_restaurant_matrix acc) user_id with
        | Some row => row
        | None => []
        end in
      {| user_restaurant_matrix :=
           Py.setitem String.eqb (user_restaurant_matrix acc) user_id
             (Py.setitem Z.eqb row restaurant_id (interaction_score i));
         user_ids := Py.set_add String.eqb (user_ids acc) user_id;
         restaurant_ids := Py.set_add Z.eqb (restaurant_ids acc) restaurant_id |}
  end.

Definition accumulate (log : list Interaction) : Accumulated :=
  fold_left accumulate_step log
    {| user_restaurant_matrix := []; user_ids := []; restaurant_ids := [] |}.

(** [user_restaurant_matrix[user_id].get(rest_id, 0.0)] *)
Definition matrix_entry (m : list (string * list (Z * Q))) (user_id : string)
    (rest_id : Z) : Q :=
  match Py.lookup String.eqb m user_id with
  | Some row =>
      match Py.lookup Z.eqb row rest_id with Some s => s | None => 0.0 end
  | None => 0.0
  end.

Definition dot (x y : list Q) : Q :=
  fold_right Qplus 0 (map (fun '(a, b) => a * b) (combine x y)).

(** [sklearn.preprocessing.normalize]: a row of norm zero is left as it is. *)
Definition normalize (x : list Q) : list Q :=
  let norm := float_sqrt (dot x x) in
  let norm := if Py.is_zero norm then 1 else norm in
  map (fun v => v / norm) x.

(** [sklearn.metrics.pairwise.cosine_similarity(X)]: the products of
    the normalized rows. *)
Definition cosine_similarity (X : list (list Q)) : list (list Q) :=
  let X_normalized := map normalize X in
  map (fun xi => map (fun xj => dot xi xj) X_normalized) X_normalized.

Definition _build_similarity_matrix (log : list Interaction) : SimilarityMatrix :=
  match log with
  | [] => []
  | _ =>
      let acc := accumulate log in
      match user_ids acc with
      | [] => []
      | _ =>
          let user_ids_list := Py.sorted String.leb (user_ids acc) in
          let restaurant_ids_list := Py.sorted Z.leb (restaurant_ids acc) in
          let user_vectors :=
            map (fun user_id =>
                   map (matrix_entry (user_restaurant_matrix acc) user_id)
                       restaurant_ids_list)
                user_ids_list in
          if (1 <? List.length user_vectors)%nat
          then
            let similarity_matrix := cosine_similarity user_vectors in
            map (fun '(i, user_id_i) =>
                   (user_id_i,
                    flat_map
                      (fun '(j, user_id_j) =>
                         if (i =? j)%nat then []
                         else [(user_id_j,
                                nth j (nth i similarity_matrix []) 0)])
                      (Py.enumerate user_ids_list)))
                (Py.enumerate user_ids_list)
          else []
      end
  end.

(** [CollaborativeFiltering(path)], the log being what the file holds. *)
Definition load (log : list Interaction) : CollaborativeFiltering :=
  {| user_interactions := log;
     user_similarity_matrix := _build_similarity_matrix log |}.

(** [max(0.0, min(5.0, rating))] *)
Definition clamp_rating (rating : Q) : Q := Py.max 0.0 (Py.min 5.0 rating).

Definition add_interaction (cf : CollaborativeFiltering) (user_id : string)
    (restaurant_id : Z) (rating : option Q) (clicked viewed : bool)
    (now : string) : CollaborativeFiltering :=
  let interaction :=
    {| userId := Some user_id;
       restaurantId := Some restaurant_id;
       timestamp := now;
       rating := option_map clamp_rating rating;
       clicked := clicked;
       viewed := viewed |} in
  load (user_interactions cf ++ [interaction]).

Definition get_similar_users (cf : CollaborativeFiltering) (user_id : string)
    (top_k : nat) : list (string * Q) :=
  match Py.lookup String.eqb (user_similarity_matrix cf) user_id with
  | None => []
  | Some row => firstn top_k (Py.sort_desc snd row)
  end.

(** [user_restaurant_interactions]: user id to the set of restaurant
    ids of its interactions. *)
Definition interactions_step (d : list (string * list Z)) (i : Interaction)
  : list (string * list Z) :=
  match truthy_ids i with
  | None => d
  | Some (uid, rid) =>
      let s := match Py.lookup String.eqb d uid with
               | Some s => s
               | None => []
               end in
      Py.setitem String.eqb d uid (Py.set_add Z.eqb s rid)
  end.

Definition user_restaurant_interactions (log : list Interaction)
  : list (string * list Z) :=
  fold_left interactions_step log [].

(** [user_restaurant_interactions.get(user, set())] *)
Definition restaurants_of (d : list (string * list Z)) (user : string) : list Z :=
  match Py.lookup String.eqb d user with Some s => s | None => [] end.

(** [collaborative_scores[restaurant_id] += similarity], from 0.0. *)
Definition add_similarity (similarity : Q) (scores : list (Z * Q))
    (restaurant_id : Z) : list (Z * Q) :=
  let current := match Py.lookup Z.eqb scores restaurant_id with
                 | Some s => s
                 | None => 0.0
                 end in
  Py.setitem Z.eqb scores restaurant_id (current + similarity).

Definition collaborative_scores (d : list (string * list Z))
    (similar_users : list (string * Q)) : list (Z * Q) :=
  fold_left
    (fun scores '(similar_user_id, similarity) =>
       fold_left (add_similarity similarity) (restaurants_of d similar_user_id)
                 scores)
    similar_users [].

(** [{r['id']: r for r in restaurants}[restaurant_id]]: the last
    restaurant of that id. *)
Fixpoint restaurant_dict (restaurants : list Restaurant) (restaurant_id : Z)
  : option Restaurant :=
  match restaurants with
  | [] => None
  | r :: rest =>
      match restaurant_dict rest restaurant_id with
      | Some r' => Some r'
      | None => if Z.eqb (id r) restaurant_id then Some r else None
      end
  end.

(** The rating aggregate [restaurant_scores] of the source is never
    read and is left out. *)
Definition get_collaborative_recommendations (cf : CollaborativeFiltering)
    (user_id : string) (restaurants : list Restaurant) (top_k : nat)
  : list CollabItem.t :=
  match Py.lookup String.eqb (user_similarity_matrix cf) user_id with
  | None => []
  | Some _ =>
      match get_similar_users cf user_id 10 with
      | [] => []
      | similar_users =>
          let d := user_restaurant_interactions (user_interactions cf) in
          let scores := collaborative_scores d similar_users in
          let user_restaurants := restaurants_of d user_id in
          let scored_restaurants :=
            flat_map
              (fun '(restaurant_id, score) =>
                 match restaurant_dict restaurants restaurant_id with
                 | Some r =>
                     if Py.set_mem Z.eqb user_restaurants restaurant_id then []
                     else [{| CollabItem.restaurant := r;
                              CollabItem.collaborative_score := score |}]
                 | None => []
                 end)
              scores in
          firstn top_k
            (Py.sort_desc CollabItem.collaborative_score scored_restaurants)
      end
  end.

End CollaborativeFilter.

(** ** ai_data_fetcher.py: the enrichment gateway *)

(** A Python exception that derives from [Exception], by its class name. *)
Inductive exn := Exception (class_name : string).

(** What evaluating a Python expression comes to. *)
Inductive outcome (A : Type) :=
| Returns (a : A)
| Raises (e : exn).
Arguments Returns {A} a.
Arguments Raises {A} e.

Definition bind {A B : Type} (m : outcome A) (k : A -> outcome B) : outcome B :=
  match m with
  | Returns a => k a
  | Raises e => Raises e
  end.

(** [try: body  except Exception as e: handler(e)] *)
Definition try_except {A : Type} (body : outcome A) (handler : exn -> outcome A)
  : outcome A :=
  match body with
  | Returns a => Returns a
  | Raises e => handler e
  end.

Notation "x <- m ;; k" := (bind m (fun x => k))
  (at level 61, m at next level, right associativity).
Notation "' pat <- m ;; k" := (bind m (fun x => let 'pat := x in k))
  (at level 61, pat pattern, m at next level, right associativity).

(** [json.loads] on the reply of a provider, a single object wrapped
    into a one-element list; it raises on text that is not JSON. *)
Class Json := { json_loads : string -> outcome (list Restaurant) }.

(** The external AI provider: from the query, the location and the
    number of restaurants asked for in the prompt to the text of its
    reply, or the exception the client library raises. *)
Definition Provider := string -> option string -> nat -> outcome string.

Record Providers := { gemini : Provider; openai : Provider }.

(** The state of an [AIDataFetcher]: which clients were set up, the
    fetched-restaurant store and the base catalog. *)
Record AIDataFetcher := {
  openai_client : bool;
  gemini_model : bool;
  fetched_data : list Restaurant;
  base_restaurants : list Restaurant
}.

Section EnrichmentGateway.

Context {js : Json}.

(** [re.sub(r'[^\w\s]', '', s)] *)
Fixpoint drop_special (s : string) : string :=
  match s with
  | EmptyString => EmptyString
  | String c r =>
      if Py.is_word c || Py.is_space c then String c (drop_special r)
      else drop_special r
  end.

(** [re.sub(r'\s+', ' ', s)]; [in_run] says the previous character was
    a space of the run being replaced. *)
Fixpoint collapse_spaces (in_run : bool) (s : string) : string :=
  match s with
  | EmptyString => EmptyString
  | String c r =>
      if Py.is_space c
      then (if in_run then collapse_spaces true r
            else String " " (collapse_spaces true r))
      else String c (collapse_spaces false r)
  end.

Definition _normalize_text (text : string) : string :=
  collapse_spaces false (drop_special (Py.strip (Py.lower text))).

(** The body of the loop of [_is_duplicate] for one existing record. *)
Definition duplicate_of (new_name new_address : string) (existing : Restaurant)
  : bool :=
  let existing_name := _normalize_text (restaurantName existing) in
  let existing_address := _normalize_text (address existing) in
  if String.eqb new_name existing_name then true
  else if negb (String.eqb new_name "") && negb (String.eqb existing_name "")
  then
    if Py.contains new_name existing_name || Py.contains existing_name new_name
    then
      if negb (String.eqb new_address "") && negb (String.eqb existing_address "")
      then String.eqb new_address existing_address
      else (5 <? String.length new_name)%nat
           && (5 <? String.length existing_name)%nat
    else false
  else false.

Definition _is_duplicate (new_restaurant : Restaurant)
    (existing_restaurants : list Restaurant) : bool :=
  let new_name := _normalize_text (restaurantName new_restaurant) in
  let new_address := _normalize_text (address new_restaurant) in
  if String.eqb new_name "" then false
  else existsb (duplicate_of new_name new_address) existing_restaurants.

(** The removal of a wrapping code fence from the reply. *)
Definition strip_code_fence (text : string) : string :=
  let content := Py.strip text in
  let content :=
    if Py.startswith content "```json" then Py.drop 7 content else content in
  let content :=
    if Py.startswith content "```" then Py.drop 3 content else content in
  let content :=
    if Py.endswith content "```" then Py.drop_end 3 content else content in
  Py.strip content.

(** The [try] block shared by [_fetch_with_openai] and
    [_fetch_with_gemini]. *)
Definition ask (provider : Provider) (query : string) (location : option string)
    (max_results : nat) : outcome (list Restaurant) :=
  text <- provider query location max_results ;;
  json_loads (strip_code_fence text).

Definition _fetch_with_openai (f : AIDataFetcher) (ai : Providers)
    (query : string) (location : option string) (max_results : nat)
  : outcome (list Restaurant) :=
  if negb (openai_client f) then Returns []
  else try_except (ask (openai ai) query location max_results)
                  (fun _ => Returns []).

Definition _fetch_with_gemini (f : AIDataFetcher) (ai : Providers)
    (query : string) (location : option string) (max_results : nat)
  : outcome (list Restaurant) :=
  if negb (gemini_model f) then Returns []
  else try_except (ask (gemini ai) query location max_results)
                  (fun _ => Returns []).

(** [pref_parts]: the truthy preferences, labelled. *)
Definition pref_parts (p : Preferences) : list string :=
  let part (label value : string) : list string :=
    if String.eqb value "" then [] else [label ++ value]%string in
  part "mood: "%string (p_mood p) ++ part "occasion: "%string (p_occasion p)
  ++ part "cuisine: "%string (p_cuisine p)
  ++ part "dietary: "%string (p_dietaryPreference p).

Definition enhanced_query (query : string) (user_preferences : option Preferences)
  : string :=
  match user_preferences with
  | None => query
  | Some p =>
      match pref_parts p with
      | [] => query
      | parts => (query ++ ". Preferences: " ++ Py.join ", " parts)%string
      end
  end.

(** [max(existing_ids) + 1 if existing_ids else 1000] *)
Definition next_free_id (all_existing : list Restaurant) : Z :=
  match map id all_existing with
  | [] => 1000
  | i :: ids => fold_left Z.max ids i + 1
  end.

(** The provenance tags and the id written on a new restaurant. *)
Definition tag (r : Restaurant) (next_id : Z) (q : string)
    (loc : option string) (prefs : option Preferences) : Restaurant :=
  {| id := next_id;
     restaurantName := restaurantName r;
     cuisine := cuisine r;
     location := location r;
     address := address r;
     contactDetails := contactDetails r;
     popularDishes := popularDishes r;
     dietaryOptions := dietaryOptions r;
     priceRange := priceRange r;
     ambiance := ambiance r;
     moodScores := moodScores r;
     occasionScores := occasionScores r;
     timeScores := timeScores r;
     source := Some "ai_fetched"%string;
     query := Some q;
     location_hint := Some loc;
     user_preferences :=
       match prefs with Some p => Some p | None => user_preferences r end |}.

(** The loop over [restaurants_data]: [new_restaurants] when it ends. *)
Fixpoint new_restaurants (restaurants_data all_existing : list Restaurant)
    (next_id : Z) (q : string) (loc : option string)
    (prefs : option Preferences) : list Restaurant :=
  match restaurants_data with
  | [] => []
  | r :: rest =>
      if negb (_is_duplicate r all_existing)
      then tag r next_id q loc prefs
           :: new_restaurants rest all_existing (next_id + 1) q loc prefs
      else new_restaurants rest all_existing next_id q loc prefs
  end.

(** "Try Gemini first, then OpenAI": [restaurants_data]. *)
Definition fetch_candidates (f : AIDataFetcher) (ai : Providers)
    (query : string) (loc : option string) (max_results : nat)
  : outcome (list Restaurant) :=
  if gemini_model f then _fetch_with_gemini f ai query loc max_results
  else if openai_client f then _fetch_with_openai f ai query loc max_results
  else Returns [].

(** [fetch_restaurant_data]: the new restaurants and the fetcher with
    them appended to its store. *)
Definition fetch_restaurant_data (f : AIDataFetcher) (ai : Providers)
    (q : string) (loc : option string) (max_results : nat)
    (prefs : option Preferences) : outcome (list Restaurant * AIDataFetcher) :=
  restaurants_data <-
    fetch_candidates f ai (enhanced_query q prefs) loc max_results ;;
  match restaurants_data with
  | [] => Returns ([], f)
  | _ =>
      let all_existing := base_restaurants f ++ fetched_data f in
      let fresh :=
        new_restaurants restaurants_data all_existing
          (next_free_id all_existing) q loc prefs in
      Returns (fresh,
               {| openai_client := openai_client f;
                  gemini_model := gemini_model f;
                  fetched_data := fetched_data f ++ fresh;
                  base_restaurants := base_restaurants f |})
  end.

Definition get_fetched_restaurants (f : AIDataFetcher) : list Restaurant :=
  fetched_data f.

(** The test of [search_fetched_restaurants] on one fetched record. *)
Definition matches_query (query_lower : string) (r : Restaurant) : bool :=
  let restaurant_text :=
    Py.lower (Py.join " " [restaurantName r; cuisine r; location r; ambiance r]) in
  Py.contains query_lower restaurant_text
  || existsb (fun word => Py.contains word restaurant_text)
       (filter (fun word => (2 <? String.length word)%nat)
               (Py.split query_lower)).

Definition search_fetched_restaurants (f : AIDataFetcher) (ai : Providers)
    (q : string) (loc : option string) (prefs : option Preferences)
    (fetch_if_not_found : bool) : outcome (list Restaurant * AIDataFetcher) :=
  let matching := filter (matches_query (Py.lower q)) (get_fetched_restaurants f) in
  match matching with
  | [] =>
      if fetch_if_not_found && (gemini_model f || openai_client f)
      then fetch_restaurant_data f ai q loc 5 prefs
      else Returns ([], f)
  | _ => Returns (matching, f)
  end.

End EnrichmentGateway.

(** ** enhanced_recommendation_engine.py: the hybrid ranker *)

Module AiItem.
Record t := { restaurant : Restaurant; score : Q; source : string }.
End AiItem.

(** The per-restaurant dict of [restaurant_scores]. *)
Module Scores.
Record t := {
  content_score : Q;
  collab_score : Q;
  search_score : Q;
  ai_score : Q;
  final_score : Q
}.
End Scores.

(** An entry of the ranked list. *)
Module Ranked.
Record t := {
  restaurant : Restaurant;
  score : Q;
  content_score : Q;
  collab_score : Q;
  search_score : Q;
  ai_score : Q
}.
End Ranked.

(** The four source weights, configured or adjusted. *)
Record Weights := {
  content_weight : Q;
  collab_weight : Q;
  search_weight : Q;
  ai_weight : Q
}.

(** The four sub-scores of a restaurant after normalization. *)
Record Normalized := {
  content_norm : Q;
  collab_norm : Q;
  search_norm : Q;
  ai_norm : Q
}.

Module Request.
Record t := {
  mood : string;
  occasion : string;
  cuisine : string;
  dietary_preference : string;
  time : string;
  location : option string;
  additional_notes : option string;
  user_id : option string;
  search_query : option string;
  use_ai_fetch : bool
}.
End Request.

(** The state of an [EnhancedRecommendationEngine].  [base_engine] is
    the list [base_engine.restaurants]; the feature vectors and the
    search index are rebuilt on every change of it, so both are fitted
    on that list. *)
Record EnhancedRecommendationEngine := {
  base_engine : list Restaurant;
  collab_filter : CollaborativeFiltering;
  ai_fetcher : AIDataFetcher
}.

Section HybridRanker.

Context {sk : Sklearn} {js : Json}.

Definition _merge_ai_restaurants (e : EnhancedRecommendationEngine)
  : EnhancedRecommendationEngine :=
  match get_fetched_restaurants (ai_fetcher e) with
  | [] => e
  | ai_restaurants =>
      {| base_engine := base_engine e ++ ai_restaurants;
         collab_filter := collab_filter e;
         ai_fetcher := ai_fetcher e |}
  end.


Definition select_weights (has_search has_ai : bool) : Weights :=
  if has_search || has_ai
  then {| content_weight := 0.3;
          collab_weight := 0.2;
          search_weight := if has_search then 0.3 else 0.0;
          ai_weight := if has_ai then 0.2 else 0.0 |}
  else {| content_weight := 0.4;
          collab_weight := 0.3;
          search_weight := 0.2;
          ai_weight := 0.1 |}.

Definition zero_scores : Scores.t :=
  {| Scores.content_score := 0.0; Scores.collab_score := 0.0;
     Scores.search_score := 0.0; Scores.ai_score := 0.0;
     Scores.final_score := 0.0 |}.

(** One pass of a source loop: the restaurant is remembered, its score
    dict is created when missing, and one field of it is written. *)
Definition note (write : Scores.t -> Scores.t)
    (acc : list (Z * Scores.t) * list (Z * Restaurant)) (r : Restaurant)
  : list (Z * Scores.t) * list (Z * Restaurant) :=
  let '(restaurant_scores, restaurant_data) := acc in
  let rest_id := id r in
  let scores := match Py.lookup Z.eqb restaurant_scores rest_id with
                | Some s => s
                | None => zero_scores
                end in
  (Py.setitem Z.eqb restaurant_scores rest_id (write scores),
   Py.setitem Z.eqb restaurant_data rest_id r).

Definition set_content (v : Q) (s : Scores.t) : Scores.t :=
  {| Scores.content_score := v; Scores.collab_score := Scores.collab_score s;
     Scores.search_score := Scores.search_score s;
     Scores.ai_score := Scores.ai_score s;
     Scores.final_score := Scores.final_score s |}.

Definition set_collab (v : Q) (s : Scores.t) : Scores.t :=
  {| Scores.content_score := Scores.content_score s; Scores.collab_score := v;
     Scores.search_score := Scores.search_score s;
     Scores.ai_score := Scores.ai_score s;
     Scores.final_score := Scores.final_score s |}.

Definition set_search (v : Q) (s : Scores.t) : Scores.t :=
  {| Scores.content_score := Scores.content_score s;
     Scores.collab_score := Scores.collab_score s; Scores.search_score := v;
     Scores.ai_score := Scores.ai_score s;
     Scores.final_score := Scores.final_score s |}.

Definition set_ai (v : Q) (s : Scores.t) : Scores.t :=
  {| Scores.content_score := Scores.content_score s;
     Scores.collab_score := Scores.collab_score s;
     Scores.search_score := Scores.search_score s; Scores.ai_score := v;
     Scores.final_score := Scores.final_score s |}.

(** The four source loops, in the order of the source. *)
Definition gather (content_results : list Scored)
    (collab_results : list CollabItem.t) (search_results : list SearchItem.t)
    (ai_results : list AiItem.t)
  : list (Z * Scores.t) * list (Z * Restaurant) :=
  let acc := ([], []) in
  let acc :=
    fold_left (fun acc item => note (set_content (score item)) acc (restaurant item))
              content_results acc in
  let acc :=
    fold_left (fun acc item =>
                 note (set_collab (CollabItem.collaborative_score item)) acc
                      (CollabItem.restaurant item))
              collab_results acc in
  let acc :=
    fold_left (fun acc item =>
                 note (set_search (Py.min 1.0 (SearchItem.search_score item * 1.2)))
                      acc (SearchItem.restaurant item))
              search_results acc in
  fold_left (fun acc item =>
               note (set_ai (Py.min 1.0 (AiItem.score item * 1.1))) acc
                    (AiItem.restaurant item))
            ai_results acc.

(** "Normalize scores to 0-1 range" *)
Definition normalized (s : Scores.t) : Normalized :=
  {| content_norm := Py.min 1.0 (Scores.content_score s);
     collab_norm := if Py.gtb (Scores.collab_score s) 0
                    then Py.min 1.0 (Scores.collab_score s / 5.0) else 0.0;
     search_norm := Py.min 1.0 (Scores.search_score s);
     ai_norm := Py.min 1.0 (Scores.ai_score s) |}.

(** "Adjust weights if certain sources are missing", before the division. *)
Definition redistributed (w : Weights) (n : Normalized) : Weights :=
  let adjusted_content_weight :=
    if Py.is_zero (collab_norm n) then content_weight w + collab_weight w
    else content_weight w in
  let adjusted_collab_weight :=
    if Py.is_zero (collab_norm n) then 0.0 else collab_weight w in
  let adjusted_search_weight :=
    if Py.is_zero (search_norm n) then 0.0 else search_weight w in
  let adjusted_content_weight :=
    if Py.is_zero (search_norm n) then adjusted_content_weight + search_weight w
    else adjusted_content_weight in
  let adjusted_ai_weight :=
    if Py.is_zero (ai_norm n) then 0.0 else ai_weight w in
  let adjusted_content_weight :=
    if Py.is_zero (ai_norm n) then adjusted_content_weight + ai_weight w
    else adjusted_content_weight in
  {| content_weight := adjusted_content_weight;
     collab_weight := adjusted_collab_weight;
     search_weight := adjusted_search_weight;
     ai_weight := adjusted_ai_weight |}.

(** "Normalize weights" *)
Definition adjusted_weights (w : Weights) (n : Normalized) : Weights :=
  let a := redistributed w n in
  let weight_sum :=
    content_weight a + collab_weight a + search_weight a + ai_weight a in
  if Py.gtb weight_sum 0
  then {| content_weight := content_weight a / weight_sum;
          collab_weight := collab_weight a / weight_sum;
          search_weight := search_weight a / weight_sum;
          ai_weight := ai_weight a / weight_sum |}
  else a.

(** [scores['final_score']] *)
Definition combined_score (w : Weights) (s : Scores.t) : Q :=
  let n := normalized s in
  let a := adjusted_weights w n in
  content_norm n * content_weight a + collab_norm n * collab_weight a
  + search_norm n * search_weight a + ai_norm n * ai_weight a.

Definition _combine_recommendations (content_results : list Scored)
    (collab_results : list CollabItem.t) (search_results : list SearchItem.t)
    (ai_results : list AiItem.t) : list Ranked.t :=
  let has_search := match search_results with [] => false | _ => true end in
  let has_ai := match ai_results with [] => false | _ => true end in
  let w := select_weights has_search has_ai in
  let '(restaurant_scores, restaurant_data) :=
    gather content_results collab_results search_results ai_results in
  let final_results :=
    flat_map
      (fun '(rest_id, scores) =>
         match Py.lookup Z.eqb restaurant_data rest_id with
         | Some r =>
             [{| Ranked.restaurant := r;
                 Ranked.score := combined_score w scores;
                 Ranked.content_score := Scores.content_score scores;
                 Ranked.collab_score := Scores.collab_score scores;
                 Ranked.search_score := Scores.search_score scores;
                 Ranked.ai_score := Scores.ai_score scores |}]
         | None => []
         end)
      restaurant_scores in
  Py.sort_desc Ranked.score final_results.

(** A truthy optional string. *)
Definition truthy (s : option string) : option string :=
  match s with
  | Some EmptyString => None
  | other => other
  end.

(** [if query_prefs.get(k): v = query_prefs[k]] *)
Definition override (v : string) (found : option string) : string :=
  match truthy found with Some v' => v' | None => v end.

(** The heuristic match score of an enrichment candidate. *)
Definition ai_item (mood occasion cuisine_pref : string) (ai_rest : Restaurant)
  : AiItem.t :=
  let match_score := 0.5 in
  let match_score :=
    if String.eqb (Py.lower (cuisine ai_rest)) (Py.lower cuisine_pref)
       || String.eqb (Py.lower cuisine_pref) "any"
    then match_score + 0.2 else match_score in
  let match_score :=
    if Py.gtb (Py.get (moodScores ai_rest) (Py.lower mood) 0) 0.7
    then match_score + 0.2 else match_score in
  let match_score :=
    if Py.gtb (Py.get (occasionScores ai_rest) (Py.lower occasion) 0) 0.7
    then match_score + 0.1 else match_score in
  {| AiItem.restaurant := ai_rest;
     AiItem.score := Py.min 1.0 match_score;
     AiItem.source := "ai" |}.

(** [EnhancedRecommendationEngine.recommend]: the ranked list and the
    engine as the call leaves it. *)
Definition recommend (e : EnhancedRecommendationEngine) (ai : Providers)
    (req : Request.t)
  : outcome (list Ranked.t * EnhancedRecommendationEngine) :=
  let search_query := truthy (Request.search_query req) in
  let search_results :=
    match search_query with
    | Some q => search (base_engine e) q 9 0.1
    | None => []
    end in
  let query_prefs :=
    match search_query with
    | Some q =>
        match_query_to_preferences q (Some (Request.mood req))
          (Some (Request.occasion req)) (Some (Request.cuisine req))
    | None =>
        {| q_mood := None; q_occasion := None; q_cuisine := None;
           q_dietary := None; q_price_range := None; q_keywords := [] |}
    end in
  let mood := override (Request.mood req) (q_mood query_prefs) in
  let occasion := override (Request.occasion req) (q_occasion query_prefs) in
  let cuisine_pref := override (Request.cuisine req) (q_cuisine query_prefs) in
  let dietary_preference :=
    override (Request.dietary_preference req) (q_dietary query_prefs) in
  let user_preferences :=
    {| p_mood := mood; p_occasion := occasion; p_cuisine := cuisine_pref;
       p_dietaryPreference := dietary_preference;
       p_time := Request.time req;
       p_location := Request.location req;
       p_additionalNotes := Request.additional_notes req |} in
  let content_results := base_recommend (base_engine e) user_preferences in
  let collab_results :=
    match truthy (Request.user_id req) with
    | Some u =>
        get_collaborative_recommendations (collab_filter e) u (base_engine e) 9
    | None => []
    end in
  '(ai_restaurants, e') <-
    match search_query with
    | Some q =>
        if Request.use_ai_fetch req
        then
          '(ai_restaurants_data, f') <-
            search_fetched_restaurants (ai_fetcher e) ai q (Request.location req)
              (Some user_preferences) true ;;
          let e' := {| base_engine := base_engine e;
                       collab_filter := collab_filter e;
                       ai_fetcher := f' |} in
          match ai_restaurants_data with
          | [] => Returns ([], e')
          | _ =>
              Returns (map (ai_item mood occasion cuisine_pref) ai_restaurants_data,
                       _merge_ai_restaurants e')
          end
        else Returns ([], e)
    | None => Returns ([], e)
    end ;;
  let combined_results :=
    _combine_recommendations content_results collab_results search_results
      ai_restaurants in
  Returns (firstn 9 combined_results, e').


End HybridRanker.

(** ** voice_extractor.py

    The provider that reads a transcript, [json.loads] on its reply and
    the two regular-expression searches for a location are not part of
    the package: the provider is an argument, the other two are fields
    of the classes [Voice.Json] and [Voice.Regex]. *)

Module Voice.

(** A value of the JSON object a provider replies with, as far as the
    extractor looks at it: [null] or an absent key, a string, or a value
    of another type, of which only the truth value matters. *)
Inductive JsonValue :=
| JNull
| JString (s : string)
| JOther (is_truthy : bool).

(** The keys the extractor reads from the object. *)
Record RawPreferences := {
  raw_mood : JsonValue;
  raw_occasion : JsonValue;
  raw_cuisine : JsonValue;
  raw_dietaryPreference : JsonValue;
  raw_time : JsonValue;
  raw_location : JsonValue;
  raw_additionalNotes : JsonValue
}.

(** What [json.loads] returns: an object, or a value that has no
    [get]. *)
Inductive JsonDocument :=
| JObject (prefs : RawPreferences)
| JNotObject.

(** The preference dict the extractor returns; [None] is [None] and
    [JNull] is [None]. *)
Record Preferences := {
  mood : option string;
  occasion : option string;
  cuisine : option string;
  dietaryPreference : option string;
  time : option string;
  location : JsonValue;
  additionalNotes : JsonValue
}.

(** [json.loads]; it raises on text that is not JSON. *)
Class Json := { loads : string -> outcome JsonDocument }.

(** [re.search(pattern, transcript, re.IGNORECASE)] for the two
    location patterns: the groups 1 and 2 of a match of the first, the
    only group of a match of the second. *)
Class Regex := {
  search_place : string -> option (string * string);
  search_street : string -> option string
}.

(** The two providers, from the transcript put into the prompt to the
    text of the reply, or the exception the client library raises. *)
Record Providers := {
  chat_completion : string -> outcome string;
  generate_content : string -> outcome string
}.

Definition _empty_preferences : Preferences :=
  {| mood := None; occasion := None; cuisine := None;
     dietaryPreference := None; time := None; location := JNull;
     additionalNotes := JNull |}.

Definition truthy (v : JsonValue) : bool :=
  match v with
  | JNull => false
  | JString s => negb (String.eqb s "")
  | JOther b => b
  end.

(** [prefs.get(k, '').lower() if prefs.get(k) else None] *)
Definition lowered (v : JsonValue) : outcome (option string) :=
  match v with
  | JString s => if String.eqb s "" then Returns None else Returns (Some (Py.lower s))
  | JOther true => Raises (Exception "AttributeError")
  | _ => Returns None
  end.

Definition valid_moods : list string :=
  ["happy"; "sad"; "stressed"; "adventurous"; "relaxed"; "celebratory"]%string.
Definition valid_occasions : list string :=
  ["casual meal"; "celebration"; "quick bite"; "date night"; "family dinner"]%string.
Definition valid_cuisines : list string :=
  ["any"; "italian"; "mexican"; "indian"; "japanese"; "chinese"; "american"]%string.
Definition valid_dietary : list string :=
  ["vegetarian"; "non-vegetarian"; "vegan"; "gluten-free"]%string.
Definition valid_times : list string :=
  ["breakfast"; "brunch"; "lunch"; "dinner"; "snack"]%string.

(** [if v and v in valid: normalized[k] = v] *)
Definition keep_valid (valid : list string) (v : option string) : option string :=
  match v with
  | Some s => if negb (String.eqb s "") && Py.mem s valid then Some s else None
  | None => None
  end.

(** The loop over [valid_occasions]: the first that occurs in the
    answer or in which the answer occurs. *)
Definition match_occasion (v : option string) : option string :=
  match v with
  | Some s =>
      if String.eqb s "" then None
      else find (fun valid_occ => Py.contains valid_occ s || Py.contains s valid_occ)
                valid_occasions
  | None => None
  end.

(** [if prefs.get(k): normalized[k] = prefs[k]] *)
Definition pass_through (v : JsonValue) : JsonValue :=
  if truthy v then v else JNull.

Definition _normalize_preferences (document : JsonDocument) : outcome Preferences :=
  match document with
  | JNotObject => Raises (Exception "AttributeError")
  | JObject prefs =>
      mood <- lowered (raw_mood prefs) ;;
      occasion <- lowered (raw_occasion prefs) ;;
      cuisine <- lowered (raw_cuisine prefs) ;;
      dietary <- lowered (raw_dietaryPreference prefs) ;;
      time <- lowered (raw_time prefs) ;;
      Returns {| mood := keep_valid valid_moods mood;
                 occasion := match_occasion occasion;
                 cuisine := keep_valid valid_cuisines cuisine;
                 dietaryPreference := keep_valid valid_dietary dietary;
                 time := keep_valid valid_times time;
                 location := pass_through (raw_location prefs);
                 additionalNotes := pass_through (raw_additionalNotes prefs) |}
  end.

(** [re.sub(marker + r'\s*', '', s)]: [skip] characters of a marker are
    still to be dropped, [in_space] says the white space after a marker
    is being dropped. *)
Fixpoint remove_marked (marker : string) (skip : nat) (in_space : bool)
    (s : string) : string :=
  match s with
  | EmptyString => EmptyString
  | String c r =>
      match skip with
      | S k => remove_marked marker k true r
      | O =>
          if in_space && Py.is_space c then remove_marked marker 0 true r
          else if prefix marker s
               then remove_marked marker (String.length marker - 1) true r
               else String c (remove_marked marker 0 false r)
      end
  end.

(** "Remove markdown code blocks if present" *)
Definition remove_fences (result_text : string) : string :=
  remove_marked "```" 0 false (remove_marked "```json" 0 false result_text).

Definition mood_keywords : list (string * list string) :=
  [("happy", ["happy"; "cheerful"; "joyful"; "excited"; "great"; "wonderful";
              "amazing"; "good"]);
   ("sad", ["sad"; "down"; "depressed"; "unhappy"; "blue"; "feeling low"]);
   ("stressed", ["stressed"; "tired"; "exhausted"; "busy"; "overwhelmed";
                 "anxious"]);
   ("adventurous", ["adventurous"; "exciting"; "new"; "try"; "explore";
                    "different"]);
   ("relaxed", ["relaxed"; "calm"; "peaceful"; "chill"; "easy"; "laid back"]);
   ("celebratory", ["celebrate"; "celebration"; "special"; "party";
                    "anniversary"; "birthday"])]%string.

Definition occasion_keywords : list (string * list string) :=
  [("casual meal", ["casual"; "quick"; "simple"; "regular"]);
   ("celebration", ["celebration"; "birthday"; "anniversary";
                    "special occasion"]);
   ("quick bite", ["quick"; "fast"; "grab"; "snack"]);
   ("date night", ["date"; "romantic"; "dinner date"; "with my partner"]);
   ("family dinner", ["family"; "kids"; "children"; "with family"])]%string.

Definition cuisine_keywords : list (string * list string) :=
  [("italian", ["italian"; "pasta"; "pizza"; "spaghetti"]);
   ("mexican", ["mexican"; "taco"; "burrito"; "quesadilla"]);
   ("indian", ["indian"; "curry"; "tikka"; "naan"; "biryani"]);
   ("japanese", ["japanese"; "sushi"; "ramen"; "tempura"]);
   ("chinese", ["chinese"; "dim sum"; "fried rice"; "lo mein"]);
   ("american", ["american"; "burger"; "bbq"; "steak"; "grill"])]%string.

Definition time_keywords : list (string * list string) :=
  [("breakfast", ["breakfast"; "morning"; "early"]);
   ("brunch", ["brunch"; "late morning"]);
   ("lunch", ["lunch"; "noon"; "midday"]);
   ("dinner", ["dinner"; "evening"; "night"; "tonight"]);
   ("snack", ["snack"; "bite"; "quick"])]%string.

Definition dietary_of (transcript_lower : string) : string :=
  if Py.any_in ["vegetarian"; "veggie"; "no meat"]%string transcript_lower
  then "vegetarian"
  else if Py.any_in ["vegan"; "no dairy"; "no animal"]%string transcript_lower
  then "vegan"
  else if Py.any_in ["gluten-free"; "gluten free"; "no gluten"]%string
            transcript_lower
  then "gluten-free"
  else "non-vegetarian".

Section Extractor.

Context {js : Json} {re : Regex}.

(** The location a match of the first pattern gives, when it is longer
    than two characters. *)
Definition place_of (transcript : string) : option string :=
  match search_place transcript with
  | Some (group1, group2) =>
      let location := if String.eqb group2 "" then group1 else group2 in
      if negb (String.eqb location "") && (2 <? String.length location)%nat
      then Some location else None
  | None => None
  end.

(** The loop over [location_patterns].  The second pattern has one
    group, and [match.group(2)] raises [IndexError] on a match of it. *)
Definition find_location (transcript : string) : outcome JsonValue :=
  match place_of transcript with
  | Some location => Returns (JString location)
  | None =>
      match search_street transcript with
      | Some _ => Raises (Exception "IndexError")
      | None => Returns JNull
      end
  end.

Definition _extract_with_keywords (transcript : string) : outcome Preferences :=
  let transcript_lower := Py.lower transcript in
  found <- find_location transcript ;;
  Returns {| mood := first_category mood_keywords transcript_lower;
             occasion := first_category occasion_keywords transcript_lower;
             cuisine := first_category cuisine_keywords transcript_lower;
             dietaryPreference := Some (dietary_of transcript_lower);
             time := first_category time_keywords transcript_lower;
             location := found;
             additionalNotes :=
               if (20 <? String.length transcript)%nat then JString transcript
               else JNull |}.

(** The body of the [try] block for one provider. *)
Definition read_reply (provider : string -> outcome string) (transcript : string)
  : outcome Preferences :=
  text <- provider transcript ;;
  result <- loads (remove_fences (Py.strip text)) ;;
  _normalize_preferences result.

Definition _extract_with_ai (ai_fetcher : option AIDataFetcher) (ai : Providers)
    (transcript : string) : option Preferences :=
  match ai_fetcher with
  | None => None
  | Some f =>
      if negb (openai_client f) && negb (gemini_model f) then None
      else
        let attempt :=
          if openai_client f
          then preferences <- read_reply (chat_completion ai) transcript ;;
               Returns (Some preferences)
          else if gemini_model f
          then preferences <- read_reply (generate_content ai) transcript ;;
               Returns (Some preferences)
          else Returns None in
        match attempt with
        | Returns result => result
        | Raises _ => None
        end
  end.

Definition extract_preferences (ai_fetcher : option AIDataFetcher)
    (ai : Providers) (transcript : string) (use_ai : bool) : outcome Preferences :=
  if String.eqb transcript "" || String.eqb (Py.strip transcript) ""
  then Returns _empty_preferences
  else
    let ai_result :=
      match ai_fetcher with
      | Some _ => if use_ai then _extract_with_ai ai_fetcher ai transcript else None
      | None => None
      end in
    match ai_result with
    | Some preferences => Returns preferences
    | None => _extract_with_keywords transcript
    end.

End Extractor.

End Voice.

(** ** Vocabulary of the specification *)

(** The intent flags read from the notes. *)
Inductive Intent :=
| Spicy | Quiet | Romantic | FamilyFriendly | Healthy | Fast | Affordable
| Upscale.

Definition intents : list Intent :=
  [Spicy; Quiet; Romantic; FamilyFriendly; Healthy; Fast; Affordable; Upscale].

Definition flag_of (np : NotesPreferences) (i : Intent) : Q :=
  match i with
  | Spicy => spicy np
  | Quiet => quiet np
  | Romantic => romantic np
  | FamilyFriendly => family_friendly np
  | Healthy => healthy np
  | Fast => fast np
  | Affordable => affordable np
  | Upscale => upscale np
  end.

Definition active (np : NotesPreferences) (i : Intent) : bool :=
  Py.gtb (flag_of np i) 0.

(** The restaurant-attribute heuristic of a flag; [Fast] has none. *)
Definition heuristic (r : Restaurant) (i : Intent) : bool :=
  let ambiance := Py.lower (ambiance r) in
  let price_range := Py.lower (priceRange r) in
  match i with
  | Spicy =>
      Py.mem (Py.lower (cuisine r)) ["indian"; "mexican"; "thai"; "chinese"]%string
  | Quiet => Py.any_in ["quiet"; "peaceful"; "serene"; "calm"]%string ambiance
  | Romantic =>
      Py.any_in ["romantic"; "intimate"; "cozy"; "elegant"]%string ambiance
  | FamilyFriendly => Py.any_in ["family"; "casual"; "friendly"]%string ambiance
  | Healthy => Py.any_in ["healthy"; "fresh"; "light"]%string ambiance
  | Fast => false
  | Affordable => String.eqb price_range "affordable"
  | Upscale => Py.mem price_range ["expensive"; "moderate"]%string
  end.

(** The weight a flag carries in the notes score. *)
Definition intent_weight (i : Intent) : Q :=
  match i with
  | Spicy => 0.3
  | Fast => 0
  | _ => 0.2
  end.

Definition sumQ (l : list Q) : Q := fold_right Qplus 0 l.

Definition notes_total_weight (np : NotesPreferences) : Q :=
  sumQ (map (fun i => if active np i then intent_weight i else 0) intents).

Definition notes_matched_weight (r : Restaurant) (np : NotesPreferences) : Q :=
  sumQ (map (fun i => if active np i && heuristic r i then intent_weight i else 0)
            intents).

(** Matched weight over total weight, 1 when no weight is at stake. *)
Definition weighted_ratio (r : Restaurant) (onp : option NotesPreferences) : Q :=
  match onp with
  | None => 1
  | Some np =>
      if Py.gtb (notes_total_weight np) 0
      then notes_matched_weight r np / notes_total_weight np
      else 1
  end.

(** The reading under which every active flag weighs the same: the
    share of the active flags whose heuristic the restaurant meets. *)
Definition equal_weight_ratio (r : Restaurant) (np : NotesPreferences) : Q :=
  let n_active := List.length (filter (active np) intents) in
  let n_matched :=
    List.length (filter (fun i => active np i && heuristic r i) intents) in
  match n_active with
  | O => 1
  | _ => inject_Z (Z.of_nat n_matched) / inject_Z (Z.of_nat n_active)
  end.

(** The restaurant lists a dietary option, whatever its letter case. *)
Definition lists_option (r : Restaurant) (option_name : string) : Prop :=
  exists o, In o (dietaryOptions r) /\ Py.lower o = option_name.

(** The compatibility rule of the dietary gate, as the specification
    words it. *)
Definition dietary_compatible (r : Restaurant) (preference : string) : Prop :=
  if String.eqb (Py.lower preference) "non-vegetarian"
  then lists_option r "non-vegetarian" \/ ~ lists_option r "vegetarian"
  else lists_option r (Py.lower preference).

(** Every value of a score map lies in [0,1]. *)
Definition unit_scores (d : list (string * Q)) : Prop :=
  Forall (fun kv => 0 <= snd kv <= 1) d.

(** What the stored matrix answers for a pair of users. *)
Definition similarity (m : SimilarityMatrix) (u1 u2 : string) : option Q :=
  match Py.lookup String.eqb m u1 with
  | Some row => Py.lookup String.eqb row u2
  | None => None
  end.

(** The log holds an interaction of user [u] with restaurant [r], both
    ids truthy. *)
Definition interacted (log : list Interaction) (u : string) (r : Z) : Prop :=
  exists i, In i log /\ truthy_ids i = Some (u, r).

(** An interaction whose user id or restaurant id is falsy. *)
Definition falsy (i : Interaction) : Prop :=
  userId i = None \/ userId i = Some ""%string
  \/ restaurantId i = None \/ restaurantId i = Some 0%Z.

(** The user has an interaction with the restaurant, as a test. *)
Definition has_interacted (log : list Interaction) (u : string) (r : Z) : bool :=
  existsb (fun i => match truthy_ids i with
                    | Some (u', r') => String.eqb u u' && Z.eqb r r'
                    | None => false
                    end) log.

Definition similarity_sum (log : list Interaction) (similar_users : list (string * Q))
    (r : Z) : Q :=
  sumQ (map snd (filter (fun us => has_interacted log (fst us) r) similar_users)).

(** A sort key ranks [x] no lower than [y]. *)
Definition not_below {A : Type} (key : A -> Q) (x y : A) : Prop :=
  key y <= key x.

(** [l.index(u)] when [u] occurs in [l]. *)
Fixpoint index_of (u : string) (l : list string) : option nat :=
  match l with
  | [] => None
  | x :: r => if String.eqb u x then Some O else option_map S (index_of u r)
  end.

(** [collaborative_scores.get(r, 0.0)] *)
Definition value (scores : list (Z * Q)) (r : Z) : Q :=
  match Py.lookup Z.eqb scores r with Some v => v | None => 0.0 end.

(** The rows of the stored matrix, the enumeration starting at [k]. *)
Definition rows_from (k : nat) (l : list string) (row : nat -> list (string * Q))
  : SimilarityMatrix :=
  map (fun '(i, u) => (u, row i)) (combine (seq k (List.length l)) l).

Definition row_from (k : nat) (l : list string) (i : nat) (entry : nat -> Q)
  : list (string * Q) :=
  flat_map (fun '(j, u) => if (i =? j)%nat then [] else [(u, entry j)])
           (combine (seq k (List.length l)) l).

Section CollaborativeFilterVocabulary.

Context {sk : Sklearn}.

(** The states of a collaborative filter: built from a stored log,
    then one interaction added after another. *)
Inductive reachable : CollaborativeFiltering -> Prop :=
| reach_load (log : list Interaction) : reachable (load log)
| reach_add (cf : CollaborativeFiltering) (user_id : string) (restaurant_id : Z)
    (rating : option Q) (clicked viewed : bool) (now : string) :
    reachable cf ->
    reachable (add_interaction cf user_id restaurant_id rating clicked viewed now).

(** The matrix as a function of the accumulators of the first loop. *)
Definition matrix_of (acc : Accumulated) : SimilarityMatrix :=
  match user_ids acc with
  | [] => []
  | _ =>
      let user_ids_list := Py.sorted String.leb (user_ids acc) in
      let restaurant_ids_list := Py.sorted Z.leb (restaurant_ids acc) in
      let user_vectors :=
        map (fun user_id =>
               map (matrix_entry (user_restaurant_matrix acc) user_id)
                   restaurant_ids_list)
            user_ids_list in
      if (1 <? List.length user_vectors)%nat
      then
        rows_from 0 user_ids_list
          (fun i =>
             row_from 0 user_ids_list i
               (fun j => nth j (nth i (cosine_similarity user_vectors) []) 0))
      else []
  end.

(** The list the recommendation is cut from, before it is sorted. *)
Definition candidates (log : list Interaction) (similar : list (string * Q))
    (user : string) (restaurants : list Restaurant) : list CollabItem.t :=
  let d := user_restaurant_interactions log in
  flat_map
    (fun '(restaurant_id, score) =>
       match restaurant_dict restaurants restaurant_id with
       | Some r =>
           if Py.set_mem Z.eqb (restaurants_of d user) restaurant_id then []
           else [{| CollabItem.restaurant := r;
                    CollabItem.collaborative_score := score |}]
       | None => []
       end)
    (collaborative_scores d similar).

End CollaborativeFilterVocabulary.

(** [a] occurs in [b] as a run of consecutive characters. *)
Definition substring_of (a b : string) : Prop :=
  exists before after, b = (before ++ a ++ after)%string.




(** The sum of the four weights. *)
Definition total_weight (w : Weights) : Q :=
  content_weight w + collab_weight w + search_weight w + ai_weight w.

(** The weight a source keeps: none when its normalized sub-score is 0. *)
Definition kept (norm weight : Q) : Q := if Py.is_zero norm then 0 else weight.

(** The weight a source hands to content: all of it when its normalized
    sub-score is 0. *)
Definition folded (norm weight : Q) : Q := if Py.is_zero norm then weight else 0.

(** The sub-scores a ranked entry reports. *)
Definition sub_scores (item : Ranked.t) : Scores.t :=
  {| Scores.content_score := Ranked.content_score item;
     Scores.collab_score := Ranked.collab_score item;
     Scores.search_score := Ranked.search_score item;
     Scores.ai_score := Ranked.ai_score item;
     Scores.final_score := Ranked.score item |}.

Definition nonempty {A : Type} (l : list A) : bool :=
  match l with [] => false | _ => true end.

(** The entries of a ranking whose sort key equals [v]. *)
Definition tied {A : Type} (key : A -> Q) (v : Q) (l : list A) : list A :=
  filter (fun x => Qeq_bool (key x) v) l.




(** [table] lists [label] first among the categories one of whose
    keywords occurs in [text]. *)
Definition first_match (table : list (string * list string)) (text : string)
    (label : string) : Prop :=
  exists before keywords after,
    table = before ++ (label, keywords) :: after
    /\ Py.any_in keywords text = true
    /\ Forall (fun category => Py.any_in (snd category) text = false) before.

(** What a keyword table makes of a hint: the label of the first
    category that matches, and the hint when none does. *)
Definition chosen (table : list (string * list string)) (text : string)
    (hint result : option string) : Prop :=
  (exists label, result = Some label /\ first_match table text label)
  \/ (result = hint
      /\ Forall (fun category => Py.any_in (snd category) text = false) table).

(** The interaction of user [u] with restaurant [r] that stands last in
    the log. *)
Definition latest (log : list Interaction) (u : string) (r : Z)
  : option Interaction :=
  find (fun i => match truthy_ids i with
                 | Some (u', r') => String.eqb u u' && Z.eqb r r'
                 | None => false
                 end)
       (List.rev log).

Section ScoreVectors.

Context {sk : Sklearn}.

(** The row of interaction scores the similarity of a user is computed
    from: one entry per restaurant of the log, in ascending order of the
    restaurant ids. *)
Definition score_vector (log : list Interaction) (u : string) : list Q :=
  map (matrix_entry (user_restaurant_matrix (accumulate log)) u)
      (Py.sorted Z.leb (restaurant_ids (accumulate log))).

End ScoreVectors.

(** The [n] consecutive integers from [start] on. *)
Definition count_up (start : Z) (n : nat) : list Z :=
  map (fun k => (start + Z.of_nat k)%Z) (seq 0 n).


(** The two dicts of [_combine_recommendations] go together: they have
    the same keys in the same order, each once, and a restaurant is
    filed under its own id. *)
Definition consistent (acc : list (Z * Scores.t) * list (Z * Restaurant)) : Prop :=
  map fst (fst acc) = map fst (snd acc)
  /\ NoDup (map fst (fst acc))
  /\ Forall (fun entry => id (snd entry) = fst entry) (snd acc).

(** The ids of the restaurants the four sources list. *)
Definition source_ids (content_results : list Scored)
    (collab_results : list CollabItem.t) (search_results : list SearchItem.t)
    (ai_results : list AiItem.t) : list Z :=
  map (fun item => id (restaurant item)) content_results
  ++ map (fun item => id (CollabItem.restaurant item)) collab_results
  ++ map (fun item => id (SearchItem.restaurant item)) search_results
  ++ map (fun item => id (AiItem.restaurant item)) ai_results.

(** No sub-score of a score dict is negative, the collaborative one
    apart. *)
Definition no_negative_score (s : Scores.t) : Prop :=
  0 <= Scores.content_score s /\ 0 <= Scores.search_score s
  /\ 0 <= Scores.ai_score s.


(** An extracted value is [None] or a word of the vocabulary. *)
Definition within (valid : list string) (v : option string) : Prop :=
  match v with
  | Some s => In s valid
  | None => True
  end.

(** The five categorical preferences are taken from their
    vocabularies. *)
Definition in_vocabulary (p : Voice.Preferences) : Prop :=
  within Voice.valid_moods (Voice.mood p)
  /\ within Voice.valid_occasions (Voice.occasion p)
  /\ within Voice.valid_cuisines (Voice.cuisine p)
  /\ within Voice.valid_dietary (Voice.dietaryPreference p)
  /\ within Voice.valid_times (Voice.time p).

(** ** Example data *)

(** A catalog record with the fields the examples vary. *)
Definition sample (i : Z) (name cuisine_name ambiance_text price : string)
    (dietary : list string) (mood occasion : list (string * Q)) : Restaurant :=
  {| id := i;
     restaurantName := name;
     cuisine := cuisine_name;
     location := "";
     address := "";
     contactDetails := "";
     popularDishes := [];
     dietaryOptions := dietary;
     priceRange := price;
     ambiance := ambiance_text;
     moodScores := mood;
     occasionScores := occasion;
     timeScores := [];
     source := None;
     query := None;
     location_hint := None;
     user_preferences := None |}.

Definition curry_house : Restaurant :=
  sample 1 "Curry House" "indian" "loud" "moderate" ["vegetarian"%string]
         [("happy"%string, 0.9)] [].

Definition grill : Restaurant :=
  sample 2 "Grill" "american" "casual" "moderate" ["non-vegetarian"%string]
         [] [].

Definition dinner_request (dietary : string) (notes : option string) : Preferences :=
  {| p_mood := "happy"; p_occasion := "celebration"; p_cuisine := "italian";
     p_dietaryPreference := dietary; p_time := "dinner"; p_location := None;
     p_additionalNotes := notes |}.

(** scikit-learn on texts that share no term with the fitted corpus:
    every TF-IDF cosine is 0.  The square root is the integer square
    root of the value scaled by [10^12], scaled back. *)
Definition rounded_sqrt (x : Q) : Q :=
  Z.sqrt (Qnum x * 1000000000000 / Zpos (Qden x)) # 1000000.

Definition no_shared_terms : Sklearn :=
  {| tfidf_cosine := fun _ _ _ => 0;
     search_cosine := fun _ _ _ => 0;
     float_sqrt := rounded_sqrt |}.

Definition rated (user : string) (restaurant_id : Z) (stars : Q) : Interaction :=
  {| userId := Some user; restaurantId := Some restaurant_id;
     timestamp := "2024-01-01T00:00:00"; rating := Some stars;
     clicked := false; viewed := false |}.

(** User "a" rated restaurant 10 with 5; user "b" rated restaurant 10
    with 5 and restaurant 20 with 4. *)
Definition two_users : list Interaction :=
  [rated "a" 10 5; rated "b" 10 5; rated "b" 20 4].

Definition taco_town : Restaurant :=
  sample 0 "Taco Town" "mexican" "casual" "affordable" [] [] [].


(** [json.loads] on a reply that lists Taco Town twice. *)
Definition taco_town_twice : Json :=
  {| json_loads := fun _ => Returns [taco_town; taco_town] |}.


Definition replying (text : string) : Providers :=
  {| gemini := fun _ _ _ => Returns text; openai := fun _ _ _ => Returns text |}.


Definition empty_gateway : AIDataFetcher :=
  {| openai_client := false; gemini_model := true; fetched_data := [];
     base_restaurants := [] |}.






Definition ranked_ids (ranking : list Ranked.t) : list Z :=
  map (fun item => id (Ranked.restaurant item)) ranking.

(** A provider whose reply [taco_town_twice] parses to Taco Town,
    twice. *)
Definition taco_reply : Providers := replying "two records, both named Taco Town".

(** The body of a fenced reply: an empty JSON array on a line of its
    own. *)
Definition array_on_a_line : string :=
  String (ascii_of_nat 10) ("[]" ++ String (ascii_of_nat 10) "").


(** A transcript in which only the street pattern finds something. *)
Definition street_only : Voice.Regex :=
  {| Voice.search_place := fun _ => None;
     Voice.search_street :=
       fun transcript =>
         if Py.contains "baker street" (Py.lower transcript)
         then Some "Baker Street"%string else None |}.

(** A transcript in which neither location pattern finds anything. *)
Definition no_location : Voice.Regex :=
  {| Voice.search_place := fun _ => None;
     Voice.search_street := fun _ => None |}.

(** * Properties *)

(** ** Python built-ins *)

Lemma ltb_lt (x y : Q) : Py.ltb x y = true <-> x < y.
Proof.
  unfold Py.ltb. rewrite negb_true_iff. split; intro H.
  - apply Qnot_le_lt. intro C. apply Qle_bool_iff in C. congruence.
  - destruct (Qle_bool y x) eqn:E; [ | reflexivity ].
    apply Qle_bool_iff in E. lra.
Qed.

Lemma ltb_ge (x y : Q) : Py.ltb x y = false <-> y <= x.
Proof. unfold Py.ltb. rewrite negb_false_iff. apply Qle_bool_iff. Qed.

Lemma is_zero_eq (x : Q) : Py.is_zero x = true <-> x == 0.
Proof. apply Qeq_bool_iff. Qed.

Lemma min_le_l (a b : Q) : Py.min a b <= a.
Proof.
  unfold Py.min. destruct (Py.ltb b a) eqn:E.
  - apply ltb_lt in E. lra.
  - lra.
Qed.

Lemma min_ge (a b c : Q) : c <= a -> c <= b -> c <= Py.min a b.
Proof. unfold Py.min. destruct (Py.ltb b a); auto. Qed.

Lemma max_bounds (x : Q) : x <= 1 -> 0 <= Py.max 0.0 x <= 1.
Proof.
  intro H. unfold Py.max. destruct (Py.ltb 0.0 x) eqn:E.
  - apply ltb_lt in E. lra.
  - lra.
Qed.

Lemma get_bounds (d : list (string * Q)) (k : string) (default : Q) :
  unit_scores d -> 0 <= default <= 1 -> 0 <= Py.get d k default <= 1.
Proof.
  intros Hd Hdef. induction Hd as [ | [k' v] d Hv _ IH ]; simpl.
  - exact Hdef.
  - destruct (String.eqb k k'); [ exact Hv | exact IH ].
Qed.

Lemma mem_lower_iff (x : string) (options : list string) :
  Py.mem x (map Py.lower options) = true
  <-> exists o, In o options /\ Py.lower o = x.
Proof.
  unfold Py.mem. rewrite existsb_exists. split.
  - intros [y [Hin Heq]]. apply in_map_iff in Hin as [o [Ho Hin]].
    apply String.eqb_eq in Heq. exists o. split; congruence.
  - intros [o [Hin Heq]]. exists (Py.lower o). split.
    + now apply in_map.
    + apply String.eqb_eq. congruence.
Qed.

(** ** The content scorer *)

Section ContentScorerFacts.

Context {sk : Sklearn}.

Lemma cuisine_match_bounds (r : Restaurant) (preferred : string) :
  0 <= _check_cuisine_match r preferred <= 1.
Proof.
  unfold _check_cuisine_match.
  destruct (String.eqb (Py.lower preferred) "any"); [ lra | ].
  destruct (String.eqb (Py.lower (cuisine r)) (Py.lower preferred)); lra.
Qed.

(** A block of the notes loop keeps the matched weight between 0 and
    the total weight. *)
Lemma notes_step_invariant (a : Q) (m : bool) (w : Q) (acc : Q * Q) :
  0 <= w -> 0 <= fst acc <= snd acc ->
  0 <= fst (notes_step a m w acc) <= snd (notes_step a m w acc).
Proof.
  intros Hw Hacc. unfold notes_step.
  destruct (Py.gtb a 0); [ | exact Hacc ].
  destruct m; simpl; lra.
Qed.

Lemma notes_accumulate_invariant (r : Restaurant) (np : NotesPreferences) :
  0 <= fst (notes_accumulate r np) <= snd (notes_accumulate r np).
Proof.
  unfold notes_accumulate.
  repeat (apply notes_step_invariant; [ lra | ]).
  simpl. lra.
Qed.

Lemma notes_score_bounds (r : Restaurant) (onp : option NotesPreferences) :
  0 <= _calculate_notes_score r onp <= 1.
Proof.
  destruct onp as [np | ]; simpl; [ | lra ].
  pose proof (notes_accumulate_invariant r np) as H.
  destruct (notes_accumulate r np) as [matched total]. simpl in H.
  destruct (Py.gtb total 0) eqn:E; [ | lra ].
  apply ltb_lt in E. split.
  - apply Qle_shift_div_l; lra.
  - apply Qle_shift_div_r; lra.
Qed.

Lemma content_similarity_bounds (restaurants : list Restaurant)
    (p : Preferences) (r : Restaurant) :
  (forall corpus text i, tfidf_cosine corpus text i <= 1) ->
  0 <= _calculate_content_similarity restaurants p r <= 1.
Proof.
  intro Hcos. unfold _calculate_content_similarity.
  destruct restaurants as [ | r0 rest ]; [ lra | ].
  destruct (index_of_id (r0 :: rest) (id r)); [ | lra ].
  apply max_bounds, Hcos.
Qed.

(** C2. For a restaurant whose mood, occasion and time scores lie in
    [0,1], and a TF-IDF cosine that is at most 1 (as a cosine is), the
    final score of the content scorer lies in [0,1], whatever the
    catalog, the preferences and the notes. *)
Theorem final_score_in_unit_interval :
  forall (restaurants : list Restaurant) (p : Preferences) (r : Restaurant),
    (forall corpus text i, tfidf_cosine corpus text i <= 1) ->
    unit_scores (moodScores r) ->
    unit_scores (occasionScores r) ->
    unit_scores (timeScores r) ->
    0 <= final_score restaurants p
           (_process_additional_notes (p_additionalNotes p)) r <= 1.
Proof.
  intros restaurants p r Hcos Hmood Hocc Htime. unfold final_score.
  assert (Hhalf : 0 <= 0.5 <= 1) by lra.
  pose proof (get_bounds (moodScores r) (Py.lower (p_mood p)) 0.5 Hmood Hhalf)
    as Hm.
  pose proof (get_bounds (occasionScores r) (Py.lower (p_occasion p)) 0.5 Hocc
                Hhalf) as Ho.
  pose proof (get_bounds (timeScores r) (Py.lower (p_time p)) 0.5 Htime Hhalf)
    as Ht.
  pose proof (cuisine_match_bounds r (p_cuisine p)) as Hc.
  pose proof (notes_score_bounds r
                (_process_additional_notes (p_additionalNotes p))) as Hn.
  pose proof (content_similarity_bounds restaurants p r Hcos) as Hs.
  unfold _calculate_mood_score, _calculate_occasion_score,
    _calculate_time_score.
  lra.
Qed.

Lemma dietary_gate_reflects (r : Restaurant) (preference : string) :
  _check_dietary_compatibility r preference = true
  <-> dietary_compatible r preference.
Proof.
  unfold _check_dietary_compatibility, dietary_compatible, lists_option.
  destruct (String.eqb (Py.lower preference) "non-vegetarian").
  - rewrite orb_true_iff, negb_true_iff, <- not_true_iff_false.
    now rewrite !mem_lower_iff.
  - apply mem_lower_iff.
Qed.

Lemma scored_restaurants_are_the_eligible (restaurants : list Restaurant)
    (p : Preferences) :
  map restaurant (scored_restaurants restaurants p)
  = filter (fun r => _check_dietary_compatibility r (p_dietaryPreference p))
           restaurants.
Proof.
  unfold scored_restaurants. rewrite map_map. simpl. apply map_id.
Qed.

(** C3. The scoring loop scores a restaurant of the catalog exactly
    when it is dietary-compatible, the rule being: for "non-vegetarian"
    (in any letter case) the restaurant lists "non-vegetarian" or does
    not list "vegetarian"; for any other preference the restaurant lists
    it, letter case apart.  A restaurant offering only "vegetarian" is
    left out for "non-vegetarian", one offering "non-vegetarian" is
    scored. *)
Theorem dietary_gate :
  forall (restaurants : list Restaurant) (p : Preferences) (r : Restaurant),
    (In r (map restaurant (scored_restaurants restaurants p))
     <-> In r restaurants /\ dietary_compatible r (p_dietaryPreference p))
    /\ (dietaryOptions r = ["vegetarian"%string] ->
        p_dietaryPreference p = "non-vegetarian"%string ->
        ~ In r (map restaurant (scored_restaurants restaurants p)))
    /\ (dietaryOptions r = ["non-vegetarian"%string] ->
        p_dietaryPreference p = "non-vegetarian"%string ->
        In r restaurants ->
        In r (map restaurant (scored_restaurants restaurants p))).
Proof.
  intros restaurants p r.
  rewrite scored_restaurants_are_the_eligible, filter_In.
  repeat split.
  - tauto.
  - now apply dietary_gate_reflects.
  - tauto.
  - now apply dietary_gate_reflects.
  - intros Hopts Hpref [_ Hgate].
    unfold _check_dietary_compatibility in Hgate.
    rewrite Hopts, Hpref in Hgate. discriminate Hgate.
  - assumption.
  - unfold _check_dietary_compatibility.
    match goal with
    | Ho : dietaryOptions r = _, Hp : p_dietaryPreference p = _ |- _ =>
        rewrite Ho, Hp
    end.
    reflexivity.
Qed.

Lemma gtb_comp (x y : Q) : x == y -> Py.gtb x 0 = Py.gtb y 0.
Proof.
  intro H. unfold Py.gtb, Py.ltb. now rewrite H.
Qed.

(** What one block of the notes loop adds to the two accumulators. *)
Lemma notes_step_adds (a : Q) (m : bool) (w : Q) (acc : Q * Q) :
  fst (notes_step a m w acc)
  == fst acc + (if Py.gtb a 0 && m then w else 0)
  /\ snd (notes_step a m w acc) == snd acc + (if Py.gtb a 0 then w else 0).
Proof.
  unfold notes_step. destruct (Py.gtb a 0), m; simpl; split; lra.
Qed.

Lemma notes_accumulate_sums (r : Restaurant) (np : NotesPreferences) :
  fst (notes_accumulate r np) == notes_matched_weight r np
  /\ snd (notes_accumulate r np) == notes_total_weight np.
Proof.
  unfold notes_accumulate, notes_matched_weight, notes_total_weight.
  unfold intents, sumQ, active. cbn [map fold_right flag_of heuristic intent_weight].
  repeat match goal with
         | |- context [notes_step ?a ?m ?w ?acc] =>
             lazymatch acc with
             | context [notes_step] => fail
             | _ => idtac
             end;
             let H := fresh "H" in
             destruct (notes_step_adds a m w acc) as [H ?];
             generalize dependent (notes_step a m w acc); intros
         end.
  cbn [fst snd] in *.
  rewrite andb_false_r.
  destruct (Py.gtb (fast np) 0); split; lra.
Qed.

(** C4, as amended. The notes score is the matched weight over the
    total weight of the active flags, spicy weighing 0.3, quiet,
    romantic, family_friendly, healthy, affordable and upscale 0.2 each
    and fast nothing; it is 1 when that total is zero, so when no flag is
    active. *)
Theorem notes_score_is_weighted_ratio :
  forall (r : Restaurant) (notes : option string),
    let onp := _process_additional_notes notes in
    _calculate_notes_score r onp == weighted_ratio r onp
    /\ ((forall np, onp = Some np -> forall i, active np i = false) ->
        _calculate_notes_score r onp == 1).
Proof.
  intros r notes onp.
  assert (Hratio : _calculate_notes_score r onp == weighted_ratio r onp).
  { destruct onp as [np | ]; simpl; [ | lra ].
    destruct (notes_accumulate_sums r np) as [Hm Ht].
    destruct (notes_accumulate r np) as [matched total]. simpl in Hm, Ht.
    rewrite (gtb_comp _ _ Ht).
    destruct (Py.gtb (notes_total_weight np) 0); [ | lra ].
    now rewrite Hm, Ht. }
  split; [ exact Hratio | ].
  intro Hnone. rewrite Hratio.
  destruct onp as [np | ]; simpl; [ | lra ].
  specialize (Hnone np eq_refl).
  unfold notes_total_weight, intents.
  cbn [map]. rewrite !Hnone. reflexivity.
Qed.

(** C4 fails as stated: with spicy and quiet active and only spicy
    met, the score is 3/5 where equal weights give 1/2; and with fast
    alone active the total weight stays 0. *)
Lemma notes_weights_are_not_equal :
  let np := _process_additional_notes (Some "spicy and quiet"%string) in
  let hurry := _process_additional_notes (Some "make it quick"%string) in
  _calculate_notes_score curry_house np == 3 # 5
  /\ option_map (equal_weight_ratio curry_house) np = Some (1 # 2)
  /\ ~ 3 # 5 == 1 # 2
  /\ option_map (fun p => active p Fast) hurry = Some true
  /\ option_map (fun p => snd (notes_accumulate curry_house p)) hurry
     = Some 0.0.
Proof.
  cbv zeta. repeat split; try reflexivity. intro H. discriminate H.
Qed.

End ContentScorerFacts.

(** The bound at Curry House, for a request with notes. *)
Lemma final_score_in_unit_interval_witness :
  0 <= @final_score no_shared_terms [curry_house; grill]
         (dinner_request "vegetarian" (Some "spicy and quiet"%string))
         (_process_additional_notes (Some "spicy and quiet"%string))
         curry_house <= 1.
Proof.
  apply (@final_score_in_unit_interval no_shared_terms [curry_house; grill]
           (dinner_request "vegetarian" (Some "spicy and quiet"%string))
           curry_house).
  - intros corpus text i. simpl. lra.
  - repeat constructor; simpl; lra.
  - constructor.
  - constructor.
Defined.

(** ** Sorting *)

Lemma in_firstn {A : Type} (n : nat) (l : list A) (x : A) :
  In x (firstn n l) -> In x l.
Proof.
  revert l. induction n as [ | n IH ]; intros [ | y l ]; simpl; try tauto.
  intros [-> | H]; [ now left | right; now apply IH ].
Qed.

Section SortFacts.

Context {A : Type} (key : A -> Q).

Lemma insert_desc_perm (x : A) (l : list A) :
  Permutation (Py.insert_desc key x l) (x :: l).
Proof.
  induction l as [ | y l IH ]; simpl.
  - reflexivity.
  - destruct (Py.ltb (key x) (key y)).
    + rewrite IH. apply perm_swap.
    + reflexivity.
Qed.

Lemma sort_desc_perm (l : list A) : Permutation (Py.sort_desc key l) l.
Proof.
  induction l as [ | x l IH ]; simpl.
  - reflexivity.
  - rewrite insert_desc_perm. now constructor.
Qed.

Lemma sort_desc_in (l : list A) (x : A) : In x (Py.sort_desc key l) <-> In x l.
Proof.
  split; apply Permutation_in;
    [ apply sort_desc_perm | symmetry; apply sort_desc_perm ].
Qed.

Lemma insert_desc_sorted (x : A) (l : list A) :
  StronglySorted (not_below key) l -> StronglySorted (not_below key) (Py.insert_desc key x l).
Proof.
  induction 1 as [ | y l Hs IH Hy ]; simpl.
  - repeat constructor.
  - destruct (Py.ltb (key x) (key y)) eqn:E.
    + constructor; [ exact IH | ].
      apply ltb_lt in E.
      rewrite Forall_forall in *. intros z Hz.
      apply (Permutation_in _ (insert_desc_perm x l)) in Hz.
      destruct Hz as [<- | Hz]; [ unfold not_below; lra | now apply Hy ].
    + apply ltb_ge in E. constructor.
      * now constructor.
      * constructor; [ exact E | ].
        rewrite Forall_forall in *. intros z Hz.
        specialize (Hy z Hz). unfold not_below in *. lra.
Qed.

Lemma sort_desc_sorted (l : list A) : StronglySorted (not_below key) (Py.sort_desc key l).
Proof.
  induction l as [ | x l IH ]; simpl.
  - constructor.
  - now apply insert_desc_sorted.
Qed.

Lemma firstn_sorted (n : nat) (l : list A) :
  StronglySorted (not_below key) l -> StronglySorted (not_below key) (firstn n l).
Proof.
  intro H. revert n. induction H as [ | x l Hs IH Hx ]; intro n.
  - rewrite firstn_nil. constructor.
  - destruct n as [ | n ]; simpl; constructor.
    + apply IH.
    + rewrite Forall_forall in *. intros z Hz. apply Hx.
      eapply in_firstn. eassumption.
Qed.

End SortFacts.

(** ** Dicts and sets *)

Section DictFacts.

Context {K V : Type} (eqb : K -> K -> bool).
Hypothesis eqb_eq : forall a b, eqb a b = true <-> a = b.

Lemma eqb_refl (a : K) : eqb a a = true.
Proof. now apply eqb_eq. Qed.

Lemma eqb_neq (a b : K) : a <> b -> eqb a b = false.
Proof.
  intro H. destruct (eqb a b) eqn:E; [ | reflexivity ].
  now apply eqb_eq in E.
Qed.

Lemma lookup_setitem_same (d : list (K * V)) (k : K) (v : V) :
  Py.lookup eqb (Py.setitem eqb d k v) k = Some v.
Proof.
  induction d as [ | [k' v'] d IH ]; simpl.
  - now rewrite eqb_refl.
  - destruct (eqb k k') eqn:E; simpl.
    + now rewrite E.
    + now rewrite E.
Qed.

Lemma lookup_setitem_other (d : list (K * V)) (k k' : K) (v : V) :
  k <> k' -> Py.lookup eqb (Py.setitem eqb d k v) k' = Py.lookup eqb d k'.
Proof.
  intro Hne. induction d as [ | [k0 v0] d IH ]; simpl.
  - rewrite eqb_neq; [ reflexivity | congruence ].
  - destruct (eqb k k0) eqn:E; simpl.
    + apply eqb_eq in E. subst k0. rewrite eqb_neq; [ | congruence ].
      reflexivity.
    + now rewrite IH.
Qed.

Lemma setitem_keys (d : list (K * V)) (k : K) (v : V) :
  map fst (Py.setitem eqb d k v)
  = if Py.has_key eqb d k then map fst d else map fst d ++ [k].
Proof.
  unfold Py.has_key. induction d as [ | [k' v'] d IH ]; simpl.
  - reflexivity.
  - destruct (eqb k k') eqn:E; simpl.
    + reflexivity.
    + rewrite IH. now destruct (Py.lookup eqb d k).
Qed.

Lemma lookup_in (d : list (K * V)) (k : K) (v : V) :
  Py.lookup eqb d k = Some v -> In (k, v) d.
Proof.
  induction d as [ | [k' v'] d IH ]; simpl; [ discriminate | ].
  destruct (eqb k k') eqn:E.
  - apply eqb_eq in E. intros [= ->]. left. congruence.
  - intro H. right. now apply IH.
Qed.

Lemma lookup_none (d : list (K * V)) (k : K) :
  Py.lookup eqb d k = None <-> ~ In k (map fst d).
Proof.
  induction d as [ | [k' v'] d IH ]; simpl.
  - tauto.
  - destruct (eqb k k') eqn:E.
    + apply eqb_eq in E. split; [ discriminate | ]. intro H. exfalso. auto.
    + rewrite IH. split.
      * intros H [-> | H']; [ now rewrite eqb_refl in E | auto ].
      * tauto.
Qed.

Lemma in_lookup (d : list (K * V)) (k : K) (v : V) :
  NoDup (map fst d) -> In (k, v) d -> Py.lookup eqb d k = Some v.
Proof.
  induction d as [ | [k' v'] d IH ]; simpl; [ tauto | ].
  intros Hnd Hin. inversion Hnd as [ | ? ? Hnotin Hnd' ]; subst.
  destruct Hin as [[= -> ->] | Hin].
  - now rewrite eqb_refl.
  - destruct (eqb k k') eqn:E.
    + apply eqb_eq in E. subst k'. exfalso. apply Hnotin.
      change k with (fst (k, v)). now apply in_map.
    + now apply IH.
Qed.

Lemma setitem_nodup (d : list (K * V)) (k : K) (v : V) :
  NoDup (map fst d) -> NoDup (map fst (Py.setitem eqb d k v)).
Proof.
  intro Hnd. rewrite setitem_keys. unfold Py.has_key.
  destruct (Py.lookup eqb d k) eqn:E; [ exact Hnd | ].
  apply lookup_none in E.
  apply (Permutation_NoDup (l := k :: map fst d)).
  - apply Permutation_cons_append.
  - now constructor.
Qed.

Lemma set_mem_in (s : list K) (k : K) : Py.set_mem eqb s k = true <-> In k s.
Proof.
  unfold Py.set_mem. rewrite existsb_exists. split.
  - intros [x [Hin Heq]]. apply eqb_eq in Heq. now subst.
  - intro H. exists k. split; [ exact H | apply eqb_refl ].
Qed.

Lemma set_add_in (s : list K) (k x : K) :
  In x (Py.set_add eqb s k) <-> x = k \/ In x s.
Proof.
  unfold Py.set_add. destruct (Py.set_mem eqb s k) eqn:E.
  - apply set_mem_in in E. split; [ tauto | ]. intros [-> | H]; assumption.
  - rewrite in_app_iff. simpl. intuition congruence.
Qed.

Lemma set_add_nodup (s : list K) (k : K) :
  NoDup s -> NoDup (Py.set_add eqb s k).
Proof.
  intro Hnd. unfold Py.set_add. destruct (Py.set_mem eqb s k) eqn:E.
  - exact Hnd.
  - apply (Permutation_NoDup (l := k :: s)).
    + apply Permutation_cons_append.
    + constructor; [ | exact Hnd ].
      intro H. apply set_mem_in in H. congruence.
Qed.

End DictFacts.

Lemma sorted_perm {A : Type} (leb : A -> A -> bool) (l : list A) :
  Permutation (Py.sorted leb l) l.
Proof.
  induction l as [ | x l IH ]; simpl; [ reflexivity | ].
  transitivity (x :: Py.sorted leb l); [ | now constructor ].
  generalize (Py.sorted leb l). intro s.
  induction s as [ | y s IHs ]; simpl; [ reflexivity | ].
  destruct (leb x y); [ reflexivity | ].
  rewrite IHs. apply perm_swap.
Qed.

(** ** The collaborative filter *)

Section CollaborativeFilterFacts.

Context {sk : Sklearn}.

Lemma Qmult_swap (a b : Q) : a * b = b * a.
Proof. unfold Qmult. f_equal; [ apply Z.mul_comm | apply Pos.mul_comm ]. Qed.

Lemma dot_comm (x y : list Q) : dot x y = dot y x.
Proof.
  unfold dot. revert y.
  induction x as [ | a x IH ]; intros [ | b y ]; simpl; try reflexivity.
  now rewrite IH, Qmult_swap.
Qed.

Lemma nth_map_in_range {A B : Type} (f : A -> B) (l : list A) (i : nat)
    (d : A) (d' : B) :
  (i < List.length l)%nat -> nth i (map f l) d' = f (nth i l d).
Proof.
  intro Hi. rewrite (nth_indep _ d' (f d)) by now rewrite length_map.
  apply map_nth.
Qed.

Lemma cosine_similarity_entry (X : list (list Q)) (i j : nat) :
  (i < List.length X)%nat -> (j < List.length X)%nat ->
  nth j (nth i (cosine_similarity X) []) 0
  = dot (normalize (nth i X [])) (normalize (nth j X [])).
Proof.
  intros Hi Hj. unfold cosine_similarity. cbv zeta.
  rewrite (nth_map_in_range _ _ _ []) by now rewrite length_map.
  rewrite (nth_map_in_range _ _ _ []) by now rewrite length_map.
  now rewrite !(nth_map_in_range _ _ _ []).
Qed.

Lemma cosine_similarity_symmetric (X : list (list Q)) (i j : nat) :
  (i < List.length X)%nat -> (j < List.length X)%nat ->
  nth j (nth i (cosine_similarity X) []) 0
  = nth i (nth j (cosine_similarity X) []) 0.
Proof.
  intros Hi Hj. rewrite !cosine_similarity_entry by assumption.
  apply dot_comm.
Qed.

Lemma index_of_lt (u : string) (l : list string) (i : nat) :
  index_of u l = Some i -> (i < List.length l)%nat.
Proof.
  revert i. induction l as [ | x l IH ]; simpl; [ discriminate | ].
  intro i. destruct (String.eqb u x).
  - intros [= <-]. lia.
  - destruct (index_of u l) as [ k | ]; simpl; [ | discriminate ].
    intros [= <-]. specialize (IH k eq_refl). lia.
Qed.

Lemma index_of_none (u : string) (l : list string) :
  ~ In u l -> index_of u l = None.
Proof.
  induction l as [ | x l IH ]; simpl; [ reflexivity | ].
  intro H. destruct (String.eqb u x) eqn:E.
  - apply String.eqb_eq in E. subst x. tauto.
  - rewrite IH; [ reflexivity | tauto ].
Qed.

Lemma index_of_some (u : string) (l : list string) :
  In u l -> exists i, index_of u l = Some i.
Proof.
  induction l as [ | x l IH ]; simpl; [ tauto | ].
  intro H. destruct (String.eqb u x) eqn:E; [ now eexists | ].
  destruct H as [-> | H]; [ now rewrite String.eqb_refl in E | ].
  destruct (IH H) as [i ->]. now eexists.
Qed.

Lemma lookup_rows_from (k : nat) (l : list string)
    (row : nat -> list (string * Q)) (u : string) :
  Py.lookup String.eqb (rows_from k l row) u
  = option_map (fun i => row (k + i)%nat) (index_of u l).
Proof.
  unfold rows_from. revert k.
  induction l as [ | x l IH ]; intro k; simpl; [ reflexivity | ].
  destruct (String.eqb u x).
  - simpl. now rewrite Nat.add_0_r.
  - rewrite IH. destruct (index_of u l); simpl; [ | reflexivity ].
    now rewrite Nat.add_succ_r.
Qed.

Lemma lookup_row_from (k : nat) (l : list string) (i : nat) (entry : nat -> Q)
    (u : string) :
  NoDup l ->
  Py.lookup String.eqb (row_from k l i entry) u
  = match index_of u l with
    | Some j => if (i =? k + j)%nat then None else Some (entry (k + j)%nat)
    | None => None
    end.
Proof.
  unfold row_from. intro Hnd. revert k.
  induction Hnd as [ | x l Hx Hnd IH ]; intro k; simpl; [ reflexivity | ].
  destruct (String.eqb u x) eqn:E.
  - apply String.eqb_eq in E. subst x. rewrite Nat.add_0_r.
    destruct (i =? k)%nat; simpl.
    + rewrite IH, index_of_none; [ reflexivity | exact Hx ].
    + now rewrite String.eqb_refl.
  - assert (Hrest :
      Py.lookup String.eqb
        ((if (i =? k)%nat then [] else [(x, entry k)])
         ++ flat_map (fun '(j, u0) =>
                        if (i =? j)%nat then [] else [(u0, entry j)])
              (combine (seq (S k) (List.length l)) l)) u
      = Py.lookup String.eqb
          (flat_map (fun '(j, u0) =>
                       if (i =? j)%nat then [] else [(u0, entry j)])
             (combine (seq (S k) (List.length l)) l)) u).
    { destruct (i =? k)%nat; simpl; [ reflexivity | now rewrite E ]. }
    rewrite Hrest, IH.
    destruct (index_of u l); simpl; [ | reflexivity ].
    now rewrite Nat.add_succ_r.
Qed.

(** What the stored matrix answers for a pair of users. *)
Lemma similarity_rows (l : list string) (S : list (list Q)) (u1 u2 : string) :
  NoDup l ->
  similarity
    (rows_from 0 l (fun i => row_from 0 l i (fun j => nth j (nth i S []) 0)))
    u1 u2
  = match index_of u1 l, index_of u2 l with
    | Some i, Some j =>
        if (i =? j)%nat then None else Some (nth j (nth i S []) 0)
    | _, _ => None
    end.
Proof.
  intro Hnd. unfold similarity. rewrite lookup_rows_from.
  destruct (index_of u1 l) as [ i | ]; simpl; [ | reflexivity ].
  now rewrite lookup_row_from.
Qed.

Lemma build_is_matrix_of (log : list Interaction) :
  _build_similarity_matrix log = matrix_of (accumulate log).
Proof.
  destruct log as [ | i log ]; reflexivity.
Qed.

Lemma accumulate_snoc (log : list Interaction) (i : Interaction) :
  accumulate (log ++ [i]) = accumulate_step (accumulate log) i.
Proof. unfold accumulate. now rewrite fold_left_app. Qed.

Lemma interacted_snoc (log : list Interaction) (i : Interaction) (u : string)
    (r : Z) :
  interacted (log ++ [i]) u r
  <-> interacted log u r \/ truthy_ids i = Some (u, r).
Proof.
  unfold interacted. split.
  - intros [x [Hin Hx]]. apply in_app_iff in Hin as [Hin | [<- | []]].
    + left. now exists x.
    + now right.
  - intros [[x [Hin Hx]] | Hi].
    + exists x. split; [ apply in_app_iff; now left | exact Hx ].
    + exists i. split; [ apply in_app_iff; right; now left | exact Hi ].
Qed.

Lemma user_ids_nodup (log : list Interaction) : NoDup (user_ids (accumulate log)).
Proof.
  induction log as [ | i log IH ] using rev_ind.
  - constructor.
  - rewrite accumulate_snoc. unfold accumulate_step.
    destruct (truthy_ids i) as [[u r] | ]; [ | exact IH ].
    simpl. apply set_add_nodup; [ apply String.eqb_eq | exact IH ].
Qed.

Lemma user_ids_interacted (log : list Interaction) (u : string) :
  In u (user_ids (accumulate log)) -> exists r, interacted log u r.
Proof.
  induction log as [ | i log IH ] using rev_ind.
  - simpl. tauto.
  - rewrite accumulate_snoc. unfold accumulate_step.
    destruct (truthy_ids i) as [[u' r'] | ] eqn:E.
    + simpl. rewrite (set_add_in _ String.eqb_eq).
      intros [-> | H].
      * exists r'. apply interacted_snoc. now right.
      * destruct (IH H) as [r Hr]. exists r. apply interacted_snoc. now left.
    + intro H. destruct (IH H) as [r Hr]. exists r.
      apply interacted_snoc. now left.
Qed.

Lemma matrix_of_symmetric (acc : Accumulated) (u1 u2 : string) :
  NoDup (user_ids acc) ->
  similarity (matrix_of acc) u1 u2 = similarity (matrix_of acc) u2 u1.
Proof.
  intro Hnd. unfold matrix_of.
  destruct (user_ids acc) as [ | u0 us ] eqn:Eu; [ reflexivity | ].
  rewrite <- Eu in Hnd |- *. clear Eu. cbv zeta.
  set (users := Py.sorted String.leb (user_ids acc)).
  set (X := map _ users).
  destruct (1 <? List.length X)%nat; [ | reflexivity ].
  assert (Hnd' : NoDup users).
  { apply (Permutation_NoDup (l := user_ids acc)); [ | exact Hnd ].
    symmetry. apply sorted_perm. }
  assert (Hlen : List.length X = List.length users) by apply length_map.
  rewrite !similarity_rows by exact Hnd'.
  destruct (index_of u1 users) as [ i | ] eqn:E1;
    destruct (index_of u2 users) as [ j | ] eqn:E2; try reflexivity.
  apply index_of_lt in E1, E2. rewrite (Nat.eqb_sym j i).
  destruct (i =? j)%nat; [ reflexivity | ].
  f_equal. apply cosine_similarity_symmetric; lia.
Qed.

Lemma matrix_of_irreflexive (acc : Accumulated) (u : string) :
  NoDup (user_ids acc) -> similarity (matrix_of acc) u u = None.
Proof.
  intro Hnd. unfold matrix_of.
  destruct (user_ids acc) as [ | u0 us ] eqn:Eu; [ reflexivity | ].
  rewrite <- Eu in Hnd |- *. clear Eu. cbv zeta.
  set (users := Py.sorted String.leb (user_ids acc)).
  set (X := map _ users).
  destruct (1 <? List.length X)%nat; [ | reflexivity ].
  rewrite similarity_rows.
  - destruct (index_of u users); [ now rewrite Nat.eqb_refl | reflexivity ].
  - apply (Permutation_NoDup (l := user_ids acc)); [ | exact Hnd ].
    symmetry. apply sorted_perm.
Qed.

Lemma matrix_of_nonempty (acc : Accumulated) :
  NoDup (user_ids acc) -> matrix_of acc <> [] ->
  exists u1 u2, u1 <> u2 /\ In u1 (user_ids acc) /\ In u2 (user_ids acc).
Proof.
  intros Hnd Hne. unfold matrix_of in Hne.
  destruct (user_ids acc) as [ | u1 [ | u2 us ] ] eqn:Eu.
  - congruence.
  - exfalso. apply Hne. reflexivity.
  - exists u1, u2. inversion Hnd as [ | ? ? Hnotin _ ]; subst.
    simpl in *. intuition congruence.
Qed.

(** C6. In every state of the collaborative filter, at construction
    and after every added interaction, the stored similarity is
    symmetric, no user is its own neighbour, and the matrix is non-empty
    only when two distinct users have interactions in the log. *)
Theorem similarity_matrix_invariant :
  forall cf : CollaborativeFiltering,
    reachable cf ->
    (forall u1 u2,
        similarity (user_similarity_matrix cf) u1 u2
        = similarity (user_similarity_matrix cf) u2 u1)
    /\ (forall u, similarity (user_similarity_matrix cf) u u = None)
    /\ (user_similarity_matrix cf <> [] ->
        exists u1 u2 r1 r2,
          u1 <> u2
          /\ interacted (user_interactions cf) u1 r1
          /\ interacted (user_interactions cf) u2 r2).
Proof.
  intros cf Hreach.
  assert (Hbuilt : exists log, cf = load log).
  { destruct Hreach; eexists; reflexivity. }
  destruct Hbuilt as [log ->]. simpl.
  rewrite build_is_matrix_of.
  pose proof (user_ids_nodup log) as Hnd.
  split; [ | split ].
  - intros u1 u2. now apply matrix_of_symmetric.
  - intro u. now apply matrix_of_irreflexive.
  - intro Hne.
    destruct (matrix_of_nonempty _ Hnd Hne) as [u1 [u2 [Hdiff [H1 H2]]]].
    destruct (user_ids_interacted _ _ H1) as [r1 Hr1].
    destruct (user_ids_interacted _ _ H2) as [r2 Hr2].
    now exists u1, u2, r1, r2.
Qed.

Lemma has_interacted_iff (log : list Interaction) (u : string) (r : Z) :
  has_interacted log u r = true <-> interacted log u r.
Proof.
  unfold has_interacted, interacted. rewrite existsb_exists.
  split; intros [i [Hin Hi]]; exists i; (split; [ exact Hin | ]).
  - destruct (truthy_ids i) as [[u' r'] | ]; [ | discriminate ].
    apply andb_true_iff in Hi as [Hu Hr].
    apply String.eqb_eq in Hu. apply Z.eqb_eq in Hr. congruence.
  - rewrite Hi. now rewrite String.eqb_refl, Z.eqb_refl.
Qed.

Lemma interactions_snoc (log : list Interaction) (i : Interaction) :
  user_restaurant_interactions (log ++ [i])
  = interactions_step (user_restaurant_interactions log) i.
Proof. unfold user_restaurant_interactions. now rewrite fold_left_app. Qed.

(** The set the scan builds for a user holds the restaurants of its
    interactions, each once. *)
Lemma restaurants_of_interacted (log : list Interaction) (u : string) (r : Z) :
  In r (restaurants_of (user_restaurant_interactions log) u)
  <-> interacted log u r.
Proof.
  induction log as [ | i log IH ] using rev_ind.
  - unfold interacted. simpl. split; [ tauto | ]. intros [x [[] _]].
  - rewrite interactions_snoc, interacted_snoc, <- IH.
    unfold interactions_step.
    destruct (truthy_ids i) as [[u' r'] | ] eqn:E.
    + unfold restaurants_of at 1.
      destruct (String.eqb_spec u' u) as [-> | Hne].
      * rewrite (lookup_setitem_same _ String.eqb_eq).
        rewrite (set_add_in _ Z.eqb_eq). unfold restaurants_of.
        intuition congruence.
      * rewrite (lookup_setitem_other _ String.eqb_eq) by exact Hne.
        unfold restaurants_of. intuition congruence.
    + intuition congruence.
Qed.

Lemma restaurants_of_nodup (log : list Interaction) (u : string) :
  NoDup (restaurants_of (user_restaurant_interactions log) u).
Proof.
  induction log as [ | i log IH ] using rev_ind.
  - constructor.
  - rewrite interactions_snoc. unfold interactions_step.
    destruct (truthy_ids i) as [[u' r'] | ]; [ | exact IH ].
    unfold restaurants_of in *.
    destruct (String.eqb_spec u' u) as [-> | Hne].
    + rewrite (lookup_setitem_same _ String.eqb_eq).
      apply (set_add_nodup _ Z.eqb_eq).
      destruct (Py.lookup String.eqb (user_restaurant_interactions log) u);
        [ exact IH | constructor ].
    + now rewrite (lookup_setitem_other _ String.eqb_eq) by exact Hne.
Qed.

Lemma add_similarity_value (s : Q) (scores : list (Z * Q)) (r r' : Z) :
  value (add_similarity s scores r) r'
  == value scores r' + (if Z.eqb r' r then s else 0).
Proof.
  unfold value, add_similarity. destruct (Z.eqb_spec r' r) as [-> | Hne].
  - rewrite (lookup_setitem_same _ Z.eqb_eq). lra.
  - rewrite (lookup_setitem_other _ Z.eqb_eq) by congruence. lra.
Qed.

Lemma add_similarity_nodup (s : Q) (scores : list (Z * Q)) (r : Z) :
  NoDup (map fst scores) -> NoDup (map fst (add_similarity s scores r)).
Proof. apply (setitem_nodup _ Z.eqb_eq). Qed.

Lemma add_all_value (s : Q) (rs : list Z) (scores : list (Z * Q)) (r : Z) :
  NoDup rs ->
  value (fold_left (add_similarity s) rs scores) r
  == value scores r + (if Py.set_mem Z.eqb rs r then s else 0).
Proof.
  intro Hnd. revert scores.
  induction Hnd as [ | x rs Hx Hnd IH ]; intro scores; simpl.
  - lra.
  - rewrite IH, add_similarity_value.
    destruct (Z.eqb_spec r x) as [-> | Hne]; simpl.
    + destruct (Py.set_mem Z.eqb rs x) eqn:E; [ | lra ].
      apply (set_mem_in _ Z.eqb_eq) in E. contradiction.
    + lra.
Qed.

Lemma add_all_nodup (s : Q) (rs : list Z) (scores : list (Z * Q)) :
  NoDup (map fst scores) ->
  NoDup (map fst (fold_left (add_similarity s) rs scores)).
Proof.
  revert scores. induction rs as [ | x rs IH ]; intros scores H; simpl.
  - exact H.
  - apply IH. now apply add_similarity_nodup.
Qed.

Lemma sumQ_filter (f : string * Q -> bool) (l : list (string * Q)) :
  sumQ (map snd (filter f l))
  == sumQ (map (fun us => if f us then snd us else 0) l).
Proof.
  induction l as [ | x l IH ]; simpl; [ reflexivity | ].
  destruct (f x); simpl; rewrite IH; lra.
Qed.

Lemma scores_fold (log : list Interaction) (similar : list (string * Q))
    (scores : list (Z * Q)) (r : Z) :
  let d := user_restaurant_interactions log in
  let final :=
    fold_left
      (fun scores '(similar_user_id, similarity) =>
         fold_left (add_similarity similarity)
                   (restaurants_of d similar_user_id) scores)
      similar scores in
  (NoDup (map fst scores) -> NoDup (map fst final))
  /\ value final r == value scores r + similarity_sum log similar r.
Proof.
  cbv zeta. unfold similarity_sum. revert scores.
  induction similar as [ | [u s] similar IH ]; intro scores; simpl.
  - split; [ tauto | unfold sumQ; simpl; lra ].
  - destruct (IH (fold_left (add_similarity s)
                    (restaurants_of (user_restaurant_interactions log) u)
                    scores)) as [IHnd IHval].
    split.
    + intro H. apply IHnd. now apply add_all_nodup.
    + rewrite IHval, add_all_value by apply restaurants_of_nodup.
      assert (Hmem :
        Py.set_mem Z.eqb (restaurants_of (user_restaurant_interactions log) u) r
        = has_interacted log u r).
      { apply eq_true_iff_eq.
        now rewrite (set_mem_in _ Z.eqb_eq), restaurants_of_interacted,
          has_interacted_iff. }
      rewrite Hmem. destruct (has_interacted log u r); simpl; lra.
Qed.

Lemma collaborative_scores_entry (log : list Interaction)
    (similar : list (string * Q)) (r : Z) (s : Q) :
  In (r, s) (collaborative_scores (user_restaurant_interactions log) similar) ->
  s == similarity_sum log similar r.
Proof.
  intro Hin. destruct (scores_fold log similar [] r) as [Hnd Hval].
  fold (collaborative_scores (user_restaurant_interactions log) similar)
    in Hnd, Hval.
  apply (in_lookup _ Z.eqb_eq) in Hin; [ | apply Hnd; constructor ].
  unfold value in Hval. rewrite Hin in Hval. simpl in Hval. lra.
Qed.

Lemma interacted_truthy (log : list Interaction) (u : string) (r : Z) :
  interacted log u r -> u <> ""%string /\ r <> 0%Z.
Proof.
  intros [i [_ Hi]]. unfold truthy_ids in Hi.
  destruct (userId i) as [u' | ]; [ | discriminate ].
  destruct (restaurantId i) as [r' | ]; [ | discriminate ].
  destruct (String.eqb_spec u' "") as [ | Hu ]; [ discriminate | ].
  destruct (Z.eqb_spec r' 0) as [ | Hr ]; [ discriminate | ].
  simpl in Hi. injection Hi as <- <-. tauto.
Qed.

Lemma add_all_keys (s : Q) (rs : list Z) (scores : list (Z * Q)) (r : Z) :
  In r (map fst (fold_left (add_similarity s) rs scores)) ->
  In r (map fst scores) \/ In r rs.
Proof.
  revert scores. induction rs as [ | x rs IH ]; intros scores H; simpl in *.
  - now left.
  - apply IH in H as [H | H]; [ | tauto ].
    unfold add_similarity in H. rewrite (setitem_keys _) in H.
    destruct (Py.has_key Z.eqb scores x); [ tauto | ].
    apply in_app_iff in H as [H | [<- | []]]; tauto.
Qed.

(** A scored restaurant is one a similar user has an interaction with. *)
Lemma collaborative_scores_keys (log : list Interaction)
    (similar : list (string * Q)) (r : Z) (s : Q) :
  In (r, s) (collaborative_scores (user_restaurant_interactions log) similar) ->
  exists u, interacted log u r.
Proof.
  intro Hin. apply (in_map fst) in Hin. simpl in Hin. revert Hin.
  unfold collaborative_scores.
  assert (Hgen : forall scores,
    In r (map fst
            (fold_left
               (fun scores '(similar_user_id, similarity) =>
                  fold_left (add_similarity similarity)
                    (restaurants_of (user_restaurant_interactions log)
                       similar_user_id) scores)
               similar scores)) ->
    In r (map fst scores) \/ exists u, interacted log u r).
  { induction similar as [ | [u sim] similar IH ]; intros scores H; simpl in H.
    - now left.
    - apply IH in H as [H | H]; [ | now right ].
      apply add_all_keys in H as [H | H]; [ now left | right ].
      exists u. now apply restaurants_of_interacted. }
  intro H. apply Hgen in H as [[] | H]. exact H.
Qed.
Lemma restaurant_dict_some (restaurants : list Restaurant) (rid : Z)
    (r : Restaurant) :
  restaurant_dict restaurants rid = Some r -> In r restaurants /\ id r = rid.
Proof.
  induction restaurants as [ | x rest IH ]; simpl; [ discriminate | ].
  destruct (restaurant_dict rest rid) as [ r' | ].
  - intros [= ->]. destruct (IH eq_refl). tauto.
  - destruct (Z.eqb_spec (id x) rid); [ | discriminate ].
    intros [= ->]. tauto.
Qed.

Lemma recommendations_from_candidates (cf : CollaborativeFiltering)
    (user : string) (restaurants : list Restaurant) (top_k : nat)
    (item : CollabItem.t) :
  In item (get_collaborative_recommendations cf user restaurants top_k) ->
  In item (candidates (user_interactions cf) (get_similar_users cf user 10)
             user restaurants).
Proof.
  unfold get_collaborative_recommendations.
  destruct (Py.lookup String.eqb (user_similarity_matrix cf) user);
    [ | intros [] ].
  destruct (get_similar_users cf user 10) as [ | su similar ]; [ intros [] | ].
  intro H. apply in_firstn in H. now apply sort_desc_in in H.
Qed.

Lemma candidate_spec (log : list Interaction) (similar : list (string * Q))
    (user : string) (restaurants : list Restaurant) (item : CollabItem.t) :
  In item (candidates log similar user restaurants) ->
  (forall rid, interacted log user rid -> id (CollabItem.restaurant item) <> rid)
  /\ (forall i,
         In i log -> userId i = Some user -> user <> ""%string ->
         restaurantId i <> Some (id (CollabItem.restaurant item)))
  /\ In (CollabItem.restaurant item) restaurants
  /\ CollabItem.collaborative_score item
     == similarity_sum log similar (id (CollabItem.restaurant item)).
Proof.
  unfold candidates. rewrite in_flat_map.
  intros [[rid s] [Hin Hitem]].
  destruct (restaurant_dict restaurants rid) as [ r | ] eqn:Er; [ | destruct Hitem ].
  destruct (Py.set_mem Z.eqb
              (restaurants_of (user_restaurant_interactions log) user) rid)
    eqn:Em; [ destruct Hitem | ].
  destruct Hitem as [<- | []]. simpl.
  apply restaurant_dict_some in Er as [Hr Hid]. rewrite Hid.
  assert (Hnot : ~ interacted log user rid).
  { intro Hint.
    apply restaurants_of_interacted, (set_mem_in _ Z.eqb_eq) in Hint.
    congruence. }
  split; [ | split; [ | split ] ].
  - intros rid' Hint ->. contradiction.
  - intros i Hi Hu Huser Hrid. apply Hnot.
    destruct (collaborative_scores_keys _ _ _ _ Hin) as [u Htouched].
    apply interacted_truthy in Htouched as [_ Hnonzero].
    exists i. split; [ exact Hi | ].
    unfold truthy_ids. rewrite Hu, Hrid.
    apply String.eqb_neq in Huser. apply Z.eqb_neq in Hnonzero.
    now rewrite Huser, Hnonzero.
  - exact Hr.
  - now apply collaborative_scores_entry.
Qed.






Lemma falsy_has_no_ids (i : Interaction) : falsy i -> truthy_ids i = None.
Proof.
  unfold falsy, truthy_ids.
  intros [H | [H | [H | H]]]; rewrite H.
  - reflexivity.
  - now destruct (restaurantId i).
  - now destruct (userId i).
  - destruct (userId i); [ | reflexivity ].
    now rewrite orb_true_r.
Qed.

(** C10. An interaction whose user id or restaurant id is falsy (absent,
    the empty string, 0) changes nothing: wherever it stands in the
    log, the similarity matrix and the collaborative recommendations are
    those of the log without it. *)
Theorem falsy_interaction_is_skipped :
  forall (before after : list Interaction) (i : Interaction) (user : string)
         (restaurants : list Restaurant) (top_k : nat),
    falsy i ->
    _build_similarity_matrix (before ++ i :: after)
    = _build_similarity_matrix (before ++ after)
    /\ get_collaborative_recommendations (load (before ++ i :: after)) user
         restaurants top_k
       = get_collaborative_recommendations (load (before ++ after)) user
           restaurants top_k.
Proof.
  intros before after i user restaurants top_k Hfalsy.
  apply falsy_has_no_ids in Hfalsy.
  assert (Hacc : accumulate (before ++ i :: after) = accumulate (before ++ after)).
  { unfold accumulate. rewrite !fold_left_app. simpl.
    unfold accumulate_step at 2. now rewrite Hfalsy. }
  assert (Hscan : user_restaurant_interactions (before ++ i :: after)
                  = user_restaurant_interactions (before ++ after)).
  { unfold user_restaurant_interactions. rewrite !fold_left_app. simpl.
    unfold interactions_step at 2. now rewrite Hfalsy. }
  assert (Hmatrix : _build_similarity_matrix (before ++ i :: after)
                    = _build_similarity_matrix (before ++ after)).
  { now rewrite !build_is_matrix_of, Hacc. }
  split; [ exact Hmatrix | ].
  unfold get_collaborative_recommendations, get_similar_users, load.
  simpl. now rewrite Hmatrix, Hscan.
Qed.

End CollaborativeFilterFacts.

(** The invariant after a third user is added to the two-user log. *)
Lemma similarity_matrix_invariant_witness :
  let cf := add_interaction (sk := no_shared_terms) (load (sk := no_shared_terms) two_users)
              "c" 20 (Some 7) true false "2024-01-02T00:00:00" in
  (forall u1 u2,
      similarity (user_similarity_matrix cf) u1 u2
      = similarity (user_similarity_matrix cf) u2 u1)
  /\ (forall u, similarity (user_similarity_matrix cf) u u = None)
  /\ (user_similarity_matrix cf <> [] ->
      exists u1 u2 r1 r2,
        u1 <> u2
        /\ interacted (user_interactions cf) u1 r1
        /\ interacted (user_interactions cf) u2 r2).
Proof.
  apply (@similarity_matrix_invariant no_shared_terms).
  apply reach_add, reach_load.
Defined.

(** An interaction with an empty user id, put between the entries of
    the two-user log. *)
Lemma falsy_interaction_is_skipped_witness :
  let anonymous := {| userId := Some ""%string; restaurantId := Some 20%Z;
                      timestamp := ""; rating := Some 5; clicked := true;
                      viewed := false |} in
  _build_similarity_matrix (sk := no_shared_terms)
    ([rated "a" 10 5] ++ anonymous :: [rated "b" 10 5; rated "b" 20 4])
  = _build_similarity_matrix (sk := no_shared_terms)
      ([rated "a" 10 5] ++ [rated "b" 10 5; rated "b" 20 4])
  /\ get_collaborative_recommendations
       (load (sk := no_shared_terms)
          ([rated "a" 10 5] ++ anonymous :: [rated "b" 10 5; rated "b" 20 4]))
       "a" [curry_house; grill] 9
     = get_collaborative_recommendations
         (load (sk := no_shared_terms)
            ([rated "a" 10 5] ++ [rated "b" 10 5; rated "b" 20 4]))
         "a" [curry_house; grill] 9.
Proof.
  apply (@falsy_interaction_is_skipped no_shared_terms).
  right. left. reflexivity.
Defined.

(** ** The enrichment gateway *)

Lemma prefix_iff (a b : string) :
  prefix a b = true <-> exists after, b = (a ++ after)%string.
Proof.
  revert b. induction a as [ | c a IH ]; intro b.
  - split; [ intros _; now exists b | intros _; now destruct b ].
  - destruct b as [ | c' b ]; simpl.
    + split; [ discriminate | intros [after H]; discriminate H ].
    + destruct (Ascii.ascii_dec c c') as [-> | Hne].
      * rewrite IH. split; intros [after H]; exists after; congruence.
      * split; [ discriminate | ]. intros [after H]. congruence.
Qed.

Lemma contains_iff (a b : string) : Py.contains a b = true <-> substring_of a b.
Proof.
  unfold substring_of. induction b as [ | c b IH ].
  - cbn [Py.contains]. rewrite orb_false_r, prefix_iff. split.
    + intros [after H]. now exists ""%string, after.
    + intros [[ | c before] [after H]]; [ now exists after | discriminate H ].
  - cbn [Py.contains]. rewrite orb_true_iff, prefix_iff, IH. split.
    + intros [[after H] | [before [after H]]].
      * now exists ""%string, after.
      * exists (String c before), after. simpl. congruence.
    + intros [[ | c' before] [after H]].
      * left. now exists after.
      * right. exists before, after. simpl in H. congruence.
Qed.

Section EnrichmentGatewayFacts.

Context {js : Json}.




(** The provider step always returns, with no candidate when the
    provider or the parse of its reply raises. *)
Lemma fetch_with_returns (configured : bool) (provider : Provider)
    (query : string) (loc : option string) (max_results : nat) :
  exists data,
    (if negb configured then Returns []
     else try_except (ask provider query loc max_results) (fun _ => Returns []))
    = Returns data
    /\ ((exists e, ask provider query loc max_results = Raises e) -> data = []).
Proof.
  destruct configured; simpl.
  - destruct (ask provider query loc max_results) as [data | e]; simpl.
    + exists data. split; [ reflexivity | ]. intros [e H]. discriminate H.
    + now exists [].
  - now exists [].
Qed.

Lemma fetch_candidates_returns (f : AIDataFetcher) (ai : Providers)
    (query : string) (loc : option string) (max_results : nat) :
  exists data, fetch_candidates f ai query loc max_results = Returns data.
Proof.
  unfold fetch_candidates, _fetch_with_gemini, _fetch_with_openai.
  destruct (gemini_model f).
  - destruct (fetch_with_returns true (gemini ai) query loc max_results)
      as [data [H _]]. now exists data.
  - destruct (openai_client f).
    + destruct (fetch_with_returns true (openai ai) query loc max_results)
        as [data [H _]]. now exists data.
    + now exists [].
Qed.





End EnrichmentGatewayFacts.


(** ** The hybrid ranker *)

Section HybridRankerFacts.

Context {sk : Sklearn} {js : Json}.

Lemma redistributed_fields (w : Weights) (n : Normalized) :
  content_weight (redistributed w n)
  == content_weight w + folded (collab_norm n) (collab_weight w)
     + folded (search_norm n) (search_weight w)
     + folded (ai_norm n) (ai_weight w)
  /\ collab_weight (redistributed w n) == kept (collab_norm n) (collab_weight w)
  /\ search_weight (redistributed w n) == kept (search_norm n) (search_weight w)
  /\ ai_weight (redistributed w n) == kept (ai_norm n) (ai_weight w).
Proof.
  unfold redistributed, folded, kept. simpl.
  destruct (Py.is_zero (collab_norm n)), (Py.is_zero (search_norm n)),
    (Py.is_zero (ai_norm n)); repeat split; lra.
Qed.

(** Redistribution moves weight, it loses none. *)
Lemma redistributed_total (w : Weights) (n : Normalized) :
  total_weight (redistributed w n) == total_weight w.
Proof.
  destruct (redistributed_fields w n) as [Hc [Hl [Hs Ha]]].
  unfold total_weight. rewrite Hc, Hl, Hs, Ha. unfold folded, kept.
  destruct (Py.is_zero (collab_norm n)), (Py.is_zero (search_norm n)),
    (Py.is_zero (ai_norm n)); lra.
Qed.

Lemma adjusted_fields (w : Weights) (n : Normalized) :
  0 < total_weight w ->
  content_weight (adjusted_weights w n)
  == content_weight (redistributed w n) / total_weight w
  /\ collab_weight (adjusted_weights w n)
     == collab_weight (redistributed w n) / total_weight w
  /\ search_weight (adjusted_weights w n)
     == search_weight (redistributed w n) / total_weight w
  /\ ai_weight (adjusted_weights w n)
     == ai_weight (redistributed w n) / total_weight w.
Proof.
  intro Hpos. pose proof (redistributed_total w n) as Htot.
  unfold adjusted_weights. cbv zeta.
  fold (total_weight (redistributed w n)).
  assert (Hgt : Py.gtb (total_weight (redistributed w n)) 0 = true).
  { apply ltb_lt. lra. }
  rewrite Hgt. simpl. now rewrite Htot.
Qed.

Lemma select_weights_positive (has_search has_ai : bool) :
  0 < total_weight (select_weights has_search has_ai).
Proof. destruct has_search, has_ai; reflexivity. Qed.

Lemma combined_entry (content_results : list Scored)
    (collab_results : list CollabItem.t) (search_results : list SearchItem.t)
    (ai_results : list AiItem.t) (item : Ranked.t) :
  In item
     (_combine_recommendations content_results collab_results search_results
        ai_results) ->
  Ranked.score item
  = combined_score (select_weights (nonempty search_results) (nonempty ai_results))
      (sub_scores item).
Proof.
  unfold _combine_recommendations.
  destruct (gather content_results collab_results search_results ai_results)
    as [restaurant_scores restaurant_data].
  rewrite sort_desc_in, in_flat_map.
  intros [[rest_id scores] [_ Hitem]].
  destruct (Py.lookup Z.eqb restaurant_data rest_id); [ | destruct Hitem ].
  destruct Hitem as [<- | []]. reflexivity.
Qed.

(** C1. For every entry of the combined ranking: a source among
    collaborative, search and ai whose normalized sub-score is 0 keeps
    no weight and its configured weight goes to content; the four
    weights are then divided by their total, so they sum to 1; and the
    final score is the sum of the normalized sub-scores weighted so.  When
    the collaborative and ai sub-scores are both 0, the score is the
    blend of content and search in which content carries its own weight
    and those two (and the search weight too when the search sub-score
    is 0), the two effective weights summing to 1. *)
Theorem weight_redistribution :
  forall (content_results : list Scored) (collab_results : list CollabItem.t)
         (search_results : list SearchItem.t) (ai_results : list AiItem.t),
    let w := select_weights (nonempty search_results) (nonempty ai_results) in
    Forall
      (fun item =>
         let n := normalized (sub_scores item) in
         let a := adjusted_weights w n in
         content_weight a
         == (content_weight w + folded (collab_norm n) (collab_weight w)
             + folded (search_norm n) (search_weight w)
             + folded (ai_norm n) (ai_weight w)) / total_weight w
         /\ collab_weight a
            == kept (collab_norm n) (collab_weight w) / total_weight w
         /\ search_weight a
            == kept (search_norm n) (search_weight w) / total_weight w
         /\ ai_weight a == kept (ai_norm n) (ai_weight w) / total_weight w
         /\ total_weight a == 1
         /\ Ranked.score item
            == content_norm n * content_weight a
               + collab_norm n * collab_weight a
               + search_norm n * search_weight a + ai_norm n * ai_weight a
         /\ (collab_norm n == 0 -> ai_norm n == 0 ->
             content_weight a
             == (content_weight w + collab_weight w + ai_weight w
                 + folded (search_norm n) (search_weight w)) / total_weight w
             /\ content_weight a + search_weight a == 1
             /\ Ranked.score item
                == content_norm n * content_weight a
                   + search_norm n * search_weight a))
      (_combine_recommendations content_results collab_results search_results
         ai_results).
Proof.
  intros content_results collab_results search_results ai_results w.
  apply Forall_forall. intros item Hin. cbv zeta.
  apply combined_entry in Hin. fold w in Hin.
  set (n := normalized (sub_scores item)) in *.
  pose proof (select_weights_positive (nonempty search_results)
                (nonempty ai_results)) as Hpos.
  fold w in Hpos.
  destruct (adjusted_fields w n Hpos) as [Hc [Hl [Hs Ha]]].
  destruct (redistributed_fields w n) as [Rc [Rl [Rs Ra]]].
  pose proof (redistributed_total w n) as Rt.
  assert (Hsum : total_weight (adjusted_weights w n) == 1).
  { unfold total_weight at 1. rewrite Hc, Hl, Hs, Ha.
    unfold total_weight in Rt at 1. field_simplify_eq; lra. }
  assert (Hscore :
    Ranked.score item
    == content_norm n * content_weight (adjusted_weights w n)
       + collab_norm n * collab_weight (adjusted_weights w n)
       + search_norm n * search_weight (adjusted_weights w n)
       + ai_norm n * ai_weight (adjusted_weights w n)).
  { rewrite Hin. reflexivity. }
  rewrite Rc in Hc. rewrite Rl in Hl. rewrite Rs in Hs. rewrite Ra in Ha.
  repeat (split; [ assumption | ]).
  intros Hzl Hza.
  assert (Hl0 : kept (collab_norm n) (collab_weight w) == 0).
  { unfold kept. apply is_zero_eq in Hzl. now rewrite Hzl. }
  assert (Ha0 : kept (ai_norm n) (ai_weight w) == 0).
  { unfold kept. apply is_zero_eq in Hza. now rewrite Hza. }
  assert (Hlf : folded (collab_norm n) (collab_weight w) == collab_weight w).
  { unfold folded. apply is_zero_eq in Hzl. now rewrite Hzl. }
  assert (Haf : folded (ai_norm n) (ai_weight w) == ai_weight w).
  { unfold folded. apply is_zero_eq in Hza. now rewrite Hza. }
  rewrite Hl0 in Hl. rewrite Ha0 in Ha. rewrite Hlf, Haf in Hc.
  unfold Qdiv in Hl, Ha. rewrite Qmult_0_l in Hl, Ha.
  split; [ | split ].
  - rewrite Hc. unfold Qdiv. apply Qmult_comp; [ lra | reflexivity ].
  - unfold total_weight in Hsum. lra.
  - rewrite Hscore, Hl, Ha. lra.
Qed.

(** A ranking that blends content and search: Curry House scores
    0.8 * 5/8 + 0.6 * 3/8, Grill, found by the search alone,
    0.6 * 3/8. *)
Example blend_of_content_and_search :
  map (fun item => (id (Ranked.restaurant item), Qred (Ranked.score item)))
      (_combine_recommendations
         [{| restaurant := curry_house; score := 0.8 |}] []
         [{| SearchItem.restaurant := curry_house;
             SearchItem.search_score := 0.5;
             SearchItem.semantic_score := 0.5;
             SearchItem.keyword_score := 0.5 |};
          {| SearchItem.restaurant := grill;
             SearchItem.search_score := 0.5;
             SearchItem.semantic_score := 0.5;
             SearchItem.keyword_score := 0.5 |}] [])
  = [(1%Z, 29 # 40); (2%Z, 9 # 40)].
Proof. reflexivity. Qed.

(** Without a search query, or with enrichment switched off, a run
    leaves the engine as it found it. *)
Lemma recommend_without_enrichment_keeps_engine
    (e : EnhancedRecommendationEngine) (ai : Providers) (req : Request.t) :
  truthy (Request.search_query req) = None \/ Request.use_ai_fetch req = false ->
  exists ranking, recommend e ai req = Returns (ranking, e).
Proof.
  intro H. unfold recommend. cbv zeta.
  destruct (truthy (Request.search_query req)) as [ q | ].
  - destruct H as [H | H]; [ discriminate H | ]. rewrite H.
    eexists. reflexivity.
  - eexists. reflexivity.
Qed.

End HybridRankerFacts.


(** ** Stable sorting *)

Section StableSort.

Context {A : Type} (key : A -> Q).

Lemma insert_desc_tied (v : Q) (x : A) (l : list A) :
  tied key v (Py.insert_desc key x l) = tied key v (x :: l).
Proof.
  unfold tied. induction l as [ | y l IH ]; [ reflexivity | ].
  cbn [Py.insert_desc]. destruct (Py.ltb (key x) (key y)) eqn:E.
  - cbn [filter]. rewrite IH. cbn [filter].
    destruct (Qeq_bool (key x) v) eqn:Ex; [ | reflexivity ].
    destruct (Qeq_bool (key y) v) eqn:Ey; [ | reflexivity ].
    apply ltb_lt in E. apply Qeq_bool_iff in Ex, Ey. lra.
  - reflexivity.
Qed.

(** The descending sort is stable: entries of equal key keep their order. *)
Lemma sort_desc_stable (v : Q) (l : list A) :
  tied key v (Py.sort_desc key l) = tied key v l.
Proof.
  induction l as [ | x l IH ]; [ reflexivity | ].
  cbn [Py.sort_desc]. rewrite insert_desc_tied. unfold tied in *.
  cbn [filter]. now rewrite IH.
Qed.

Lemma filter_firstn_prefix (f : A -> bool) (n : nat) (l : list A) :
  exists rest, filter f l = filter f (firstn n l) ++ rest.
Proof.
  exists (filter f (skipn n l)).
  now rewrite <- filter_app, firstn_skipn.
Qed.

Lemma firstn_all_perm (n : nat) (l l' : list A) :
  Permutation l l' -> (List.length l' <= n)%nat -> Permutation (firstn n l) l'.
Proof.
  intros Hp Hlen. rewrite firstn_all2; [ exact Hp | ].
  now rewrite (Permutation_length Hp).
Qed.

End StableSort.

Section ContentRankingFacts.

Context {sk : Sklearn}.

(** X1. The content ranking holds at most nine entries, in descending
    order of score; each is a restaurant of the catalog that passes the
    dietary gate, with its final score; and when at most nine
    restaurants pass the gate, all of them are ranked. *)
Theorem base_recommend_ranks_the_eligible :
  forall (restaurants : list Restaurant) (p : Preferences),
    let eligible r := _check_dietary_compatibility r (p_dietaryPreference p) in
    let result := base_recommend restaurants p in
    (List.length result <= 9)%nat
    /\ StronglySorted (not_below score) result
    /\ Forall
         (fun item =>
            In (restaurant item) restaurants
            /\ eligible (restaurant item) = true
            /\ score item
               = final_score restaurants p
                   (_process_additional_notes (p_additionalNotes p))
                   (restaurant item))
         result
    /\ ((List.length (filter eligible restaurants) <= 9)%nat ->
        Permutation (map restaurant result) (filter eligible restaurants)).
Proof.
  intros restaurants p eligible result. subst eligible result.
  unfold base_recommend.
  split; [ apply firstn_le_length | ].
  split; [ apply firstn_sorted, sort_desc_sorted | ].
  split.
  - apply Forall_forall. intros item Hin.
    apply in_firstn, sort_desc_in in Hin.
    unfold scored_restaurants in Hin. apply in_map_iff in Hin as [r [<- Hr]].
    apply filter_In in Hr as [Hr He]. simpl. tauto.
  - intro Hfew. rewrite <- scored_restaurants_are_the_eligible.
    apply Permutation_map, firstn_all_perm; [ apply sort_desc_perm | ].
    rewrite <- (length_map restaurant), scored_restaurants_are_the_eligible.
    exact Hfew.
Qed.

(** X2. Ties keep the catalog order: the ranked entries of one score
    are the first of the scored entries of that score, in the order the
    catalog lists them. *)
Theorem base_recommend_ties_keep_catalog_order :
  forall (restaurants : list Restaurant) (p : Preferences) (v : Q),
    exists later,
      tied score v (scored_restaurants restaurants p)
      = tied score v (base_recommend restaurants p) ++ later.
Proof.
  intros restaurants p v. unfold base_recommend.
  rewrite <- (sort_desc_stable score v (scored_restaurants restaurants p)).
  apply filter_firstn_prefix.
Qed.

End ContentRankingFacts.

(** ** The search matcher *)



Section SearchMatcherFacts.

Context {sk : Sklearn}.


End SearchMatcherFacts.

(** ** Strings *)

Lemma append_assoc (a b c : string) : ((a ++ b) ++ c = a ++ (b ++ c))%string.
Proof. induction a as [ | x a IH ]; simpl; [ reflexivity | now rewrite IH ]. Qed.

Lemma append_nil_r (a : string) : (a ++ "" = a)%string.
Proof. induction a as [ | x a IH ]; simpl; [ reflexivity | now rewrite IH ]. Qed.

Lemma rev_onto_app (s acc : string) :
  Py.rev_onto s acc = (Py.rev s ++ acc)%string.
Proof.
  unfold Py.rev. revert acc. induction s as [ | c s IH ]; intro acc.
  - reflexivity.
  - simpl. rewrite (IH (String c "")), (IH (String c acc)).
    now rewrite append_assoc.
Qed.

Lemma rev_cons (c : ascii) (s : string) :
  Py.rev (String c s) = (Py.rev s ++ String c "")%string.
Proof. unfold Py.rev at 1. simpl. apply rev_onto_app. Qed.








(** ** The keywords of a query *)







(** ** Preferences read off a query *)

Lemma first_category_chosen (table : list (string * list string))
    (text : string) (hint : option string) :
  chosen table text hint (or_hint (first_category table text) hint).
Proof.
  unfold chosen. induction table as [ | [label keywords] table IH ].
  - right. split; [ reflexivity | constructor ].
  - cbn [first_category]. destruct (Py.any_in keywords text) eqn:E.
    + left. exists label. split; [ reflexivity | ].
      exists [], keywords, table. repeat split; [ exact E | constructor ].
    + destruct IH as [[found [Hres Hfirst]] | [Hres Hnone]].
      * left. exists found. split; [ exact Hres | ].
        destruct Hfirst as [before [kws [after [-> [Hkw Hbefore]]]]].
        exists ((label, keywords) :: before), kws, after.
        repeat split; [ exact Hkw | now constructor ].
      * right. split; [ exact Hres | now constructor ].
Qed.

Lemma contains_trans (a b c : string) :
  Py.contains a b = true -> Py.contains b c = true -> Py.contains a c = true.
Proof.
  rewrite !contains_iff. intros [p [q ->]] [p' [q' ->]].
  exists (p' ++ p)%string, (q ++ q')%string.
  now rewrite !append_assoc.
Qed.

(** X5. For mood, occasion and cuisine the query decides by the first
    category of the keyword table, in the order the table is written,
    that has a keyword occurring in the lower-cased query; the caller's
    hint is kept exactly when no category matches. *)
Theorem query_preferences_first_match_wins :
  forall (query : string) (mood occasion cuisine : option string),
    let text := Py.lower query in
    let found := match_query_to_preferences query mood occasion cuisine in
    chosen mood_keywords text mood (q_mood found)
    /\ chosen occasion_keywords text occasion (q_occasion found)
    /\ chosen cuisine_keywords text cuisine (q_cuisine found).
Proof.
  intros query mood occasion cuisine text found. subst text found.
  unfold match_query_to_preferences. cbn [q_mood q_occasion q_cuisine].
  repeat split; apply first_category_chosen.
Qed.

(** X6. A query that asks for non-vegetarian food is read as a request
    for vegetarian food: the word non-vegetarian contains vegetarian,
    which is the first word the dietary test looks for. *)
Theorem non_vegetarian_query_is_read_as_vegetarian :
  forall (query : string) (mood occasion cuisine : option string),
    Py.contains "non-vegetarian" (Py.lower query) = true ->
    q_dietary (match_query_to_preferences query mood occasion cuisine)
    = Some "vegetarian"%string.
Proof.
  intros query mood occasion cuisine H.
  unfold match_query_to_preferences. cbn [q_dietary].
  assert (Hveg : Py.contains "vegetarian" (Py.lower query) = true).
  { apply (contains_trans _ "non-vegetarian"%string); [ reflexivity | exact H ]. }
  cbn [Py.any_in existsb]. now rewrite Hveg.
Qed.

Lemma non_vegetarian_query_is_read_as_vegetarian_witness :
  Py.contains "non-vegetarian" (Py.lower "Non-Vegetarian grill") = true
  /\ q_dietary (match_query_to_preferences "Non-Vegetarian grill" None None None)
     = Some "vegetarian"%string.
Proof.
  split; [ reflexivity | ].
  apply (non_vegetarian_query_is_read_as_vegetarian
           "Non-Vegetarian grill" None None None).
  reflexivity.
Defined.

(** X7. A query in which the word quick occurs gets the occasion
    casual meal, whatever else it says and whatever the hint: the
    keyword is listed under casual meal, which comes before quick bite. *)
Theorem quick_query_is_a_casual_meal :
  forall (query : string) (mood occasion cuisine : option string),
    Py.contains "quick" (Py.lower query) = true ->
    q_occasion (match_query_to_preferences query mood occasion cuisine)
    = Some "casual meal"%string.
Proof.
  intros query mood occasion cuisine H.
  unfold match_query_to_preferences. cbn [q_occasion].
  unfold occasion_keywords. cbn [first_category Py.any_in existsb].
  rewrite H, orb_true_r. reflexivity.
Qed.

Lemma quick_query_is_a_casual_meal_witness :
  Py.contains "quick" (Py.lower "a quick bite, fast") = true
  /\ q_occasion
       (match_query_to_preferences "a quick bite, fast" None
          (Some "quick bite"%string) None)
     = Some "casual meal"%string.
Proof.
  split; [ reflexivity | ].
  apply (quick_query_is_a_casual_meal "a quick bite, fast").
  reflexivity.
Defined.

(** ** The collaborative filter: the stored matrix *)

Lemma index_of_nth (u : string) (l : list string) (i : nat) :
  index_of u l = Some i -> nth i l ""%string = u.
Proof.
  revert i. induction l as [ | x l IH ]; intros i H; [ discriminate H | ].
  simpl in H. destruct (String.eqb u x) eqn:E.
  - injection H as <-. apply String.eqb_eq in E. now subst.
  - destruct (index_of u l) as [ k | ]; [ | discriminate H ].
    injection H as <-. simpl. now apply IH.
Qed.

Section SimilarityMatrixFacts.

Context {sk : Sklearn}.

Lemma reachable_is_loaded (cf : CollaborativeFiltering) :
  reachable cf -> cf = load (user_interactions cf).
Proof. intro H. destruct H; reflexivity. Qed.

Lemma interacted_user_ids (log : list Interaction) (u : string) (r : Z) :
  interacted log u r -> In u (user_ids (accumulate log)).
Proof.
  induction log as [ | i log IH ] using rev_ind.
  - intros [x [[] _]].
  - rewrite interacted_snoc, accumulate_snoc. unfold accumulate_step.
    intros [H | H].
    + destruct (truthy_ids i) as [[u' r'] | ]; [ | now apply IH ].
      simpl. apply (set_add_in _ String.eqb_eq). right. now apply IH.
    + rewrite H. simpl. apply (set_add_in _ String.eqb_eq). now left.
Qed.

(** X8. In every state of the filter a similarity is stored for exactly
    the pairs of distinct users that both have an interaction in the
    log, and it is the product of the two users' normalized score
    vectors. *)
Theorem similarity_is_stored_for_every_pair :
  forall cf : CollaborativeFiltering,
    reachable cf ->
    forall u1 u2 : string,
      let log := user_interactions cf in
      ((exists s, similarity (user_similarity_matrix cf) u1 u2 = Some s)
       <-> u1 <> u2
           /\ (exists r, interacted log u1 r)
           /\ (exists r, interacted log u2 r))
      /\ (forall s,
             similarity (user_similarity_matrix cf) u1 u2 = Some s ->
             s = dot (normalize (score_vector log u1))
                     (normalize (score_vector log u2))).
Proof.
  intros cf Hreach u1 u2 log. subst log.
  rewrite (reachable_is_loaded cf Hreach). cbn [user_interactions load
    user_similarity_matrix]. set (log := user_interactions cf).
  rewrite build_is_matrix_of.
  pose proof (user_ids_nodup log) as Hnd.
  assert (Hin : forall u, In u (user_ids (accumulate log))
                          <-> exists r, interacted log u r).
  { intro u. split; [ apply user_ids_interacted | ].
    intros [r Hr]. now apply (interacted_user_ids log u r). }
  rewrite <- !Hin. unfold matrix_of, score_vector.
  destruct (user_ids (accumulate log)) as [ | u0 us ] eqn:Eu.
  { split; [ | discriminate ]. simpl. split; [ intros [s H]; discriminate H | tauto ]. }
  rewrite <- Eu in Hnd, Hin |- *. clear Eu u0 us. cbv zeta.
  set (users := Py.sorted String.leb (user_ids (accumulate log))).
  set (rests := Py.sorted Z.leb (restaurant_ids (accumulate log))).
  set (X := map _ users).
  assert (Hperm : Permutation users (user_ids (accumulate log)))
    by apply sorted_perm.
  assert (Hnd' : NoDup users).
  { apply (Permutation_NoDup (l := user_ids (accumulate log)));
      [ now symmetry | exact Hnd ]. }
  assert (Hlen : List.length X = List.length users) by apply length_map.
  assert (Husers : forall u, In u (user_ids (accumulate log)) <-> In u users).
  { intro u. split; apply Permutation_in; [ now symmetry | exact Hperm ]. }
  rewrite !Husers.
  destruct (1 <? List.length X)%nat eqn:Emany.
  - rewrite similarity_rows by exact Hnd'. split.
    + split.
      * intros [s Hs].
        destruct (index_of u1 users) as [ i | ] eqn:E1; [ | discriminate Hs ].
        destruct (index_of u2 users) as [ j | ] eqn:E2; [ | discriminate Hs ].
        destruct (i =? j)%nat eqn:Eij; [ discriminate Hs | ].
        apply Nat.eqb_neq in Eij.
        pose proof (index_of_nth _ _ _ E1) as H1.
        pose proof (index_of_nth _ _ _ E2) as H2.
        assert (Hne : u1 <> u2) by (intros ->; congruence).
        apply index_of_lt in E1, E2.
        repeat split.
        -- exact Hne.
        -- rewrite <- H1. now apply nth_In.
        -- rewrite <- H2. now apply nth_In.
      * intros [Hne [H1 H2]].
        destruct (index_of_some _ _ H1) as [i E1].
        destruct (index_of_some _ _ H2) as [j E2].
        rewrite E1, E2. destruct (i =? j)%nat eqn:Eij; [ | eauto ].
        apply Nat.eqb_eq in Eij. subst j. exfalso. apply Hne.
        now rewrite <- (index_of_nth _ _ _ E1), <- (index_of_nth _ _ _ E2).
    + intros s Hs.
      destruct (index_of u1 users) as [ i | ] eqn:E1; [ | discriminate Hs ].
      destruct (index_of u2 users) as [ j | ] eqn:E2; [ | discriminate Hs ].
      destruct (i =? j)%nat; [ discriminate Hs | ]. injection Hs as <-.
      pose proof (index_of_nth _ _ _ E1) as H1.
      pose proof (index_of_nth _ _ _ E2) as H2.
      apply index_of_lt in E1, E2.
      rewrite cosine_similarity_entry by lia. unfold X.
      rewrite !(nth_map_in_range _ _ _ ""%string) by assumption.
      now rewrite H1, H2.
  - split; [ | discriminate ]. simpl.
    split; [ intros [s H]; discriminate H | ].
    intros [Hne [H1 H2]]. exfalso.
    apply Nat.ltb_ge in Emany. rewrite Hlen in Emany.
    destruct users as [ | a [ | b rest ] ]; simpl in *; try lia.
    intuition congruence.
Qed.

End SimilarityMatrixFacts.

Lemma similarity_is_stored_for_every_pair_witness :
  let cf := load (sk := no_shared_terms) two_users in
  reachable (sk := no_shared_terms) cf
  /\ ((exists s, similarity (user_similarity_matrix cf) "a" "b" = Some s)
      <-> "a"%string <> "b"%string
          /\ (exists r, interacted (user_interactions cf) "a" r)
          /\ (exists r, interacted (user_interactions cf) "b" r))
  /\ (forall s,
         similarity (user_similarity_matrix cf) "a" "b" = Some s ->
         s = dot (normalize (sk := no_shared_terms)
                    (score_vector (user_interactions cf) "a"))
                 (normalize (sk := no_shared_terms)
                    (score_vector (user_interactions cf) "b"))).
Proof.
  intro cf.
  split; [ apply reach_load | ].
  apply (similarity_is_stored_for_every_pair (sk := no_shared_terms) cf
           (reach_load two_users) "a"%string "b"%string).
Defined.

(** ** The collaborative filter: scores, neighbours, tracking *)

Lemma sorted_app_inv {A : Type} (R : A -> A -> Prop) (a b : list A) :
  StronglySorted R (a ++ b) -> forall x y, In x a -> In y b -> R x y.
Proof.
  induction a as [ | h a IH ]; intros Hs x y Hx Hy; [ destruct Hx | ].
  simpl in Hs. inversion Hs as [ | ? ? Hrest Hall ]; subst.
  destruct Hx as [<- | Hx].
  - rewrite Forall_forall in Hall. apply Hall, in_app_iff. now right.
  - now apply IH.
Qed.

(** What a cut of a sorted list leaves out ranks no higher than what
    it keeps, and it leaves something out only when it is full. *)
Lemma firstn_keeps_the_best {A : Type} (key : A -> Q) (n : nat) (l : list A)
    (x : A) :
  StronglySorted (not_below key) l -> In x l ->
  In x (firstn n l)
  \/ (List.length (firstn n l) = n
      /\ Forall (fun kept => key x <= key kept) (firstn n l)).
Proof.
  intros Hs Hin. rewrite <- (firstn_skipn n l) in Hs, Hin.
  apply in_app_iff in Hin as [Hin | Hin]; [ now left | right ].
  split.
  - apply firstn_length_le.
    destruct (Nat.le_gt_cases n (List.length l)) as [H | H]; [ exact H | ].
    rewrite skipn_all2 in Hin by lia. destruct Hin.
  - apply Forall_forall. intros y Hy.
    apply (sorted_app_inv _ _ _ Hs y x Hy Hin).
Qed.

Lemma row_from_keys (k : nat) (l : list string) (i : nat) (entry : nat -> Q)
    (u : string) :
  In u (map fst (row_from k l i entry)) -> In u l.
Proof.
  unfold row_from. revert k. induction l as [ | x l IH ]; intro k; simpl.
  - tauto.
  - rewrite map_app, in_app_iff. intros [H | H].
    + destruct (i =? k)%nat; simpl in H; tauto.
    + right. exact (IH _ H).
Qed.

Lemma row_from_nodup (k : nat) (l : list string) (i : nat) (entry : nat -> Q) :
  NoDup l -> NoDup (map fst (row_from k l i entry)).
Proof.
  unfold row_from. revert k. induction l as [ | x l IH ]; intros k Hnd; simpl.
  - constructor.
  - inversion Hnd as [ | ? ? Hx Hl ]; subst. rewrite map_app.
    destruct (i =? k)%nat; simpl; [ now apply IH | ].
    constructor; [ | now apply IH ].
    intro H. apply Hx. exact (row_from_keys _ _ _ _ _ H).
Qed.

Section NeighbourFacts.

Context {sk : Sklearn}.

(** The rows of the stored matrix have one entry per neighbour. *)
Lemma matrix_rows_nodup (log : list Interaction) (u : string)
    (row : list (string * Q)) :
  Py.lookup String.eqb (_build_similarity_matrix log) u = Some row ->
  NoDup (map fst row).
Proof.
  rewrite build_is_matrix_of. unfold matrix_of.
  pose proof (user_ids_nodup log) as Hnd.
  destruct (user_ids (accumulate log)) as [ | u0 us ] eqn:Eu; [ discriminate | ].
  rewrite <- Eu in Hnd |- *. clear Eu. cbv zeta.
  set (users := Py.sorted String.leb (user_ids (accumulate log))).
  set (X := map _ users).
  destruct (1 <? List.length X)%nat; [ | discriminate ].
  rewrite lookup_rows_from.
  destruct (index_of u users) as [ i | ]; [ | discriminate ].
  simpl. intro H. injection H as <-. apply row_from_nodup.
  apply (Permutation_NoDup (l := user_ids (accumulate log))); [ | exact Hnd ].
  symmetry. apply sorted_perm.
Qed.

(** X9. The score row of a user holds, for each restaurant, the score
    of the user's latest interaction with it (twice the rating, plus 1
    for a click and 0.5 for a view) and 0 when there is none: a later
    interaction replaces an earlier one, the scores do not add up. *)
Theorem latest_interaction_sets_the_score :
  forall (log : list Interaction) (u : string) (r : Z),
    matrix_entry (user_restaurant_matrix (accumulate log)) u r
    = match latest log u r with
      | Some i => interaction_score i
      | None => 0.0
      end.
Proof.
  intros log u r. unfold latest.
  induction log as [ | i log IH ] using rev_ind; [ reflexivity | ].
  rewrite accumulate_snoc, rev_app_distr. cbn [List.rev app find].
  unfold accumulate_step.
  destruct (truthy_ids i) as [[u' r'] | ]; [ | exact IH ].
  cbn [user_restaurant_matrix]. unfold matrix_entry in *.
  destruct (String.eqb u u') eqn:Eu.
  - apply String.eqb_eq in Eu. subst u'.
    rewrite (lookup_setitem_same _ String.eqb_eq).
    destruct (Z.eqb r r') eqn:Er.
    + apply Z.eqb_eq in Er. subst r'.
      now rewrite (lookup_setitem_same _ Z.eqb_eq).
    + apply Z.eqb_neq in Er.
      rewrite (lookup_setitem_other _ Z.eqb_eq) by congruence.
      cbn [andb]. rewrite <- IH.
      now destruct (Py.lookup String.eqb _ u).
  - apply String.eqb_neq in Eu.
    rewrite (lookup_setitem_other _ String.eqb_eq) by congruence.
    exact IH.
Qed.

(** X10. In every state of the filter the similar users of a user are
    at most top_k neighbours in descending order of similarity, each
    listed once with the similarity the matrix stores for the pair and
    none of them the user itself; a neighbour that is left out is left
    out of a full list and is no more similar than any that is kept. *)
Theorem similar_users_are_the_nearest :
  forall cf : CollaborativeFiltering,
    reachable cf ->
    forall (user : string) (top_k : nat),
      let m := user_similarity_matrix cf in
      let result := get_similar_users cf user top_k in
      (List.length result <= top_k)%nat
      /\ StronglySorted (not_below snd) result
      /\ NoDup (map fst result)
      /\ Forall (fun neighbour =>
                   similarity m user (fst neighbour) = Some (snd neighbour)
                   /\ fst neighbour <> user)
                result
      /\ (forall v s,
             similarity m user v = Some s ->
             In (v, s) result
             \/ (List.length result = top_k
                 /\ Forall (fun neighbour => s <= snd neighbour) result)).
Proof.
  intros cf Hreach user top_k m result. subst m result.
  rewrite (reachable_is_loaded cf Hreach).
  set (log := user_interactions cf).
  unfold get_similar_users, similarity.
  cbn [user_similarity_matrix load].
  pose proof (matrix_rows_nodup log user) as Hrow.
  pose proof (matrix_of_irreflexive (accumulate log) user (user_ids_nodup log))
    as Hirr.
  rewrite <- build_is_matrix_of in Hirr. unfold similarity in Hirr.
  destruct (Py.lookup String.eqb (_build_similarity_matrix log) user)
    as [ row | ].
  2:{ split; [ apply Nat.le_0_l | ]. do 3 (split; [ constructor | ]).
      intros v s H. discriminate H. }
  specialize (Hrow row eq_refl).
  assert (Hin : forall v s, In (v, s) (firstn top_k (Py.sort_desc snd row)) ->
                            Py.lookup String.eqb row v = Some s).
  { intros v s H. apply in_firstn, sort_desc_in in H.
    now apply (in_lookup _ String.eqb_eq). }
  split; [ apply firstn_le_length | ].
  split; [ apply firstn_sorted, sort_desc_sorted | ].
  split.
  { assert (Hnd : NoDup (map fst (Py.sort_desc snd row))).
    { apply (Permutation_NoDup (l := map fst row)); [ | exact Hrow ].
      apply Permutation_map. symmetry. apply sort_desc_perm. }
    rewrite <- (firstn_skipn top_k (Py.sort_desc snd row)), map_app in Hnd.
    exact (NoDup_app_remove_r _ _ Hnd). }
  split.
  - apply Forall_forall. intros [v s] H. simpl.
    pose proof (Hin v s H) as Hv. split; [ exact Hv | ].
    intros ->. congruence.
  - intros v s H. apply (lookup_in _ String.eqb_eq) in H.
    apply (firstn_keeps_the_best snd top_k (Py.sort_desc snd row) (v, s)).
    + apply sort_desc_sorted.
    + now apply sort_desc_in.
Qed.

(** X11. Once an interaction of a user with a restaurant is tracked,
    both ids being truthy, the filter does not recommend that restaurant
    to that user, whatever the catalog and top_k. *)
Theorem tracked_restaurant_is_not_recommended_back :
  forall (cf : CollaborativeFiltering) (user_id : string) (restaurant_id : Z)
         (rating : option Q) (clicked viewed : bool) (now : string)
         (restaurants : list Restaurant) (top_k : nat),
    user_id <> ""%string ->
    restaurant_id <> 0%Z ->
    Forall (fun item => id (CollabItem.restaurant item) <> restaurant_id)
      (get_collaborative_recommendations
         (add_interaction cf user_id restaurant_id rating clicked viewed now)
         user_id restaurants top_k).
Proof.
  intros cf user_id restaurant_id rating clicked viewed now restaurants top_k
         Hu Hr.
  apply Forall_forall. intros item Hin.
  apply recommendations_from_candidates, candidate_spec in Hin.
  destruct Hin as [Hnot _]. apply Hnot.
  unfold add_interaction. cbn [user_interactions load].
  apply interacted_snoc. right. unfold truthy_ids. cbn [userId restaurantId].
  apply String.eqb_neq in Hu. apply Z.eqb_neq in Hr. now rewrite Hu, Hr.
Qed.

(** X12. Tracking an interaction appends exactly one entry to the
    log and rebuilds the matrix from the new log; the stored rating is
    the given one clamped to [0,5], so the entry scores between 0 and
    11.5. *)
Theorem add_interaction_appends_a_clamped_entry :
  forall (cf : CollaborativeFiltering) (user_id : string) (restaurant_id : Z)
         (given : option Q) (was_clicked was_viewed : bool) (now : string),
    let cf' := add_interaction cf user_id restaurant_id given was_clicked
                 was_viewed now in
    exists entry,
      user_interactions cf' = user_interactions cf ++ [entry]
      /\ user_similarity_matrix cf'
         = _build_similarity_matrix (user_interactions cf')
      /\ userId entry = Some user_id
      /\ restaurantId entry = Some restaurant_id
      /\ match given, rating entry with
         | Some x, Some y =>
             0 <= y <= 5 /\ (0 <= x <= 5 -> y == x)
             /\ (x <= 0 -> y == 0) /\ (5 <= x -> y == 5)
         | None, None => True
         | _, _ => False
         end
      /\ 0 <= interaction_score entry <= 11.5.
Proof.
  intros cf user_id restaurant_id given was_clicked was_viewed now cf'.
  subst cf'. unfold add_interaction. cbn [user_interactions load
    user_similarity_matrix].
  eexists. split; [ reflexivity | ]. split; [ reflexivity | ].
  split; [ reflexivity | ]. split; [ reflexivity | ].
  assert (Hclamp : forall x,
             (0 <= clamp_rating x <= 5)
             /\ (0 <= x <= 5 -> clamp_rating x == x)
             /\ (x <= 0 -> clamp_rating x == 0)
             /\ (5 <= x -> clamp_rating x == 5)).
  { intro x. unfold clamp_rating, Py.max, Py.min.
    destruct (Py.ltb x 5.0) eqn:E5.
    - apply ltb_lt in E5. destruct (Py.ltb 0.0 x) eqn:E0.
      + apply ltb_lt in E0. repeat split; intros; lra.
      + apply ltb_ge in E0. repeat split; intros; lra.
    - apply ltb_ge in E5. destruct (Py.ltb 0.0 5.0) eqn:E0.
      + repeat split; intros; lra.
      + apply ltb_ge in E0. lra. }
  unfold interaction_score, get_rating. cbn [rating clicked viewed].
  destruct given as [ x | ]; cbn [option_map].
  - destruct (Hclamp x) as [Hb Hrest]. split; [ tauto | ].
    destruct was_clicked, was_viewed; lra.
  - split; [ exact I | ]. destruct was_clicked, was_viewed; lra.
Qed.

End NeighbourFacts.

Lemma similar_users_are_the_nearest_witness :
  let cf := load (sk := no_shared_terms) two_users in
  let m := user_similarity_matrix cf in
  let result := get_similar_users cf "a" 5 in
  reachable (sk := no_shared_terms) cf
  /\ (List.length result <= 5)%nat
  /\ StronglySorted (not_below snd) result
  /\ NoDup (map fst result)
  /\ Forall (fun neighbour =>
               similarity m "a" (fst neighbour) = Some (snd neighbour)
               /\ fst neighbour <> "a"%string)
            result
  /\ (forall v s,
         similarity m "a" v = Some s ->
         In (v, s) result
         \/ (List.length result = 5%nat
             /\ Forall (fun neighbour => s <= snd neighbour) result)).
Proof.
  intros cf m result.
  split; [ apply reach_load | ].
  apply (similar_users_are_the_nearest (sk := no_shared_terms) cf
           (reach_load two_users) "a"%string 5%nat).
Defined.

Lemma tracked_restaurant_is_not_recommended_back_witness :
  "a"%string <> ""%string
  /\ 20%Z <> 0%Z
  /\ Forall (fun item => id (CollabItem.restaurant item) <> 20%Z)
       (get_collaborative_recommendations
          (add_interaction (sk := no_shared_terms)
             (load (sk := no_shared_terms) two_users) "a" 20 (Some 4) true
             false "2024-01-02T00:00:00")
          "a" [curry_house; grill] 9).
Proof.
  split; [ discriminate | ]. split; [ discriminate | ].
  apply (tracked_restaurant_is_not_recommended_back (sk := no_shared_terms));
    discriminate.
Defined.

(** ** The enrichment gateway: ids, the store, normalized text *)

Lemma fold_max_ge (ids : list Z) (i : Z) :
  (i <= fold_left Z.max ids i)%Z
  /\ Forall (fun x => (x <= fold_left Z.max ids i)%Z) ids.
Proof.
  revert i. induction ids as [ | x ids IH ]; intro i; simpl.
  - split; [ lia | constructor ].
  - destruct (IH (Z.max i x)) as [Hi Hrest]. split; [ lia | ].
    constructor; [ lia | exact Hrest ].
Qed.

Lemma count_up_cons (start : Z) (n : nat) :
  count_up start (S n) = start :: count_up (start + 1) n.
Proof.
  unfold count_up. cbn [seq map]. f_equal; [ lia | ].
  rewrite <- seq_shift, map_map. apply map_ext. intro k. lia.
Qed.

Lemma count_up_ge (start : Z) (n : nat) (x : Z) :
  In x (count_up start n) -> (start <= x)%Z.
Proof.
  unfold count_up. rewrite in_map_iff. intros [k [<- _]]. lia.
Qed.

Lemma count_up_nodup (start : Z) (n : nat) : NoDup (count_up start n).
Proof.
  revert start. induction n as [ | n IH ]; intro start.
  - constructor.
  - rewrite count_up_cons. constructor; [ | apply IH ].
    intro H. apply count_up_ge in H. lia.
Qed.

Section GatewayStoreFacts.

Context {js : Json}.

Lemma next_free_id_above (existing : list Restaurant) :
  Forall (fun r => (id r < next_free_id existing)%Z) existing.
Proof.
  unfold next_free_id. destruct existing as [ | r0 rest ]; [ constructor | ].
  cbn [map]. destruct (fold_max_ge (map id rest) (id r0)) as [H0 Hrest].
  constructor; [ lia | ].
  rewrite Forall_map in Hrest. eapply Forall_impl; [ | exact Hrest ].
  intros r Hr. simpl in Hr. lia.
Qed.

Lemma new_restaurants_ids (data existing : list Restaurant) (next_id : Z)
    (q : string) (loc : option string) (prefs : option Preferences) :
  let fresh := new_restaurants data existing next_id q loc prefs in
  map id fresh = count_up next_id (List.length fresh).
Proof.
  revert next_id. induction data as [ | c data IH ]; intro next_id.
  - reflexivity.
  - cbn [new_restaurants]. destruct (_is_duplicate c existing); cbn [negb].
    + apply IH.
    + cbn zeta. cbn [map List.length]. rewrite count_up_cons. f_equal.
      apply IH.
Qed.

Lemma new_restaurants_tags (data existing : list Restaurant) (next_id : Z)
    (q : string) (loc : option string) (prefs : option Preferences) :
  Forall (fun r => source r = Some "ai_fetched"%string
                   /\ query r = Some q /\ location_hint r = Some loc)
         (new_restaurants data existing next_id q loc prefs).
Proof.
  revert next_id. induction data as [ | c data IH ]; intro next_id.
  - constructor.
  - cbn [new_restaurants]. destruct (_is_duplicate c existing); cbn [negb].
    + apply IH.
    + constructor; [ now cbn | apply IH ].
Qed.

(** X13. The records a fetch persists get consecutive ids that start
    above every id of the base catalog and of the store (at 1000 when
    both are empty), and carry the provenance tags of the call; so ids
    that were pairwise distinct stay pairwise distinct. *)
Theorem fetched_records_get_fresh_ids :
  forall (f : AIDataFetcher) (ai : Providers) (q : string)
         (loc : option string) (max_results : nat)
         (prefs : option Preferences),
    exists fresh f',
      fetch_restaurant_data f ai q loc max_results prefs = Returns (fresh, f')
      /\ let existing := base_restaurants f ++ fetched_data f in
         map id fresh = count_up (next_free_id existing) (List.length fresh)
         /\ Forall (fun r => (id r < next_free_id existing)%Z) existing
         /\ (existing = [] -> next_free_id existing = 1000%Z)
         /\ Forall (fun r => source r = Some "ai_fetched"%string
                             /\ query r = Some q
                             /\ location_hint r = Some loc)
                   fresh
         /\ (NoDup (map id existing) ->
             NoDup (map id (base_restaurants f' ++ fetched_data f'))).
Proof.
  intros f ai q loc max_results prefs. unfold fetch_restaurant_data.
  destruct (fetch_candidates_returns f ai (enhanced_query q prefs) loc
              max_results) as [data Hdata].
  rewrite Hdata. cbn [bind].
  set (existing := base_restaurants f ++ fetched_data f).
  assert (Hempty : existing = [] -> next_free_id existing = 1000%Z)
    by (intro H; now rewrite H).
  destruct data as [ | c data ].
  - exists [], f. split; [ reflexivity | ]. cbn zeta.
    split; [ reflexivity | ]. split; [ apply next_free_id_above | ].
    split; [ exact Hempty | ]. split; [ constructor | ]. tauto.
  - eexists _, _. split; [ reflexivity | ]. cbn zeta.
    cbn [fetched_data base_restaurants].
    set (fresh := new_restaurants (c :: data) existing (next_free_id existing)
                    q loc prefs).
    pose proof (new_restaurants_ids (c :: data) existing
                  (next_free_id existing) q loc prefs) as Hids.
    cbn zeta in Hids. fold fresh in Hids.
    split; [ exact Hids | ]. split; [ apply next_free_id_above | ].
    split; [ exact Hempty | ]. split; [ apply new_restaurants_tags | ].
    intro Hnd. rewrite app_assoc. fold existing.
    rewrite map_app, Hids. apply NoDup_app; [ exact Hnd | apply count_up_nodup | ].
    intros x Hx Hfresh. apply count_up_ge in Hfresh.
    apply in_map_iff in Hx as [r [<- Hr]].
    pose proof (next_free_id_above existing) as Habove.
    rewrite Forall_forall in Habove. specialize (Habove r Hr). lia.
Qed.


End GatewayStoreFacts.




Section NormalizedTextFacts.

Context {js : Json}.





Lemma is_duplicate_app (c : Restaurant) (a b : list Restaurant) :
  _is_duplicate c (a ++ b) = _is_duplicate c a || _is_duplicate c b.
Proof.
  unfold _is_duplicate.
  destruct (String.eqb (_normalize_text (restaurantName c)) "");
    [ reflexivity | apply existsb_app ].
Qed.

Lemma is_duplicate_of_namesake (c stored : Restaurant) (l : list Restaurant) :
  _normalize_text (restaurantName c) <> ""%string ->
  In stored l -> restaurantName stored = restaurantName c ->
  _is_duplicate c l = true.
Proof.
  intros Hname Hin Hsame. unfold _is_duplicate.
  apply String.eqb_neq in Hname. rewrite Hname.
  apply existsb_exists. exists stored. split; [ exact Hin | ].
  unfold duplicate_of. now rewrite Hsame, String.eqb_refl.
Qed.

Lemma kept_candidate_is_stored (data existing : list Restaurant) (next_id : Z)
    (q : string) (loc : option string) (prefs : option Preferences)
    (c : Restaurant) :
  In c data -> _is_duplicate c existing = false ->
  exists stored,
    In stored (new_restaurants data existing next_id q loc prefs)
    /\ restaurantName stored = restaurantName c.
Proof.
  revert next_id. induction data as [ | c0 data IH ]; intros next_id Hin Hc;
    [ destruct Hin | ].
  cbn [new_restaurants]. destruct Hin as [-> | Hin].
  - rewrite Hc. cbn [negb]. eexists. split; [ now left | reflexivity ].
  - destruct (_is_duplicate c0 existing); cbn [negb].
    + now apply IH.
    + destruct (IH (next_id + 1)%Z Hin Hc) as [stored [Hs Hn]].
      exists stored. split; [ now right | exact Hn ].
Qed.

Lemma all_duplicates_store_nothing (data existing : list Restaurant)
    (next_id : Z) (q : string) (loc : option string)
    (prefs : option Preferences) :
  Forall (fun c => _is_duplicate c existing = true) data ->
  new_restaurants data existing next_id q loc prefs = [].
Proof.
  intro H. induction H as [ | c data Hc _ IH ]; [ reflexivity | ].
  cbn [new_restaurants]. now rewrite Hc.
Qed.

(** X16. When every candidate of a reply has a name that does not
    normalize to the empty text, a second fetch that receives the same
    candidates persists nothing and returns nothing: each candidate is
    by then a duplicate of a stored record. *)
Theorem fetching_the_same_reply_again_stores_nothing :
  forall (f : AIDataFetcher) (ai : Providers) (q : string)
         (loc : option string) (max_results : nat)
         (prefs : option Preferences) (data : list Restaurant),
    fetch_candidates f ai (enhanced_query q prefs) loc max_results
    = Returns data ->
    forallb (fun c => negb (String.eqb (_normalize_text (restaurantName c)) ""))
            data = true ->
    exists fresh f',
      fetch_restaurant_data f ai q loc max_results prefs = Returns (fresh, f')
      /\ fetch_restaurant_data f' ai q loc max_results prefs
         = Returns ([], f').
Proof.
  intros f ai q loc max_results prefs data Hdata Hnamed.
  unfold fetch_restaurant_data at 1. rewrite Hdata. cbn [bind].
  destruct data as [ | c0 data0 ] eqn:Edata.
  - exists [], f. split; [ reflexivity | ].
    unfold fetch_restaurant_data. now rewrite Hdata.
  - rewrite <- Edata in *. clear Edata c0 data0.
    set (existing := base_restaurants f ++ fetched_data f).
    set (fresh := new_restaurants data existing (next_free_id existing) q loc
                    prefs).
    eexists fresh, _. split.
    { destruct data; [ | reflexivity ].
      subst fresh. cbn [new_restaurants]. rewrite app_nil_r.
      destruct f; reflexivity. }
    unfold fetch_restaurant_data.
    set (f' := {| openai_client := openai_client f;
                  gemini_model := gemini_model f;
                  fetched_data := fetched_data f ++ fresh;
                  base_restaurants := base_restaurants f |}).
    assert (Hsame : fetch_candidates f' ai (enhanced_query q prefs) loc
                      max_results = Returns data) by exact Hdata.
    rewrite Hsame. cbn [bind].
    assert (Hnone :
      new_restaurants data (base_restaurants f' ++ fetched_data f')
        (next_free_id (base_restaurants f' ++ fetched_data f')) q loc prefs
      = []).
    { apply all_duplicates_store_nothing. apply Forall_forall. intros c Hc.
      subst f'. cbn [base_restaurants fetched_data]. rewrite app_assoc.
      fold existing. rewrite is_duplicate_app.
      destruct (_is_duplicate c existing) eqn:Ed; [ reflexivity | ].
      cbn [orb].
      destruct (kept_candidate_is_stored data existing (next_free_id existing)
                  q loc prefs c Hc Ed) as [stored [Hs Hn]].
      apply (is_duplicate_of_namesake c stored); [ | exact Hs | exact Hn ].
      rewrite forallb_forall in Hnamed. specialize (Hnamed c Hc).
      apply negb_true_iff, String.eqb_neq in Hnamed. exact Hnamed. }
    rewrite Hnone, app_nil_r.
    destruct data; reflexivity.
Qed.

End NormalizedTextFacts.

Lemma fetching_the_same_reply_again_stores_nothing_witness :
  fetch_candidates (js := taco_town_twice) empty_gateway taco_reply
    (enhanced_query "tacos" None) None 5
  = Returns [taco_town; taco_town]
  /\ forallb (fun c => negb (String.eqb
                               (_normalize_text (restaurantName c)) ""))
             [taco_town; taco_town] = true
  /\ exists fresh f',
      fetch_restaurant_data (js := taco_town_twice) empty_gateway taco_reply
        "tacos" None 5 None = Returns (fresh, f')
      /\ fetch_restaurant_data (js := taco_town_twice) f' taco_reply "tacos"
           None 5 None = Returns ([], f').
Proof.
  split; [ reflexivity | ]. split; [ reflexivity | ].
  apply (fetching_the_same_reply_again_stores_nothing (js := taco_town_twice)
           empty_gateway taco_reply "tacos" None 5 None [taco_town; taco_town]);
    reflexivity.
Defined.

(** ** The enrichment gateway: the code fence of a reply *)

Lemma rev_app (a b : string) : Py.rev (a ++ b) = (Py.rev b ++ Py.rev a)%string.
Proof.
  induction a as [ | c a IH ].
  - simpl. now rewrite append_nil_r.
  - simpl. rewrite !rev_cons, IH. apply append_assoc.
Qed.

Lemma rev_rev (s : string) : Py.rev (Py.rev s) = s.
Proof.
  induction s as [ | c s IH ]; [ reflexivity | ].
  rewrite rev_cons, rev_app, IH. reflexivity.
Qed.

Lemma prefix_app (a b : string) : prefix a (a ++ b) = true.
Proof. apply prefix_iff. now exists b. Qed.

Section CodeFenceFacts.

Context {js : Json}.

(** X17. A reply wrapped in a json code fence reaches the JSON parser
    as its body, without the fence and without the white space around
    the body, provided the body does not itself open with a fence. *)
Theorem fenced_reply_is_unwrapped :
  forall (body : string),
    Py.startswith (body ++ "```") "```" = false ->
    strip_code_fence ("```json" ++ body ++ "```") = Py.strip body.
Proof.
  intros body Hbody. unfold strip_code_fence.
  assert (Hstrip : Py.strip ("```json" ++ body ++ "```")
                   = ("```json" ++ body ++ "```")%string).
  { unfold Py.strip. change (Py.lstrip ("```json" ++ body ++ "```"))
      with ("```json" ++ body ++ "```")%string.
    unfold Py.rstrip.
    change ("```json" ++ body ++ "```")%string
      with ("```json" ++ (body ++ "```"))%string.
    rewrite <- append_assoc, rev_app.
    change (Py.rev "```") with "```"%string.
    change (Py.lstrip ("```" ++ Py.rev ("```json" ++ body)))
      with ("```" ++ Py.rev ("```json" ++ body))%string.
    change ("```" ++ Py.rev ("```json" ++ body))%string
      with (Py.rev "```" ++ Py.rev ("```json" ++ body))%string.
    now rewrite <- rev_app, rev_rev. }
  rewrite Hstrip.
  assert (Hjson : Py.startswith ("```json" ++ body ++ "```") "```json" = true)
    by apply (prefix_app "```json" (body ++ "```")).
  assert (Hdrop : Py.drop 7 ("```json" ++ body ++ "```")
                  = (body ++ "```")%string) by reflexivity.
  assert (Hends : Py.endswith (body ++ "```") "```" = true).
  { unfold Py.endswith. rewrite rev_app. apply prefix_app. }
  assert (Hcut : Py.drop_end 3 (body ++ "```") = body).
  { unfold Py.drop_end. rewrite rev_app.
    change (Py.drop 3 (Py.rev "```" ++ Py.rev body)) with (Py.rev body).
    apply rev_rev. }
  now rewrite Hjson, Hdrop, Hbody, Hends, Hcut.
Qed.

End CodeFenceFacts.

Lemma fenced_reply_is_unwrapped_witness :
  Py.startswith (array_on_a_line ++ "```") "```" = false
  /\ strip_code_fence ("```json" ++ array_on_a_line ++ "```")
     = Py.strip array_on_a_line.
Proof.
  split; [ reflexivity | ].
  apply (fenced_reply_is_unwrapped array_on_a_line). reflexivity.
Defined.

(** ** The hybrid ranker: the combined ranking *)

Lemma in_setitem {V : Type} (d : list (Z * V)) (k0 k : Z) (v0 v : V) :
  In (k, v) (Py.setitem Z.eqb d k0 v0) -> In (k, v) d \/ (k = k0 /\ v = v0).
Proof.
  induction d as [ | [k' v'] d IH ]; simpl.
  - intros [H | []]. right. split; congruence.
  - destruct (Z.eqb k0 k') eqn:E.
    + apply Z.eqb_eq in E. subst k'. intros [H | H].
      * right. split; congruence.
      * left. now right.
    + intros [H | H]; [ left; now left | ].
      destruct (IH H) as [H' | H']; [ left; now right | now right ].
Qed.

Lemma has_key_in {V : Type} (d : list (Z * V)) (k : Z) :
  Py.has_key Z.eqb d k = true <-> In k (map fst d).
Proof.
  unfold Py.has_key. pose proof (lookup_none Z.eqb Z.eqb_eq d k) as H.
  destruct (Py.lookup Z.eqb d k).
  - split; [ intros _ | reflexivity ].
    destruct (in_dec Z.eq_dec k (map fst d)) as [Hin | Hout]; [ exact Hin | ].
    apply H in Hout. discriminate Hout.
  - split; [ discriminate | ]. intro Hin. exfalso. now apply (proj1 H).
Qed.

Lemma setitem_key_in {V : Type} (d : list (Z * V)) (k0 k : Z) (v0 : V) :
  In k (map fst (Py.setitem Z.eqb d k0 v0)) <-> In k (map fst d) \/ k = k0.
Proof.
  rewrite (setitem_keys Z.eqb).
  destruct (Py.has_key Z.eqb d k0) eqn:E.
  - apply has_key_in in E. split; [ tauto | ]. intros [H | ->]; assumption.
  - rewrite in_app_iff. simpl. intuition congruence.
Qed.

Section CombinedRankingFacts.

Context {sk : Sklearn} {js : Json}.

Lemma note_consistent (write : Scores.t -> Scores.t)
    (acc : list (Z * Scores.t) * list (Z * Restaurant)) (r : Restaurant) :
  consistent acc -> consistent (note write acc r).
Proof.
  destruct acc as [scores data]. unfold consistent, note. cbn [fst snd].
  intros [Hkeys [Hnd Hid]].
  rewrite !(setitem_keys Z.eqb).
  assert (Hhas : Py.has_key Z.eqb data (id r) = Py.has_key Z.eqb scores (id r)).
  { destruct (Py.has_key Z.eqb scores (id r)) eqn:E.
    - apply has_key_in. rewrite <- Hkeys. now apply has_key_in.
    - destruct (Py.has_key Z.eqb data (id r)) eqn:E'; [ | reflexivity ].
      apply has_key_in in E'. rewrite <- Hkeys in E'.
      apply has_key_in in E'. congruence. }
  rewrite Hhas, Hkeys. split; [ reflexivity | ]. split.
  - rewrite <- Hkeys. rewrite <- (setitem_keys Z.eqb scores (id r)
                                     (write zero_scores)).
    now apply (setitem_nodup Z.eqb Z.eqb_eq).
  - apply Forall_forall. intros [k v] Hin. cbn [fst snd].
    apply in_setitem in Hin as [Hin | [-> ->]]; [ | reflexivity ].
    rewrite Forall_forall in Hid. exact (Hid _ Hin).
Qed.

(** One source loop: what it keeps and what it adds. *)
Lemma source_loop {A : Type} (write : A -> Scores.t -> Scores.t)
    (pick : A -> Restaurant) (P : Scores.t -> Prop) (items : list A)
    (acc : list (Z * Scores.t) * list (Z * Restaurant)) :
  let acc' :=
    fold_left (fun acc item => note (write item) acc (pick item)) items acc in
  consistent acc ->
  P zero_scores ->
  (forall item s, In item items -> P s -> P (write item s)) ->
  Forall (fun entry => P (snd entry)) (fst acc) ->
  consistent acc'
  /\ (forall k, In k (map fst (fst acc'))
                <-> In k (map fst (fst acc))
                    \/ In k (map (fun item => id (pick item)) items))
  /\ (forall k r, In (k, r) (snd acc') ->
                  In (k, r) (snd acc) \/ In r (map pick items))
  /\ Forall (fun entry => P (snd entry)) (fst acc').
Proof.
  cbv zeta. revert acc. induction items as [ | item items IH ];
    intros acc Hc Hzero Hwrite HP.
  - cbn [fold_left map]. split; [ exact Hc | ].
    split; [ intro k; simpl; tauto | ].
    split; [ intros k r H; now left | exact HP ].
  - cbn [fold_left].
    assert (HP' : Forall (fun entry => P (snd entry))
                         (fst (note (write item) acc (pick item)))).
    { destruct acc as [scores data]. unfold note. cbn [fst snd] in *.
      apply Forall_forall. intros [k s] Hin. cbn [snd].
      rewrite Forall_forall in HP.
      apply in_setitem in Hin as [Hin | [_ ->]]; [ exact (HP _ Hin) | ].
      apply Hwrite; [ now left | ].
      destruct (Py.lookup Z.eqb scores (id (pick item))) as [ s0 | ] eqn:E;
        [ | exact Hzero ].
      apply (lookup_in Z.eqb Z.eqb_eq) in E. exact (HP _ E). }
    destruct (IH (note (write item) acc (pick item)) (note_consistent _ _ _ Hc)
                Hzero (fun i s Hi => Hwrite i s (or_intror Hi)) HP')
      as [Hc' [Hkeys [Hdata HP'']]].
    split; [ exact Hc' | ]. split; [ | split; [ | exact HP'' ] ].
    + intro k. rewrite Hkeys. destruct acc as [scores data].
      unfold note. cbn [fst snd map In]. rewrite setitem_key_in.
      intuition congruence.
    + intros k r Hin. destruct (Hdata k r Hin) as [H | H].
      * destruct acc as [scores data]. unfold note in H. cbn [fst snd] in *.
        apply in_setitem in H as [H | [_ ->]]; [ now left | ].
        right. now left.
      * right. now right.
Qed.

Lemma gather_spec (P : Scores.t -> Prop) (content_results : list Scored)
    (collab_results : list CollabItem.t) (search_results : list SearchItem.t)
    (ai_results : list AiItem.t) :
  let acc := gather content_results collab_results search_results ai_results in
  P zero_scores ->
  (forall item s, In item content_results -> P s ->
                  P (set_content (score item) s)) ->
  (forall item s, In item collab_results -> P s ->
                  P (set_collab (CollabItem.collaborative_score item) s)) ->
  (forall item s, In item search_results -> P s ->
                  P (set_search (Py.min 1.0 (SearchItem.search_score item * 1.2)) s)) ->
  (forall item s, In item ai_results -> P s ->
                  P (set_ai (Py.min 1.0 (AiItem.score item * 1.1)) s)) ->
  consistent acc
  /\ (forall k, In k (map fst (fst acc))
                <-> In k (source_ids content_results collab_results
                            search_results ai_results))
  /\ (forall k r, In (k, r) (snd acc) ->
                  In r (map restaurant content_results)
                  \/ In r (map CollabItem.restaurant collab_results)
                  \/ In r (map SearchItem.restaurant search_results)
                  \/ In r (map AiItem.restaurant ai_results))
  /\ Forall (fun entry => P (snd entry)) (fst acc).
Proof.
  cbv zeta. intros Hzero H1 H2 H3 H4. unfold gather, source_ids.
  assert (H0 : consistent ([], [])) by (repeat split; constructor).
  destruct (source_loop (fun item => set_content (score item)) restaurant P
              content_results ([], []) H0 Hzero H1 (Forall_nil _))
    as [Ha [Ka [Da Pa]]].
  set (a := fold_left _ content_results _) in *.
  destruct (source_loop
              (fun item => set_collab (CollabItem.collaborative_score item))
              CollabItem.restaurant P collab_results a Ha Hzero H2 Pa)
    as [Hb [Kb [Db Pb]]].
  set (b := fold_left _ collab_results _) in *.
  destruct (source_loop
              (fun item => set_search
                             (Py.min 1.0 (SearchItem.search_score item * 1.2)))
              SearchItem.restaurant P search_results b Hb Hzero H3 Pb)
    as [Hc [Kc [Dc Pc]]].
  set (c := fold_left _ search_results _) in *.
  destruct (source_loop
              (fun item => set_ai (Py.min 1.0 (AiItem.score item * 1.1)))
              AiItem.restaurant P ai_results c Hc Hzero H4 Pc)
    as [Hd [Kd [Dd Pd]]].
  split; [ exact Hd | ]. split; [ | split; [ | exact Pd ] ].
  - intro k. rewrite Kd, Kc, Kb, Ka, !in_app_iff. simpl. tauto.
  - intros k r Hin.
    destruct (Dd k r Hin) as [H | H]; [ | tauto ].
    destruct (Dc k r H) as [H' | H']; [ | tauto ].
    destruct (Db k r H') as [H'' | H'']; [ | tauto ].
    destruct (Da k r H'') as [[] | H''']. tauto.
Qed.

(** The entries of the ranking, one per key of the score dict. *)
Lemma ranked_entries (w : Weights) (data : list (Z * Restaurant))
    (l : list (Z * Scores.t)) :
  Forall (fun entry => id (snd entry) = fst entry) data ->
  Forall (fun entry => In (fst entry) (map fst data)) l ->
  ranked_ids
    (flat_map
       (fun '(rest_id, scores) =>
          match Py.lookup Z.eqb data rest_id with
          | Some r =>
              [{| Ranked.restaurant := r;
                  Ranked.score := combined_score w scores;
                  Ranked.content_score := Scores.content_score scores;
                  Ranked.collab_score := Scores.collab_score scores;
                  Ranked.search_score := Scores.search_score scores;
                  Ranked.ai_score := Scores.ai_score scores |}]
          | None => []
          end) l)
  = map fst l.
Proof.
  intros Hid Hkeys. induction Hkeys as [ | [k s] l Hk _ IH ]; [ reflexivity | ].
  cbn [flat_map]. unfold ranked_ids in *. rewrite map_app, IH. cbn [fst] in Hk.
  destruct (Py.lookup Z.eqb data k) as [ r | ] eqn:E.
  - apply (lookup_in Z.eqb Z.eqb_eq) in E. rewrite Forall_forall in Hid.
    specialize (Hid _ E). cbn [fst snd] in Hid. cbn. now rewrite Hid.
  - apply (lookup_none Z.eqb Z.eqb_eq) in E. contradiction.
Qed.

Lemma combined_ranking_entry (P : Scores.t -> Prop)
    (content_results : list Scored) (collab_results : list CollabItem.t)
    (search_results : list SearchItem.t) (ai_results : list AiItem.t)
    (item : Ranked.t) :
  Forall (fun entry => P (snd entry))
         (fst (gather content_results collab_results search_results ai_results)) ->
  In item (_combine_recommendations content_results collab_results
             search_results ai_results) ->
  exists k s,
    In (k, Ranked.restaurant item)
       (snd (gather content_results collab_results search_results ai_results))
    /\ P s
    /\ Ranked.content_score item = Scores.content_score s
    /\ Ranked.collab_score item = Scores.collab_score s
    /\ Ranked.search_score item = Scores.search_score s
    /\ Ranked.ai_score item = Scores.ai_score s.
Proof.
  unfold _combine_recommendations.
  destruct (gather content_results collab_results search_results ai_results)
    as [scores data].
  cbn [fst snd]. intro HP. rewrite sort_desc_in, in_flat_map.
  intros [[k s] [Hks Hitem]].
  destruct (Py.lookup Z.eqb data k) as [ r | ] eqn:E; [ | destruct Hitem ].
  destruct Hitem as [<- | []]. exists k, s. cbn.
  rewrite Forall_forall in HP.
  split; [ now apply (lookup_in Z.eqb Z.eqb_eq) | ].
  split; [ exact (HP _ Hks) | ]. repeat split.
Qed.

Lemma combined_ranking_ids (content_results : list Scored)
    (collab_results : list CollabItem.t) (search_results : list SearchItem.t)
    (ai_results : list AiItem.t) :
  Permutation
    (ranked_ids (_combine_recommendations content_results collab_results
                   search_results ai_results))
    (map fst (fst (gather content_results collab_results search_results
                     ai_results))).
Proof.
  destruct (gather_spec (fun _ => True) content_results collab_results
              search_results ai_results I (fun _ _ _ _ => I)
              (fun _ _ _ _ => I) (fun _ _ _ _ => I) (fun _ _ _ _ => I))
    as [[Hkeys [_ Hid]] _].
  unfold _combine_recommendations.
  destruct (gather content_results collab_results search_results ai_results)
    as [scores data].
  cbn [fst snd] in *.
  rewrite <- (ranked_entries
                (select_weights
                   match search_results with [] => false | _ => true end
                   match ai_results with [] => false | _ => true end)
                data scores Hid).
  - unfold ranked_ids. apply Permutation_map, sort_desc_perm.
  - apply Forall_forall. intros [k s] Hin. cbn [fst]. rewrite <- Hkeys.
    apply in_map_iff. now exists (k, s).
Qed.

Lemma combined_ranking_shape (content_results : list Scored)
    (collab_results : list CollabItem.t) (search_results : list SearchItem.t)
    (ai_results : list AiItem.t) :
  let result :=
    _combine_recommendations content_results collab_results search_results
      ai_results in
  StronglySorted (not_below Ranked.score) result
  /\ NoDup (ranked_ids result)
  /\ Forall
       (fun item =>
          In (Ranked.restaurant item) (map restaurant content_results)
          \/ In (Ranked.restaurant item)
                (map CollabItem.restaurant collab_results)
          \/ In (Ranked.restaurant item)
                (map SearchItem.restaurant search_results)
          \/ In (Ranked.restaurant item) (map AiItem.restaurant ai_results))
       result.
Proof.
  cbv zeta.
  destruct (gather_spec (fun _ => True) content_results collab_results
              search_results ai_results I (fun _ _ _ _ => I)
              (fun _ _ _ _ => I) (fun _ _ _ _ => I) (fun _ _ _ _ => I))
    as [[_ [Hnd _]] [_ [Hfrom HP]]].
  split; [ | split ].
  - unfold _combine_recommendations.
    destruct (gather content_results collab_results search_results ai_results).
    apply sort_desc_sorted.
  - apply (Permutation_NoDup (l := map fst (fst (gather content_results
             collab_results search_results ai_results)))); [ | exact Hnd ].
    symmetry. apply combined_ranking_ids.
  - apply Forall_forall. intros item Hin.
    destruct (combined_ranking_entry (fun _ => True) _ _ _ _ item HP Hin)
      as [k [s [Hdata _]]].
    exact (Hfrom _ _ Hdata).
Qed.

(** X18. The combined ranking is in descending order of final score
    and lists every restaurant id that one of the four sources lists,
    each id once, and no other; each entry carries a restaurant record
    of one of the sources. *)
Theorem combined_ranking_covers_the_sources :
  forall (content_results : list Scored) (collab_results : list CollabItem.t)
         (search_results : list SearchItem.t) (ai_results : list AiItem.t),
    let result :=
      _combine_recommendations content_results collab_results search_results
        ai_results in
    StronglySorted (not_below Ranked.score) result
    /\ NoDup (ranked_ids result)
    /\ (forall i,
           In i (ranked_ids result)
           <-> In i (source_ids content_results collab_results search_results
                       ai_results))
    /\ Forall
         (fun item =>
            In (Ranked.restaurant item) (map restaurant content_results)
            \/ In (Ranked.restaurant item)
                  (map CollabItem.restaurant collab_results)
            \/ In (Ranked.restaurant item)
                  (map SearchItem.restaurant search_results)
            \/ In (Ranked.restaurant item) (map AiItem.restaurant ai_results))
         result.
Proof.
  intros content_results collab_results search_results ai_results result.
  destruct (combined_ranking_shape content_results collab_results
              search_results ai_results) as [Hsorted [Hnd Hfrom]].
  destruct (gather_spec (fun _ => True) content_results collab_results
              search_results ai_results I (fun _ _ _ _ => I)
              (fun _ _ _ _ => I) (fun _ _ _ _ => I) (fun _ _ _ _ => I))
    as [_ [Hcover _]].
  pose proof (combined_ranking_ids content_results collab_results
                search_results ai_results) as Hids.
  split; [ exact Hsorted | ]. split; [ exact Hnd | ].
  split; [ | exact Hfrom ].
  intro i. rewrite <- Hcover. split; apply Permutation_in;
    [ exact Hids | now symmetry ].
Qed.

Lemma normalized_bounds (s : Scores.t) :
  no_negative_score s ->
  let n := normalized s in
  0 <= content_norm n <= 1 /\ 0 <= collab_norm n <= 1
  /\ 0 <= search_norm n <= 1 /\ 0 <= ai_norm n <= 1.
Proof.
  intros [Hc [Hs Ha]]. cbn.
  assert (Hmin : forall x, 0 <= x -> 0 <= Py.min 1.0 x <= 1).
  { intros x Hx. split; [ apply min_ge; lra | ].
    pose proof (min_le_l 1.0 x). lra. }
  split; [ now apply Hmin | ]. split; [ | split; now apply Hmin ].
  destruct (Py.gtb (Scores.collab_score s) 0) eqn:E; [ | lra ].
  apply ltb_lt in E. apply Hmin.
  apply Qle_shift_div_l; lra.
Qed.

Lemma adjusted_weights_convex (has_search has_ai : bool) (n : Normalized) :
  let a := adjusted_weights (select_weights has_search has_ai) n in
  0 <= content_weight a /\ 0 <= collab_weight a /\ 0 <= search_weight a
  /\ 0 <= ai_weight a /\ total_weight a == 1.
Proof.
  cbv zeta. set (w := select_weights has_search has_ai).
  pose proof (select_weights_positive has_search has_ai) as Hpos. fold w in Hpos.
  destruct (adjusted_fields w n Hpos) as [H1 [H2 [H3 H4]]].
  destruct (redistributed_fields w n) as [R1 [R2 [R3 R4]]].
  pose proof (redistributed_total w n) as Hsum.
  assert (Hw : 0 <= content_weight w /\ 0 <= collab_weight w
               /\ 0 <= search_weight w /\ 0 <= ai_weight w).
  { subst w. destruct has_search, has_ai; cbn; lra. }
  destruct Hw as [W1 [W2 [W3 W4]]].
  assert (Hkept : forall x y, 0 <= y -> 0 <= kept x y)
    by (intros x y Hy; unfold kept; destruct (Py.is_zero x); lra).
  assert (Hfolded : forall x y, 0 <= y -> 0 <= folded x y)
    by (intros x y Hy; unfold folded; destruct (Py.is_zero x); lra).
  pose proof (Hkept (collab_norm n) _ W2) as K2.
  pose proof (Hkept (search_norm n) _ W3) as K3.
  pose proof (Hkept (ai_norm n) _ W4) as K4.
  pose proof (Hfolded (collab_norm n) _ W2) as F2.
  pose proof (Hfolded (search_norm n) _ W3) as F3.
  pose proof (Hfolded (ai_norm n) _ W4) as F4.
  assert (Hdiv : forall x, 0 <= x -> 0 <= x / total_weight w).
  { intros x Hx. apply Qle_shift_div_l; [ exact Hpos | lra ]. }
  split; [ rewrite H1; apply Hdiv; lra | ].
  split; [ rewrite H2; apply Hdiv; lra | ].
  split; [ rewrite H3; apply Hdiv; lra | ].
  split; [ rewrite H4; apply Hdiv; lra | ].
  unfold total_weight at 1. rewrite H1, H2, H3, H4.
  unfold total_weight in Hsum at 1.
  transitivity ((content_weight (redistributed w n)
                 + collab_weight (redistributed w n)
                 + search_weight (redistributed w n)
                 + ai_weight (redistributed w n)) / total_weight w).
  - field. lra.
  - rewrite Hsum. field. lra.
Qed.

Lemma convex_sum_bounds (n1 n2 n3 n4 a1 a2 a3 a4 : Q) :
  0 <= n1 <= 1 -> 0 <= n2 <= 1 -> 0 <= n3 <= 1 -> 0 <= n4 <= 1 ->
  0 <= a1 -> 0 <= a2 -> 0 <= a3 -> 0 <= a4 -> a1 + a2 + a3 + a4 == 1 ->
  0 <= n1 * a1 + n2 * a2 + n3 * a3 + n4 * a4 <= 1.
Proof.
  intros N1 N2 N3 N4 A1 A2 A3 A4 Hsum.
  assert (Hprod : forall n a, 0 <= n <= 1 -> 0 <= a -> 0 <= n * a <= a).
  { intros n a [Hn0 Hn1] Ha. split.
    - now apply Qmult_le_0_compat.
    - rewrite <- (Qmult_1_l a) at 2. now apply Qmult_le_compat_r. }
  pose proof (Hprod _ _ N1 A1). pose proof (Hprod _ _ N2 A2).
  pose proof (Hprod _ _ N3 A3). pose proof (Hprod _ _ N4 A4).
  lra.
Qed.

(** X19. When no content, search or enrichment score handed to the
    combination is negative, every final score of the combined ranking
    lies in [0,1], whatever the collaborative scores are. *)
Theorem combined_scores_lie_in_the_unit_interval :
  forall (content_results : list Scored) (collab_results : list CollabItem.t)
         (search_results : list SearchItem.t) (ai_results : list AiItem.t),
    Forall (fun item => 0 <= score item) content_results ->
    Forall (fun item => 0 <= SearchItem.search_score item) search_results ->
    Forall (fun item => 0 <= AiItem.score item) ai_results ->
    Forall (fun item => 0 <= Ranked.score item <= 1)
      (_combine_recommendations content_results collab_results search_results
         ai_results).
Proof.
  intros content_results collab_results search_results ai_results Hc Hs Ha.
  rewrite Forall_forall in Hc, Hs, Ha.
  assert (Hboost : forall x k, 0 <= x -> 0 <= k -> 0 <= Py.min 1.0 (x * k)).
  { intros x k Hx Hk. apply min_ge; [ lra | now apply Qmult_le_0_compat ]. }
  destruct (gather_spec no_negative_score content_results collab_results
              search_results ai_results) as [_ [_ [_ HP]]].
  - unfold no_negative_score, zero_scores. cbn. lra.
  - intros item s Hin [P1 [P2 P3]]. unfold no_negative_score. cbn.
    split; [ exact (Hc _ Hin) | tauto ].
  - intros item s Hin [P1 [P2 P3]]. unfold no_negative_score. cbn. tauto.
  - intros item s Hin [P1 [P2 P3]]. unfold no_negative_score. cbn.
    split; [ exact P1 | ]. split; [ | exact P3 ].
    apply Hboost; [ exact (Hs _ Hin) | lra ].
  - intros item s Hin [P1 [P2 P3]]. unfold no_negative_score. cbn.
    split; [ exact P1 | ]. split; [ exact P2 | ].
    apply Hboost; [ exact (Ha _ Hin) | lra ].
  - apply Forall_forall. intros item Hin.
    rewrite (combined_entry _ _ _ _ item Hin).
    destruct (combined_ranking_entry no_negative_score _ _ _ _ item HP Hin)
      as [k [s [_ [[P1 [P2 P3]] [E1 [E2 [E3 E4]]]]]]].
    assert (Hitem : no_negative_score (sub_scores item)).
    { unfold no_negative_score, sub_scores. cbn. rewrite E1, E3, E4. tauto. }
    destruct (normalized_bounds _ Hitem) as [N1 [N2 [N3 N4]]].
    destruct (adjusted_weights_convex (nonempty search_results)
                (nonempty ai_results) (normalized (sub_scores item)))
      as [A1 [A2 [A3 [A4 Hsum]]]].
    unfold combined_score. cbv zeta.
    apply convex_sum_bounds; assumption.
Qed.

End CombinedRankingFacts.

Lemma combined_scores_lie_in_the_unit_interval_witness :
  let content := [{| restaurant := curry_house; score := 0.8 |}] in
  let search :=
    [{| SearchItem.restaurant := grill; SearchItem.search_score := 0.5;
        SearchItem.semantic_score := 0.5; SearchItem.keyword_score := 0.5 |}] in
  Forall (fun item => 0 <= score item) content
  /\ Forall (fun item => 0 <= SearchItem.search_score item) search
  /\ Forall (fun item => 0 <= AiItem.score item) []
  /\ Forall (fun item => 0 <= Ranked.score item <= 1)
       (_combine_recommendations content [] search []).
Proof.
  intros content search.
  assert (Hc : Forall (fun item => 0 <= score item) content)
    by (repeat constructor; cbn; lra).
  assert (Hs : Forall (fun item => 0 <= SearchItem.search_score item) search)
    by (repeat constructor; cbn; lra).
  split; [ exact Hc | ]. split; [ exact Hs | ]. split; [ constructor | ].
  apply (combined_scores_lie_in_the_unit_interval content [] search [] Hc Hs).
  constructor.
Defined.

(** ** The hybrid ranker: a run of [recommend] *)


Section RecommendFacts.

Context {sk : Sklearn} {js : Json}.










End RecommendFacts.



(** ** The voice preference extractor *)

Lemma first_category_label (table : list (string * list string))
    (text : string) :
  within (map fst table) (first_category table text).
Proof.
  induction table as [ | [label keywords] table IH ]; [ exact I | ].
  cbn [first_category]. destruct (Py.any_in keywords text).
  - now left.
  - destruct (first_category table text); [ now right | exact I ].
Qed.

Lemma within_weaken (valid valid' : list string) (v : option string) :
  incl valid valid' -> within valid v -> within valid' v.
Proof. intros Hincl. destruct v; [ apply Hincl | trivial ]. Qed.

Lemma keep_valid_within (valid : list string) (v : option string) :
  within valid (Voice.keep_valid valid v).
Proof.
  unfold Voice.keep_valid. destruct v as [ s | ]; [ | exact I ].
  destruct (negb (String.eqb s "") && Py.mem s valid) eqn:E; [ | exact I ].
  apply andb_true_iff in E as [_ E]. unfold Py.mem in E.
  apply existsb_exists in E as [x [Hx E]]. apply String.eqb_eq in E.
  now subst.
Qed.

Lemma match_occasion_within (v : option string) :
  within Voice.valid_occasions (Voice.match_occasion v).
Proof.
  unfold Voice.match_occasion. destruct v as [ s | ]; [ | exact I ].
  destruct (String.eqb s ""); [ exact I | ].
  destruct (find _ Voice.valid_occasions) eqn:E; [ | exact I ].
  now apply find_some in E.
Qed.

Lemma dietary_of_valid (text : string) :
  In (Voice.dietary_of text) Voice.valid_dietary.
Proof.
  unfold Voice.dietary_of.
  repeat match goal with
         | |- context [if ?b then _ else _] => destruct b
         end; simpl; tauto.
Qed.

Section VoiceExtractorFacts.

Context {js : Voice.Json} {re : Voice.Regex}.

Lemma normalized_in_vocabulary (document : Voice.JsonDocument)
    (p : Voice.Preferences) :
  Voice._normalize_preferences document = Returns p -> in_vocabulary p.
Proof.
  unfold Voice._normalize_preferences.
  destruct document as [ raw | ]; [ | discriminate ].
  destruct (Voice.lowered (Voice.raw_mood raw)); [ | discriminate ].
  destruct (Voice.lowered (Voice.raw_occasion raw)); [ | discriminate ].
  destruct (Voice.lowered (Voice.raw_cuisine raw)); [ | discriminate ].
  destruct (Voice.lowered (Voice.raw_dietaryPreference raw)); [ | discriminate ].
  destruct (Voice.lowered (Voice.raw_time raw)); [ | discriminate ].
  cbn [bind]. intro H. injection H as <-. unfold in_vocabulary. cbn.
  repeat split; try apply keep_valid_within. apply match_occasion_within.
Qed.

Lemma ai_result_in_vocabulary (ai_fetcher : option AIDataFetcher)
    (ai : Voice.Providers) (transcript : string) (p : Voice.Preferences) :
  Voice._extract_with_ai ai_fetcher ai transcript = Some p -> in_vocabulary p.
Proof.
  unfold Voice._extract_with_ai. destruct ai_fetcher as [ f | ]; [ | discriminate ].
  destruct (negb (openai_client f) && negb (gemini_model f)); [ discriminate | ].
  assert (Hread : forall provider,
             match (preferences <- Voice.read_reply provider transcript ;;
                    Returns (Some preferences)) with
             | Returns result => result
             | Raises _ => None
             end = Some p -> in_vocabulary p).
  { intro provider. unfold Voice.read_reply.
    destruct (provider transcript) as [ text | ]; [ | discriminate ].
    cbn [bind]. destruct (Voice.loads _) as [ document | ]; [ | discriminate ].
    cbn [bind].
    destruct (Voice._normalize_preferences document) as [ p' | ] eqn:E;
      [ | discriminate ].
    cbn [bind]. intro H. injection H as <-.
    exact (normalized_in_vocabulary _ _ E). }
  destruct (openai_client f); [ apply Hread | ].
  destruct (gemini_model f); [ apply Hread | discriminate ].
Qed.

Lemma keywords_outcome (transcript : string) :
  match Voice._extract_with_keywords transcript with
  | Returns p =>
      in_vocabulary p
      /\ Voice.location p
         = match Voice.place_of transcript with
           | Some place => Voice.JString place
           | None => Voice.JNull
           end
      /\ (Voice.place_of transcript = None ->
          Voice.search_street transcript = None)
  | Raises e =>
      e = Exception "IndexError"
      /\ Voice.place_of transcript = None
      /\ Voice.search_street transcript <> None
  end.
Proof.
  unfold Voice._extract_with_keywords, Voice.find_location.
  assert (Hvoc : forall found notes,
             in_vocabulary
               {| Voice.mood :=
                    first_category Voice.mood_keywords (Py.lower transcript);
                  Voice.occasion :=
                    first_category Voice.occasion_keywords (Py.lower transcript);
                  Voice.cuisine :=
                    first_category Voice.cuisine_keywords (Py.lower transcript);
                  Voice.dietaryPreference :=
                    Some (Voice.dietary_of (Py.lower transcript));
                  Voice.time :=
                    first_category Voice.time_keywords (Py.lower transcript);
                  Voice.location := found;
                  Voice.additionalNotes := notes |}).
  { intros found notes. unfold in_vocabulary.
    cbn [Voice.mood Voice.occasion Voice.cuisine Voice.dietaryPreference
         Voice.time within].
    split; [ apply (first_category_label Voice.mood_keywords) | ].
    split; [ apply (first_category_label Voice.occasion_keywords) | ].
    split.
    { apply (within_weaken (map fst Voice.cuisine_keywords));
        [ | apply first_category_label ].
      intros x Hx. now right. }
    split; [ apply dietary_of_valid | ].
    apply (first_category_label Voice.time_keywords). }
  destruct (Voice.place_of transcript) as [ place | ].
  - cbn [bind]. split; [ apply Hvoc | ]. split; [ reflexivity | discriminate ].
  - destruct (Voice.search_street transcript) as [ street | ]; cbn [bind].
    + split; [ reflexivity | ]. split; [ reflexivity | discriminate ].
    + split; [ apply Hvoc | ]. split; reflexivity.
Qed.

(** X23. Whatever the provider replies or raises, the extractor either
    returns preferences whose mood, occasion, cuisine, dietary
    preference and time are each absent or a word of its vocabulary, or
    it raises IndexError, which is then what the keyword matching
    raises on that transcript; a blank transcript gives the empty
    preferences. *)
Theorem extract_preferences_outcomes :
  forall (ai_fetcher : option AIDataFetcher) (ai : Voice.Providers)
         (transcript : string) (use_ai : bool),
    match Voice.extract_preferences ai_fetcher ai transcript use_ai with
    | Returns p =>
        in_vocabulary p
        /\ (Py.strip transcript = ""%string -> p = Voice._empty_preferences)
    | Raises e =>
        e = Exception "IndexError"
        /\ Voice._extract_with_keywords transcript = Raises e
    end.
Proof.
  intros ai_fetcher ai transcript use_ai. unfold Voice.extract_preferences.
  destruct (String.eqb transcript "" || String.eqb (Py.strip transcript) "")
    eqn:Eblank.
  { split; [ | reflexivity ]. unfold in_vocabulary. cbn. tauto. }
  apply orb_false_iff in Eblank as [_ Eblank]. apply String.eqb_neq in Eblank.
  set (ai_result := match ai_fetcher with Some _ => _ | None => None end).
  destruct ai_result as [ p | ] eqn:Eai.
  - split; [ | contradiction ]. subst ai_result.
    destruct ai_fetcher as [ f | ]; [ | discriminate Eai ].
    destruct use_ai; [ | discriminate Eai ].
    exact (ai_result_in_vocabulary _ _ _ _ Eai).
  - pose proof (keywords_outcome transcript) as H.
    destruct (Voice._extract_with_keywords transcript) as [ p | e ].
    + split; [ tauto | contradiction ].
    + destruct H as [-> _]. split; reflexivity.
Qed.

(** X24. The keyword matching raises IndexError exactly when the
    street pattern matches and the first location pattern gives no
    location longer than two characters; when it returns, the location
    is what the first pattern gave, so a match of the street pattern is
    never returned as the location. *)
Theorem street_match_raises_index_error :
  forall (transcript : string),
    (Voice._extract_with_keywords transcript = Raises (Exception "IndexError")
     <-> Voice.place_of transcript = None
         /\ Voice.search_street transcript <> None)
    /\ (forall p,
           Voice._extract_with_keywords transcript = Returns p ->
           Voice.location p
           = match Voice.place_of transcript with
             | Some place => Voice.JString place
             | None => Voice.JNull
             end
           /\ (Voice.place_of transcript = None ->
               Voice.search_street transcript = None)).
Proof.
  intro transcript. pose proof (keywords_outcome transcript) as H.
  destruct (Voice._extract_with_keywords transcript) as [ p | e ].
  - split.
    + split; [ discriminate | ]. intros [Hplace Hstreet].
      destruct H as [_ [_ Hnone]]. now apply Hnone in Hplace.
    + intros p' Hp. injection Hp as <-. tauto.
  - destruct H as [-> H]. split; [ | discriminate ].
    split; [ intros _; exact H | reflexivity ].
Qed.

(** X25. A transcript in which the word non-vegetarian occurs is given
    the dietary preference vegetarian by the keyword matching, whose
    dietary preference is never absent. *)
Theorem spoken_non_vegetarian_is_heard_as_vegetarian :
  forall (transcript : string) (p : Voice.Preferences),
    Py.contains "non-vegetarian" (Py.lower transcript) = true ->
    Voice._extract_with_keywords transcript = Returns p ->
    Voice.dietaryPreference p = Some "vegetarian"%string.
Proof.
  intros transcript p Hnon. unfold Voice._extract_with_keywords.
  destruct (Voice.find_location transcript); [ | discriminate ].
  cbn [bind]. intro H. injection H as <-. cbn [Voice.dietaryPreference].
  unfold Voice.dietary_of. cbn [Py.any_in existsb].
  assert (Hveg : Py.contains "vegetarian" (Py.lower transcript) = true).
  { apply (contains_trans _ "non-vegetarian"%string); [ reflexivity | exact Hnon ]. }
  now rewrite Hveg.
Qed.

End VoiceExtractorFacts.

Lemma remove_marked_absent (marker : string) (s : string) :
  Py.contains marker s = false -> Voice.remove_marked marker 0 false s = s.
Proof.
  induction s as [ | c s IH ]; [ reflexivity | ].
  cbn [Py.contains Voice.remove_marked andb].
  intros [Hprefix Hrest]%orb_false_iff.
  now rewrite Hprefix, (IH Hrest).
Qed.

(** X26. A reply in which no code fence occurs reaches the JSON parser
    as it is. *)
Theorem fence_free_reply_is_kept :
  forall (text : string),
    Py.contains "```" text = false -> Voice.remove_fences text = text.
Proof.
  intros text H. unfold Voice.remove_fences.
  assert (Hjson : Py.contains "```json" text = false).
  { destruct (Py.contains "```json" text) eqn:E; [ | reflexivity ].
    rewrite <- H. symmetry.
    apply (contains_trans _ "```json"%string); [ reflexivity | exact E ]. }
  now rewrite (remove_marked_absent _ _ Hjson), (remove_marked_absent _ _ H).
Qed.

Lemma spoken_non_vegetarian_is_heard_as_vegetarian_witness :
  let transcript := "I want non-vegetarian food"%string in
  Py.contains "non-vegetarian" (Py.lower transcript) = true
  /\ exists p,
      Voice._extract_with_keywords (re := no_location) transcript = Returns p
      /\ Voice.dietaryPreference p = Some "vegetarian"%string.
Proof.
  intro transcript. split; [ reflexivity | ].
  eexists. split; [ reflexivity | ].
  apply (spoken_non_vegetarian_is_heard_as_vegetarian (re := no_location)
           transcript); reflexivity.
Defined.

Lemma fence_free_reply_is_kept_witness :
  Py.contains "```" "{}" = false /\ Voice.remove_fences "{}" = "{}"%string.
Proof.
  split; [ reflexivity | ]. apply (fence_free_reply_is_kept "{}"). reflexivity.
Defined.

(** On a transcript that names Baker Street and no place after in, at,
    near or around, the extraction raises. *)
Example baker_street_raises (js : Voice.Json) (ai : Voice.Providers) :
  Voice.extract_preferences (re := street_only) None ai
    "somewhere on Baker Street" true
  = Raises (Exception "IndexError").
Proof. reflexivity. Qed.

(** ** Letter case of a query, users without interactions *)

Section CaseAndColdStartFacts.

Context {sk : Sklearn}.


Lemma matrix_row_user (log : list Interaction) (u : string)
    (row : list (string * Q)) :
  Py.lookup String.eqb (_build_similarity_matrix log) u = Some row ->
  exists r, interacted log u r.
Proof.
  rewrite build_is_matrix_of. unfold matrix_of.
  destruct (user_ids (accumulate log)) as [ | u0 us ] eqn:Eu; [ discriminate | ].
  rewrite <- Eu. clear Eu. cbv zeta.
  set (users := Py.sorted String.leb (user_ids (accumulate log))).
  set (X := map _ users).
  destruct (1 <? List.length X)%nat; [ | discriminate ].
  rewrite lookup_rows_from.
  destruct (index_of u users) as [ i | ] eqn:E; [ | discriminate ].
  intros _. apply user_ids_interacted.
  apply (Permutation_in (l := users)); [ apply sorted_perm | ].
  pose proof (index_of_nth _ _ _ E) as Hnth. apply index_of_lt in E.
  rewrite <- Hnth. now apply nth_In.
Qed.

(** X28. In every state of the filter, a user without an interaction
    in the log has no similar users and gets no collaborative
    recommendation, whatever the catalog. *)
Theorem user_without_interactions_gets_nothing :
  forall cf : CollaborativeFiltering,
    reachable cf ->
    forall (user : string) (restaurants : list Restaurant) (top_k : nat),
      (forall r, ~ interacted (user_interactions cf) user r) ->
      get_similar_users cf user top_k = []
      /\ get_collaborative_recommendations cf user restaurants top_k = [].
Proof.
  intros cf Hreach user restaurants top_k Hnone.
  rewrite (reachable_is_loaded cf Hreach) in *.
  cbn [user_interactions load] in Hnone.
  unfold get_similar_users, get_collaborative_recommendations.
  cbn [user_similarity_matrix load].
  destruct (Py.lookup String.eqb
              (_build_similarity_matrix (user_interactions cf)) user)
    as [ row | ] eqn:E; [ | split; reflexivity ].
  destruct (matrix_row_user _ _ _ E) as [r Hr]. now apply Hnone in Hr.
Qed.

End CaseAndColdStartFacts.

Lemma user_without_interactions_gets_nothing_witness :
  let cf := load (sk := no_shared_terms) two_users in
  reachable (sk := no_shared_terms) cf
  /\ (forall r, ~ interacted (user_interactions cf) "z" r)
  /\ get_similar_users cf "z" 5 = []
  /\ get_collaborative_recommendations cf "z" [curry_house; grill] 9 = [].
Proof.
  intro cf.
  assert (Hnone : forall r, ~ interacted (user_interactions cf) "z" r).
  { intros r [i [Hin Hi]]. simpl in Hin.
    destruct Hin as [<- | [<- | [<- | []]]]; discriminate Hi. }
  split; [ apply reach_load | ]. split; [ exact Hnone | ].
  apply (user_without_interactions_gets_nothing (sk := no_shared_terms) cf
           (reach_load two_users) "z"%string [curry_house; grill] 9%nat Hnone).
Defined.
